(** * Memory Context Overlay: bounded buffers, OCR stage and context analyzer

    A shallow embedding of the pipeline of [src/screen_capture.py],
    [src/ocr_extractor.py] and [src/context_analyzer.py], with the parts of
    [src/main.py], [run.py] and [src/gui_overlay.py] that use it.

    Conventions of the model.
    - A Python [str] is a list of 8-bit code points (the Latin-1 range of
      Python's text type), so [strip] and [lower] follow Python on that range.
    - A [datetime] is an integer number of microseconds, and so is the
      difference of two of them.
    - Binary floating point is not modelled.  Where the code computes with
      [float] and the result decides what it does (the capacity of the frame
      buffer, the cutoff of a time window), the operations are the fields of a
      structure [PyFloat.arith] that the definitions take as an argument.  An
      OCR confidence, which decides nothing, is a rational number.
    - Calls to [datetime.now()] are explicit clock readings passed as
      arguments, in the order in which the source performs them.
    - An external capability (OCR reader, LLM provider, [json.loads]) is a
      function argument; a raised exception is the value [None]. *)

From Stdlib Require Import List Ascii ZArith Lia Bool Arith QArith Qround.
From Stdlib Require Import Sorted.
From Stdlib Require String.
Import ListNotations.
Import String.StringSyntax.
Delimit Scope string_scope with string.
Open Scope nat_scope.

Set Implicit Arguments.
Set Warnings "-register-all".

(* ------------------------------------------------------------------------- *)
(** ** Python strings *)

Module PyStr.

Definition str := list ascii.

(** Literals are written as Rocq strings. *)
Definition py (s : String.string) : str := String.list_ascii_of_string s.
Arguments py s%_string.

(** The double quote character, and a helper that writes a literal whose
    double quotes are typed as another character [mark]: JSON texts are
    written with apostrophes ([q]), the prompt template with carets. *)
Definition dquote : ascii := ascii_of_nat 34.
Definition apostrophe : ascii := ascii_of_nat 39.
Definition caret : ascii := ascii_of_nat 94.
Definition newline : ascii := ascii_of_nat 10.
Definition backtick : ascii := ascii_of_nat 96.

Definition requote (mark : ascii) (s : String.string) : str :=
  map (fun c => if Ascii.eqb c mark then dquote else c) (py s).

Definition q (s : String.string) : str := requote apostrophe s.
Arguments requote mark s%_string.
Arguments q s%_string.

Definition str_eqb (a b : str) : bool :=
  if list_eq_dec ascii_dec a b then true else false.

(** [c.isspace()] for one code point below 256. *)
Definition isspace (c : ascii) : bool :=
  let n := nat_of_ascii c in
  ((9 <=? n) && (n <=? 13)) || ((28 <=? n) && (n <=? 32))
  || (n =? 133) || (n =? 160).

(** [s.lstrip()], [s.rstrip()], [s.strip()] *)
Fixpoint lstrip (s : str) : str :=
  match s with
  | [] => []
  | c :: s' => if isspace c then lstrip s' else s
  end.

Definition rstrip (s : str) : str := rev (lstrip (rev s)).

Definition strip (s : str) : str := rstrip (lstrip s).

(** [s.startswith(p)] *)
Fixpoint startswith (p s : str) : bool :=
  match p, s with
  | [], _ => true
  | _ :: _, [] => false
  | a :: p', b :: s' => Ascii.eqb a b && startswith p' s'
  end.

(** [p in s] for a non-empty [p] *)
Fixpoint contains (p s : str) : bool :=
  match s with
  | [] => startswith p []
  | _ :: s' => startswith p s || contains p s'
  end.

(** [s.split(sep)] for a non-empty [sep]: the separator is searched from the
    left, occurrences do not overlap.  [skip] counts the characters of a
    separator still to be passed over, [cur] is the piece being read, in
    reverse. *)
Fixpoint split_from (sep : str) (skip : nat) (cur : str) (s : str) : list str :=
  match s with
  | [] => [rev cur]
  | c :: s' =>
      match skip with
      | S k => split_from sep k cur s'
      | O =>
          if startswith sep s
          then rev cur :: split_from sep (length sep - 1) [] s'
          else split_from sep 0 (c :: cur) s'
      end
  end.

Definition split (sep s : str) : list str := split_from sep 0 [] s.

(** [sep.join(parts)] *)
Fixpoint join (sep : str) (parts : list str) : str :=
  match parts with
  | [] => []
  | [p] => p
  | p :: rest => p ++ sep ++ join sep rest
  end.

(** [c.lower()] for one code point below 256: the ASCII capitals and the
    Latin-1 capitals (0xC0..0xDE without the multiplication sign 0xD7). *)
Definition lower_char (c : ascii) : ascii :=
  let n := nat_of_ascii c in
  if ((65 <=? n) && (n <=? 90))
     || ((192 <=? n) && (n <=? 222) && negb (n =? 215))
  then ascii_of_nat (n + 32) else c.

Definition lower (s : str) : str := map lower_char s.

End PyStr.

Import PyStr.

(* ------------------------------------------------------------------------- *)
(** ** [collections.deque(maxlen=...)] *)

Module Deque.

Record deque (A : Type) : Type := mkDeque
  { maxlen : nat;
    items : list A }.

Definition deque_new (A : Type) (n : nat) : deque A := mkDeque n [].

(** [d.append(x)]: the item is added on the right, and when the length then
    exceeds [maxlen] one item is removed on the left. *)
Definition append (A : Type) (d : deque A) (x : A) : deque A :=
  let xs := items d ++ [x] in
  mkDeque (maxlen d) (if maxlen d <? length xs then tl xs else xs).

(** A run of appends, first item first. *)
Definition appends (A : Type) (d : deque A) (xs : list A) : deque A :=
  fold_left (@append A) xs d.

End Deque.

Import Deque.

(* ------------------------------------------------------------------------- *)
(** ** The arithmetic of [float] *)

Module PyFloat.

(** The operations on [float] that the code uses.  [of_int n] is the float
    an [int] is converted to in mixed arithmetic, [div] is [None] for
    [ZeroDivisionError], [trunc] is [int(x)], [None] when it raises, and
    [timestamp] is [datetime.timestamp()]. *)
Record arith : Type := mkArith
  { float : Type;
    of_int : Z -> float;
    mul : float -> float -> float;
    sub : float -> float -> float;
    div : float -> float -> option float;
    ge : float -> float -> bool;
    trunc : float -> option Z;
    timestamp : Z -> float }.

(** What a parameter annotated [float] receives: an [int] or a [float]. *)
Inductive number (F : arith) : Type :=
  | Int (n : Z)
  | Float (x : float F).

(** The conversion of mixed arithmetic. *)
Definition to_float (F : arith) (x : number F) : float F :=
  match x with
  | Int _ n => of_int F n
  | Float _ x => x
  end.

(** [x * k] for an [int] constant [k]: a product of integers when [x] is an
    [int], of floats otherwise. *)
Definition times_int (F : arith) (x : number F) (k : Z) : number F :=
  match x with
  | Int _ n => Int F (n * k)
  | Float _ x => Float F (mul F x (of_int F k))
  end.

(** Truncation towards zero of a rational. *)
Definition Qtrunc (x : Q) : Z :=
  if Qle_bool 0%Q x then Qfloor x else Qceiling x.

(** The arithmetic of the rationals, without rounding.  It is one arithmetic
    among those the definitions accept, used where an example needs a
    concrete one; binary floating point differs from it wherever it
    rounds. *)
Definition exact : arith :=
  mkArith inject_Z Qmult Qminus
    (fun x y => if Qeq_bool y 0%Q then None else Some (x / y)%Q)
    (fun x y => Qle_bool y x)
    (fun x => Some (Qtrunc x))
    (fun t => Qmake t 1000000).

End PyFloat.

(* ------------------------------------------------------------------------- *)
(** ** [screen_capture.py]: the frame buffer *)

Module ScreenCapture.

Section WithImage.

Variable F : PyFloat.arith.
Variable Image : Type.

Definition Frame : Type := (Z * Image)%type.

Record t : Type := mkScreenCapture
  { fps : PyFloat.float F;
    buffer_duration : Z;
    frame_interval : PyFloat.float F;
    frame_buffer : deque Frame }.

(** [int(fps * buffer_duration)], [None] when [int] raises. *)
Definition max_frames (fps : PyFloat.float F) (buffer_duration : Z) : option Z :=
  PyFloat.trunc F (PyFloat.mul F fps (PyFloat.of_int F buffer_duration)).

(** [ScreenCapture.__init__]: [1.0 / fps] raises for a zero [fps], and
    [deque(maxlen=...)] raises for a negative [max_frames]. *)
Definition init (fps : PyFloat.float F) (buffer_duration : Z) : option t :=
  match PyFloat.div F (PyFloat.of_int F 1) fps with
  | None => None
  | Some frame_interval =>
      match max_frames fps buffer_duration with
      | None => None
      | Some max_frames =>
          if (max_frames <? 0)%Z then None
          else Some (mkScreenCapture fps buffer_duration frame_interval
                       (deque_new Frame (Z.to_nat max_frames)))
      end
  end.

(** The buffer update of one turn of [_capture_loop]. *)
Definition capture (sc : t) (frame : Frame) : t :=
  mkScreenCapture (fps sc) (buffer_duration sc) (frame_interval sc)
    (append (frame_buffer sc) frame).

Definition captures (sc : t) (frames : list Frame) : t :=
  fold_left capture frames sc.

(** [d[-1]] guarded by [if d]: the newest item of a buffer, if any. *)
Definition newest (A : Type) (l : list A) : option A :=
  match rev l with
  | x :: _ => Some x
  | [] => None
  end.

(** [get_latest_frame] *)
Definition get_latest_frame (sc : t) : option Frame :=
  newest (items (frame_buffer sc)).

(** [get_frames_since] *)
Definition get_frames_since (now : Z) (seconds : PyFloat.float F) (sc : t)
    : list Frame :=
  let cutoff := PyFloat.sub F (PyFloat.timestamp F now) seconds in
  filter (fun frame => PyFloat.ge F (PyFloat.timestamp F (fst frame)) cutoff)
    (items (frame_buffer sc)).

Record BufferStats : Type := mkBufferStats
  { frame_count : nat;
    duration_seconds : Z;
    oldest_timestamp : option Z;
    newest_timestamp : option Z }.

(** [get_buffer_stats]; the duration is the difference [newest - oldest] in
    microseconds, before [total_seconds()] converts it. *)
Definition get_buffer_stats (sc : t) : BufferStats :=
  match items (frame_buffer sc) with
  | [] => mkBufferStats 0 0 None None
  | first :: rest =>
      let oldest := fst first in
      let newest := fst (last rest first) in
      mkBufferStats (length (first :: rest)) (newest - oldest)
        (Some oldest) (Some newest)
  end.

End WithImage.

End ScreenCapture.

(* ------------------------------------------------------------------------- *)
(** ** [ocr_extractor.py] *)

Module OCRExtractor.

Record TextRecord : Type := mkTextRecord
  { timestamp : Z;
    text : str;
    confidence : Q }.

Record t : Type := mkOCRExtractor
  { text_buffer : deque TextRecord;
    _processing : bool;
    _last_extraction_time : option Z }.

(** [OCRExtractor.__init__] *)
Definition init : t :=
  mkOCRExtractor (deque_new TextRecord 200) false None.

Definition set_processing (b : bool) (st : t) : t :=
  mkOCRExtractor (text_buffer st) b (_last_extraction_time st).

Definition bbox : Type := list (Z * Z).

Section WithReader.

Variable Image : Type.

(** [reader.readtext(np.array(image))], [None] when anything in it raises. *)
Variable readtext : Image -> option (list (bbox * str * Q)).

Definition Qsum (l : list Q) : Q := fold_left Qplus l 0%Q.

(** [extract_text] *)
Definition extract_text (image : Image) : str * Q :=
  match readtext image with
  | None => ([], 0%Q)
  | Some [] => ([], 0%Q)
  | Some results =>
      let texts := map (fun r => snd (fst r)) results in
      let confidences := map (fun r => snd r) results in
      (join (py " ") texts,
       (Qsum confidences / inject_Z (Z.of_nat (length confidences)))%Q)
  end.

(** The guard of [process_frame]: [None] when the call is skipped, the state
    with the in-flight flag set otherwise.  [now] is the clock read by the
    rate limit. *)
Definition process_frame_enter (now : Z) (st : t) : option t :=
  if _processing st then None
  else
    match _last_extraction_time st with
    | Some last =>
        if (now - last <? 1000000)%Z then None
        else Some (set_processing true st)
    | None => Some (set_processing true st)
    end.

(** The body of [process_frame] under [try ... finally]; [now] is the clock
    read after the record is stored. *)
Definition process_frame_body (now : Z) (timestamp : Z) (image : Image)
    (st : t) : option str * t :=
  let '(text, confidence) := extract_text image in
  match strip text with
  | _ :: _ =>
      (Some text,
       mkOCRExtractor
         (append (text_buffer st) (mkTextRecord timestamp text confidence))
         false (Some now))
  | [] => (None, set_processing false st)
  end.

(** [process_frame] run without interruption. *)
Definition process_frame (now_check now_stored : Z) (timestamp : Z)
    (image : Image) (st : t) : option str * t :=
  match process_frame_enter now_check st with
  | None => (None, st)
  | Some st1 => process_frame_body now_stored timestamp image st1
  end.

(** A call of [process_frame] with its clock readings. *)
Record Call : Type := mkCall
  { now_check : Z;
    now_stored : Z;
    frame_timestamp : Z;
    frame_image : Image }.

Definition process_call (c : Call) (st : t) : option str * t :=
  process_frame (now_check c) (now_stored c) (frame_timestamp c)
    (frame_image c) st.

(** Calls run one after the other. *)
Definition process_calls (calls : list Call) (st : t) : t :=
  fold_left (fun st c => snd (process_call c st)) calls st.

(** The calls of a run that stored a record. *)
Fixpoint stored_calls (calls : list Call) (st : t) : list Call :=
  match calls with
  | [] => []
  | c :: rest =>
      match process_call c st with
      | (Some _, st') => c :: stored_calls rest st'
      | (None, st') => stored_calls rest st'
      end
  end.

End WithReader.

(** [get_recent_text] *)
Definition get_recent_text (F : PyFloat.arith) (now : Z)
    (seconds : PyFloat.float F) (st : t) : list TextRecord :=
  let cutoff := PyFloat.sub F (PyFloat.timestamp F now) seconds in
  filter
    (fun record => PyFloat.ge F (PyFloat.timestamp F (timestamp record)) cutoff)
    (items (text_buffer st)).

Definition text_key_of (text : str) : str := lower (firstn 50 text).

(** The loop of [get_combined_text]; the set [seen_texts] is a list used
    through membership only. *)
Fixpoint unique_loop (records : list TextRecord) (seen_texts : list str)
    (unique_texts : list str) : list str :=
  match records with
  | [] => unique_texts
  | record :: rest =>
      let text := strip (text record) in
      let text_key := text_key_of text in
      if negb (existsb (str_eqb text_key) seen_texts)
      then unique_loop rest (text_key :: seen_texts) (unique_texts ++ [text])
      else unique_loop rest seen_texts unique_texts
  end.

Definition get_combined_text (F : PyFloat.arith) (now : Z)
    (seconds : PyFloat.float F) (st : t) : str :=
  let records := get_recent_text F now seconds st in
  join [newline] (unique_loop records [] []).

Record BufferStats : Type := mkBufferStats
  { entry_count : nat;
    total_characters : nat;
    avg_confidence : Q }.

(** [get_buffer_stats] *)
Definition get_buffer_stats (st : t) : BufferStats :=
  match items (text_buffer st) with
  | [] => mkBufferStats 0 0 0%Q
  | records =>
      mkBufferStats (length records)
        (fold_left Nat.add (map (fun r => length (text r)) records) 0)
        (fold_left Qplus (map confidence records) 0%Q
         / inject_Z (Z.of_nat (length records)))%Q
  end.

End OCRExtractor.

(* ------------------------------------------------------------------------- *)
(** ** Values decoded from JSON *)

Module Json.

(** What [json.loads] builds: [None], [bool], [int], [str], [list] and [dict]
    (floats are left out).  A [dict] lists its keys once, in insertion
    order. *)
Inductive json : Type :=
  | JNull
  | JBool (b : bool)
  | JInt (z : Z)
  | JStr (s : str)
  | JList (l : list json)
  | JDict (kv : list (str * json)).

Fixpoint lookup (A : Type) (k : str) (kv : list (str * A)) : option A :=
  match kv with
  | [] => None
  | (k', v) :: rest => if str_eqb k' k then Some v else lookup k rest
  end.

(** [d[k] = v] *)
Fixpoint dict_set (A : Type) (k : str) (v : A) (kv : list (str * A))
    : list (str * A) :=
  match kv with
  | [] => [(k, v)]
  | (k', v') :: rest =>
      if str_eqb k' k then (k', v) :: rest else (k', v') :: dict_set k v rest
  end.

(** Python's [a == b] on these values; [True == 1] and [False == 0]. *)
Fixpoint py_eqb (a b : json) {struct a} : bool :=
  match a, b with
  | JNull, JNull => true
  | JBool x, JBool y => Bool.eqb x y
  | JBool x, JInt z => (Z.b2z x =? z)%Z
  | JInt z, JBool x => (z =? Z.b2z x)%Z
  | JInt x, JInt y => (x =? y)%Z
  | JStr x, JStr y => str_eqb x y
  | JList xs, JList ys =>
      (fix all2 (xs ys : list json) {struct xs} : bool :=
         match xs, ys with
         | [], [] => true
         | x :: xs', y :: ys' => py_eqb x y && all2 xs' ys'
         | _, _ => false
         end) xs ys
  | JDict xs, JDict ys =>
      (length xs =? length ys)%nat
      && (fix all (xs : list (str * json)) {struct xs} : bool :=
            match xs with
            | [] => true
            | (k, v) :: xs' =>
                match lookup k ys with
                | Some v' => py_eqb v v'
                | None => false
                end && all xs'
            end) xs
  | _, _ => false
  end.

End Json.

Import Json.

(* ------------------------------------------------------------------------- *)
(** ** Exceptions and state *)

Module Exc.

Inductive exn : Type :=
  | AttributeError
  | TypeError
  | IndexError.

Inductive outcome (A : Type) : Type :=
  | Ok (a : A)
  | Raised (e : exn).

Arguments Ok {A} a.
Arguments Raised {A} e.

(** A computation over a state [S] that may raise; the state reached when
    the exception is raised is kept. *)
Definition M (S A : Type) : Type := S -> outcome A * S.

Definition ret (S A : Type) (a : A) : M S A := fun st => (Ok a, st).

Definition bind (S A B : Type) (m : M S A) (k : A -> M S B) : M S B :=
  fun st =>
    match m st with
    | (Ok a, st') => k a st'
    | (Raised e, st') => (Raised e, st')
    end.

Definition get_state (S : Type) : M S S := fun st => (Ok st, st).

Definition modify (S : Type) (f : S -> S) : M S unit := fun st => (Ok tt, f st).

Definition lift (S A : Type) (o : outcome A) : M S A := fun st => (o, st).

Fixpoint for_each (S A : Type) (l : list A) (body : A -> M S unit) : M S unit :=
  match l with
  | [] => ret tt
  | x :: l' => bind (body x) (fun _ => for_each l' body)
  end.

End Exc.

Import Exc.

Declare Scope exc_scope.
Delimit Scope exc_scope with exc.

Notation "x <- m ;; k" := (bind m (fun x => k))
  (at level 100, m at next level, right associativity) : exc_scope.
Notation "m ;;; k" := (bind m (fun _ => k))
  (at level 100, right associativity) : exc_scope.

(* ------------------------------------------------------------------------- *)
(** ** [context_analyzer.py] *)

Module ContextAnalyzer.

Record KeyEvent : Type := mkKeyEvent
  { ke_timestamp : Z;
    ke_type : json;
    ke_value : json;
    ke_context : json }.

Record t : Type := mkContextAnalyzer
  { analysis_interval : Q;
    max_history : nat;
    current_activity : json;
    current_app : json;
    key_events : deque KeyEvent;
    _last_analysis_time : option Z }.

(** [ContextAnalyzer.__init__] *)
Definition init (analysis_interval : Q) (max_history : nat) : t :=
  mkContextAnalyzer analysis_interval max_history
    (JStr (py "Starting up...")) (JStr (py "Unknown"))
    (deque_new KeyEvent max_history) None.

Definition init_default : t := init 10 50.

Definition set_current_activity (v : json) (st : t) : t :=
  mkContextAnalyzer (analysis_interval st) (max_history st) v (current_app st)
    (key_events st) (_last_analysis_time st).

Definition set_current_app (v : json) (st : t) : t :=
  mkContextAnalyzer (analysis_interval st) (max_history st)
    (current_activity st) v (key_events st) (_last_analysis_time st).

Definition set_key_events (d : deque KeyEvent) (st : t) : t :=
  mkContextAnalyzer (analysis_interval st) (max_history st)
    (current_activity st) (current_app st) d (_last_analysis_time st).

Definition set_last_analysis_time (v : option Z) (st : t) : t :=
  mkContextAnalyzer (analysis_interval st) (max_history st)
    (current_activity st) (current_app st) (key_events st) v.

(** [x.get(k, default)]: only a [dict] has the method. *)
Definition get (x : json) (k : str) (default : json) : outcome json :=
  match x with
  | JDict kv =>
      match lookup k kv with
      | Some v => Ok v
      | None => Ok default
      end
  | _ => Raised AttributeError
  end.

(** The items of [for info in x]: a [list] gives its items, a [dict] its
    keys, a [str] its characters; nothing else can be iterated. *)
Definition iterate (x : json) : outcome (list json) :=
  match x with
  | JList l => Ok l
  | JDict kv => Ok (map (fun p => JStr (fst p)) kv)
  | JStr s => Ok (map (fun c => JStr [c]) s)
  | _ => Raised TypeError
  end.

Definition max_text_length : nat := 4000.

(** The truncation at the head of [_analyze_text]. *)
Definition truncate_text (text : str) : str :=
  if (max_text_length <? length text)%nat
  then firstn max_text_length text ++ py "..."
  else text.

(** The two halves of the prompt template, around the embedded text. *)
Definition prompt_head : str := requote caret "Analyze the following screen text captured from a user's computer and extract:

1. ACTIVITY: What is the user currently doing? (e.g., ^writing an email^, ^browsing Reddit^, ^coding in VS Code^)
2. APPLICATION: What application or website are they using? (e.g., ^Gmail^, ^Chrome - Reddit^, ^Visual Studio Code^)
3. KEY_INFO: Extract any important information that the user might need to remember, such as:
   - OTP codes or verification codes
   - Phone numbers
   - Email addresses
   - Names of people or companies
   - URLs or links
   - Prices or amounts
   - Dates or times
   - Order numbers or tracking numbers
   - Any other critical information

Screen text:
---
".

Definition prompt_tail : str := requote caret "
---

Respond in the following JSON format only (no markdown, no extra text):
{
    ^activity^: ^brief description of what user is doing^,
    ^application^: ^name of app or website^,
    ^key_info^: [
        {^type^: ^otp^, ^value^: ^123456^, ^context^: ^from Gmail^},
        {^type^: ^email^, ^value^: ^person@example.com^, ^context^: ^sender^},
        {^type^: ^name^, ^value^: ^John Smith^, ^context^: ^contact name^}
    ]
}

If no key information is found, return an empty array for key_info.
Only include key_info items that are clearly important - don't include generic UI text.".

Definition build_prompt (text : str) : str := prompt_head ++ text ++ prompt_tail.

Definition fence : str := py "```".

(** The clean-up of the response between the call and [json.loads]. *)
Definition unwrap_response (result_text : str) : outcome str :=
  let result_text := strip result_text in
  match
    (if startswith fence result_text
     then
       match nth_error (split fence result_text) 1 with
       | Some inner =>
           Ok (if startswith (py "json") inner then skipn 4 inner else inner)
       | None => Raised IndexError
       end
     else Ok result_text)
  with
  | Ok result_text => Ok (strip result_text)
  | Raised e => Raised e
  end.

(** The inner loop over the stored events, with its [break]. *)
Fixpoint is_duplicate (events : list KeyEvent) (info : json) : outcome bool :=
  match events with
  | [] => Ok false
  | existing :: rest =>
      match get info (py "type") JNull with
      | Raised e => Raised e
      | Ok ty =>
          if py_eqb (ke_type existing) ty
          then
            match get info (py "value") JNull with
            | Raised e => Raised e
            | Ok v =>
                if py_eqb (ke_value existing) v then Ok true
                else is_duplicate rest info
            end
          else is_duplicate rest info
      end
  end.

Local Open Scope exc_scope.

(** One turn of [for info in key_info]. *)
Definition merge_info (timestamp : Z) (info : json) : M t unit :=
  st <- get_state (S:=t) ;;
  is_dup <- lift (is_duplicate (items (key_events st)) info) ;;
  if is_dup : bool then ret tt
  else
    ty <- lift (get info (py "type") (JStr (py "info"))) ;;
    v <- lift (get info (py "value") (JStr [])) ;;
    c <- lift (get info (py "context") (JStr [])) ;;
    modify (fun st =>
      set_key_events (append (key_events st) (mkKeyEvent timestamp ty v c)) st).

(** The block under [with self._lock]. *)
Definition update_state (result : json) (timestamp : Z) : M t unit :=
  st <- get_state (S:=t) ;;
  activity <- lift (get result (py "activity") (current_activity st)) ;;
  (modify (set_current_activity activity) ;;;
  st <- get_state (S:=t) ;;
  app <- lift (get result (py "application") (current_app st)) ;;
  (modify (set_current_app app) ;;;
  key_info <- lift (get result (py "key_info") (JList [])) ;;
  infos <- lift (iterate key_info) ;;
  for_each infos (merge_info timestamp))).

Local Close Scope exc_scope.

Section WithJsonLoads.

(** [json.loads], [None] for [JSONDecodeError]. *)
Variable json_loads : str -> option json.

(** [_analyze_text].  [analyze] is [self._get_provider().analyze], [None]
    when the provider cannot be built, the call raises or the answer is not
    text; [now_merge] and [now_done] are the two clock readings.  Both
    handlers only print. *)
Definition _analyze_text (analyze : str -> option str) (now_merge now_done : Z)
    (text : str) (st : t) : t :=
  let text := truncate_text text in
  let prompt := build_prompt text in
  match analyze prompt with
  | None => st
  | Some result_text =>
      match unwrap_response result_text with
      | Raised _ => st
      | Ok result_text =>
          match json_loads result_text with
          | None => st
          | Some result =>
              match update_state result now_merge st with
              | (Ok _, st') => set_last_analysis_time (Some now_done) st'
              | (Raised _, st') => st'
              end
          end
      end
  end.

(** One turn of [_analysis_loop], for the text the callback returned. *)
Definition analysis_cycle (analyze : str -> option str) (now_merge now_done : Z)
    (text : str) (st : t) : t :=
  match strip text with
  | _ :: _ => _analyze_text analyze now_merge now_done text st
  | [] => st
  end.

Record Context : Type := mkContext
  { activity : json;
    application : json;
    snapshot_key_events : list KeyEvent;
    last_analysis : option Z }.

(** [get_current_context] *)
Definition get_current_context (st : t) : Context :=
  mkContext (current_activity st) (current_app st) (items (key_events st))
    (_last_analysis_time st).

(** [force_analyze] *)
Definition force_analyze (analyze : str -> option str) (now_merge now_done : Z)
    (text : str) (st : t) : Context * t :=
  let st' := _analyze_text analyze now_merge now_done text st in
  (get_current_context st', st').

End WithJsonLoads.

(** [get_recent_key_events] *)
Definition get_recent_key_events (F : PyFloat.arith) (now : Z)
    (minutes : PyFloat.number F) (st : t) : list KeyEvent :=
  let cutoff :=
    PyFloat.sub F (PyFloat.timestamp F now)
      (PyFloat.to_float (PyFloat.times_int minutes 60)) in
  filter
    (fun event => PyFloat.ge F (PyFloat.timestamp F (ke_timestamp event)) cutoff)
    (items (key_events st)).

(** *** The choice of the provider *)

Inductive ProviderClass : Type :=
  | GeminiProvider
  | GroqProvider
  | OpenAIProvider.

Definition api_key_name (c : ProviderClass) : str :=
  match c with
  | GeminiProvider => py "GEMINI_API_KEY"
  | GroqProvider => py "GROQ_API_KEY"
  | OpenAIProvider => py "OPENAI_API_KEY"
  end.

Definition api_key_placeholder (c : ProviderClass) : str :=
  match c with
  | GeminiProvider => py "your-gemini-api-key-here"
  | GroqProvider => py "your-groq-api-key-here"
  | OpenAIProvider => py "your-openai-api-key-here"
  end.

Definition providers : list (str * ProviderClass) :=
  [(py "gemini", GeminiProvider); (py "groq", GroqProvider);
   (py "openai", OpenAIProvider)].

Section WithEnvironment.

(** [os.getenv(name)], [None] for a variable that is not set. *)
Variable getenv : str -> option str.

(** The import of the provider's library and the construction of its client
    from the key, [None] when either raises. *)
Variable Provider : Type.
Variable client : ProviderClass -> str -> option Provider.

(** [GeminiProvider.__init__] and its two siblings, [None] when they
    raise. *)
Definition provider_init (c : ProviderClass) : option Provider :=
  match getenv (api_key_name c) with
  | None => None
  | Some [] => None
  | Some api_key =>
      if str_eqb api_key (api_key_placeholder c) then None
      else client c api_key
  end.

(** The loop over the fallback names of [get_llm_provider]. *)
Fixpoint try_fallbacks (provider_name : str) (fallbacks : list str)
    : option Provider :=
  match fallbacks with
  | [] => None
  | fallback :: rest =>
      if negb (str_eqb fallback provider_name) then
        match lookup fallback providers with
        | Some c =>
            match provider_init c with
            | Some p => Some p
            | None => try_fallbacks provider_name rest
            end
        | None => try_fallbacks provider_name rest
        end
      else try_fallbacks provider_name rest
  end.

(** [get_llm_provider], [None] for its [ValueError]. *)
Definition get_llm_provider : option Provider :=
  let provider_name :=
    lower (match getenv (py "LLM_PROVIDER") with
           | Some v => v
           | None => py "gemini"
           end) in
  let provider_name :=
    match lookup provider_name providers with
    | Some _ => provider_name
    | None => py "gemini"
    end in
  match lookup provider_name providers with
  | Some c =>
      match provider_init c with
      | Some p => Some p
      | None =>
          try_fallbacks provider_name [py "gemini"; py "groq"; py "openai"]
      end
  | None => None
  end.

End WithEnvironment.

End ContextAnalyzer.

(* ------------------------------------------------------------------------- *)
(** ** [main.py] *)

Module MemoryContextApp.

Record t : Type := mkApp
  { _frame_count : nat;
    _ocr_count : nat;
    ocr_extractor : OCRExtractor.t }.

Definition init : t := mkApp 0 0 OCRExtractor.init.

(** [_on_frame_captured]: the counter, and whether the frame is handed to
    OCR. *)
Definition _on_frame_captured (app : t) : t * bool :=
  let count := _frame_count app + 1 in
  (mkApp count (_ocr_count app) (ocr_extractor app), (count mod 3 =? 0)).

Section WithReader.

Variable Image : Type.
Variable readtext : Image -> option (list (OCRExtractor.bbox * str * Q)).

(** [_process_frame_ocr], run to its end. *)
Definition _process_frame_ocr (c : OCRExtractor.Call Image) (app : t) : t :=
  match OCRExtractor.process_call readtext c (ocr_extractor app) with
  | (Some (_ :: _), ocr) => mkApp (_frame_count app) (_ocr_count app + 1) ocr
  | (_, ocr) => mkApp (_frame_count app) (_ocr_count app) ocr
  end.

(** A captured frame: counted, then read when it is a third one. *)
Definition on_frame (c : OCRExtractor.Call Image) (app : t) : t :=
  let '(app, dispatched) := _on_frame_captured app in
  if dispatched then _process_frame_ocr c app else app.

Definition on_frames (calls : list (OCRExtractor.Call Image)) (app : t) : t :=
  fold_left (fun app c => on_frame c app) calls app.

End WithReader.

(** [_get_recent_text], for an application whose extractor exists or not. *)
Definition _get_recent_text (F : PyFloat.arith) (now : Z)
    (extractor : option OCRExtractor.t) : str :=
  match extractor with
  | Some ocr => OCRExtractor.get_combined_text F now (PyFloat.of_int F 30) ocr
  | None => []
  end.

End MemoryContextApp.

(* ------------------------------------------------------------------------- *)
(** ** [run.py] *)

Module Launcher.

Definition key_map : list (str * str) :=
  [(py "gemini", py "GEMINI_API_KEY"); (py "groq", py "GROQ_API_KEY");
   (py "openai", py "OPENAI_API_KEY")].

Section WithEnvironment.

Variable getenv : str -> option str.

Definition provider : str :=
  lower (match getenv (py "LLM_PROVIDER") with
         | Some v => v
         | None => py "gemini"
         end).

Definition key_name : str :=
  match lookup provider key_map with
  | Some name => name
  | None => py "GEMINI_API_KEY"
  end.

Definition api_key : str :=
  match getenv key_name with
  | Some v => v
  | None => []
  end.

(** The test that decides whether the launcher warns. *)
Definition key_missing : bool :=
  match api_key with
  | [] => true
  | _ :: _ => startswith (py "your-") api_key
  end.

End WithEnvironment.

End Launcher.

(* ------------------------------------------------------------------------- *)
(** ** [gui_overlay.py]: the placement of the panel and the list it shows *)

Module InfoPanel.

Definition panel_width : Z := 400.
Definition panel_height : Z := 450.

(** The available geometry of the primary screen. *)
Record Geometry : Type := mkGeometry
  { left : Z;
    right : Z;
    top : Z }.

(** [position_above_icon]: the point the panel is moved to. *)
Definition position_above_icon (icon_x icon_y : Z) (screen : option Geometry)
    : Z * Z :=
  let x := icon_x in
  let y := (icon_y - panel_height - 10)%Z in
  match screen with
  | Some geometry =>
      let x :=
        if (right geometry <? x + panel_width)%Z
        then (right geometry - panel_width - 10)%Z else x in
      let x := if (x <? left geometry)%Z then (left geometry + 10)%Z else x in
      let y := if (y <? top geometry)%Z then (icon_y + 60)%Z else y in
      (x, y)
  | None => (x, y)
  end.

(** The truth value of a decoded value in a condition. *)
Definition truthy (v : json) : bool :=
  match v with
  | JNull => false
  | JBool b => b
  | JInt z => negb (z =? 0)%Z
  | JStr [] => false
  | JStr (_ :: _) => true
  | JList [] => false
  | JList (_ :: _) => true
  | JDict [] => false
  | JDict (_ :: _) => true
  end.

Section WithLabels.

(** Whether Qt builds [QLabel(context)] from a value that is not text. *)
Variable qlabel_accepts : json -> bool.

(** [_create_key_info_item]: [true] when the widget of the event is built,
    [false] when its construction raises.  [event.get('type', 'info').lower()]
    needs a text; the label of the context is built only when the context is
    true. *)
Definition _create_key_info_item (event : ContextAnalyzer.KeyEvent) : bool :=
  match ContextAnalyzer.ke_type event with
  | JStr _ =>
      let context := ContextAnalyzer.ke_context event in
      if truthy context
      then match context with
           | JStr _ => true
           | _ => qlabel_accepts context
           end
      else true
  | _ => false
  end.

(** What the layout holds above its stretch. *)
Inductive Widget : Type :=
  | NoInfoLabel
  | ItemWidget (event : ContextAnalyzer.KeyEvent).

(** The loop of [_update_key_info]: the widgets inserted, from the top of the
    layout down, and whether the loop raised. *)
Fixpoint insert_items (events : list ContextAnalyzer.KeyEvent)
    : list Widget * bool :=
  match events with
  | [] => ([], false)
  | event :: rest =>
      if _create_key_info_item event
      then let '(shown, raised) := insert_items rest in
           (ItemWidget event :: shown, raised)
      else ([], true)
  end.

(** [_update_key_info]: the layout is emptied, then it receives the label of
    an empty list, or the items of [reversed(key_events[-10:])]. *)
Definition _update_key_info (key_events : list ContextAnalyzer.KeyEvent)
    : list Widget * bool :=
  match key_events with
  | [] => ([NoInfoLabel], false)
  | _ :: _ => insert_items (rev (skipn (length key_events - 10) key_events))
  end.

End WithLabels.

End InfoPanel.

(* ------------------------------------------------------------------------- *)
(** ** A decoder for a fragment of JSON

    [json.loads] belongs to Python's standard library; the development is
    parametric in it.  To run [_analyze_text] on concrete responses, this
    module decodes the fragment of JSON without floats and without escape
    sequences in strings; on that fragment it follows the grammar of JSON,
    and it rejects every other text. *)

Module JsonLite.

Definition code_is (n : nat) (c : ascii) : bool := (nat_of_ascii c =? n)%nat.

Definition is_ws (c : ascii) : bool := code_is 32 c || code_is 9 c || code_is 10 c || code_is 13 c.

Definition is_digit (c : ascii) : bool :=
  ((48 <=? nat_of_ascii c) && (nat_of_ascii c <=? 57))%nat.

Fixpoint skip_ws (s : str) : str :=
  match s with
  | c :: s' => if is_ws c then skip_ws s' else s
  | [] => []
  end.

(** The characters of a string up to its closing quote. *)
Fixpoint scan_string (acc : str) (s : str) : option (str * str) :=
  match s with
  | [] => None
  | c :: s' =>
      if code_is 34 c then Some (rev acc, s')
      else if code_is 92 c then None
      else if (nat_of_ascii c <? 32)%nat then None
      else scan_string (c :: acc) s'
  end.

Fixpoint scan_digits (acc : Z) (s : str) : Z * str :=
  match s with
  | c :: s' =>
      if is_digit c
      then scan_digits (10 * acc + Z.of_nat (nat_of_ascii c - 48)) s'
      else (acc, s)
  | [] => (acc, [])
  end.

(** An integer: [0] or digits without a leading zero; a fraction or an
    exponent after it makes the number a float, which is outside the
    fragment. *)
Definition scan_int (s : str) : option (Z * str) :=
  match s with
  | c :: s' =>
      if is_digit c then
        let '(n, rest) := if code_is 48 c then (0%Z, s') else scan_digits 0 s in
        match rest with
        | d :: _ =>
            if is_digit d || code_is 46 d || code_is 101 d || code_is 69 d then None
            else Some (n, rest)
        | [] => Some (n, rest)
        end
      else None
  | [] => None
  end.

Definition literal (word : str) (v : json) (s : str) : option (json * str) :=
  if startswith word s then Some (v, skipn (length word) s) else None.

Fixpoint parse_value (fuel : nat) (s : str) : option (json * str) :=
  match fuel with
  | O => None
  | S fuel' =>
      match skip_ws s with
      | [] => None
      | c :: rest =>
          if code_is 123 c then
            match skip_ws rest with
            | c' :: rest' =>
                if code_is 125 c' then Some (JDict [], rest')
                else parse_members fuel' [] rest
            | [] => None
            end
          else if code_is 91 c then
            match skip_ws rest with
            | c' :: rest' =>
                if code_is 93 c' then Some (JList [], rest')
                else parse_elements fuel' [] rest
            | [] => None
            end
          else if code_is 34 c then
            match scan_string [] rest with
            | Some (x, rest') => Some (JStr x, rest')
            | None => None
            end
          else if code_is 45 c then
            match scan_int rest with
            | Some (n, rest') => Some (JInt (- n), rest')
            | None => None
            end
          else if is_digit c then
            match scan_int (c :: rest) with
            | Some (n, rest') => Some (JInt n, rest')
            | None => None
            end
          else if code_is 116 c then literal (py "true") (JBool true) (c :: rest)
          else if code_is 102 c then literal (py "false") (JBool false) (c :: rest)
          else if code_is 110 c then literal (py "null") JNull (c :: rest)
          else None
      end
  end

with parse_elements (fuel : nat) (acc : list json) (s : str)
    : option (json * str) :=
  match fuel with
  | O => None
  | S fuel' =>
      match parse_value fuel' s with
      | None => None
      | Some (v, rest) =>
          match skip_ws rest with
          | c :: rest' =>
              if code_is 44 c then parse_elements fuel' (v :: acc) rest'
              else if code_is 93 c then Some (JList (rev (v :: acc)), rest')
              else None
          | [] => None
          end
      end
  end

with parse_members (fuel : nat) (acc : list (str * json)) (s : str)
    : option (json * str) :=
  match fuel with
  | O => None
  | S fuel' =>
      match skip_ws s with
      | c :: rest =>
          if code_is 34 c then
            match scan_string [] rest with
            | None => None
            | Some (k, rest1) =>
                match skip_ws rest1 with
                | c1 :: rest2 =>
                    if code_is 58 c1 then
                      match parse_value fuel' rest2 with
                      | None => None
                      | Some (v, rest3) =>
                          match skip_ws rest3 with
                          | c3 :: rest4 =>
                              if code_is 44 c3
                              then parse_members fuel' (dict_set k v acc) rest4
                              else if code_is 125 c3
                              then Some (JDict (dict_set k v acc), rest4)
                              else None
                          | [] => None
                          end
                      end
                    else None
                | [] => None
                end
            end
          else None
      | [] => None
      end
  end.

(** The whole text is one value, between optional white space. *)
Definition loads (s : str) : option json :=
  match parse_value (2 * length s + 2) s with
  | Some (v, rest) =>
      match skip_ws rest with
      | [] => Some v
      | _ :: _ => None
      end
  | None => None
  end.

End JsonLite.

(* ------------------------------------------------------------------------- *)
(** ** Definitions that follow the specification *)

Module Spec.

Import OCRExtractor ContextAnalyzer.

Definition has_key (k : str) (kv : list (str * json)) : bool :=
  match lookup k kv with Some _ => true | None => false end.





(** Two key events share (type, value). *)
Definition same_key (a b : KeyEvent) : bool :=
  py_eqb (ke_type a) (ke_type b) && py_eqb (ke_value a) (ke_value b).

(** No two events of the collection share (type, value). *)
Fixpoint unique_events (events : list KeyEvent) : bool :=
  match events with
  | [] => true
  | e :: rest => negb (existsb (same_key e) rest) && unique_events rest
  end.

(** The distinctness class of a record: the lowercased first 50 characters
    of its stripped text. *)
Definition class_of (r : TextRecord) : str :=
  lower (firstn 50 (strip (text r))).

(** The records of the window whose class did not occur earlier in the
    window; [earlier] holds the records already passed. *)
Fixpoint first_of_each_class (earlier : list TextRecord)
    (window : list TextRecord) : list TextRecord :=
  match window with
  | [] => []
  | r :: rest =>
      if existsb (fun r' => str_eqb (class_of r') (class_of r)) earlier
      then first_of_each_class (earlier ++ [r]) rest
      else r :: first_of_each_class (earlier ++ [r]) rest
  end.

Definition combined_text (window : list TextRecord) : str :=
  join [newline] (map (fun r => strip (text r)) (first_of_each_class [] window)).

(** A response body between fence lines; [lang] is the word after the
    opening fence, empty or [json]. *)
Definition fenced (lang : str) (r : str) : str :=
  fence ++ lang ++ [newline] ++ r ++ [newline] ++ fence.

Definition is_dict (v : json) : bool :=
  match v with JDict _ => true | _ => false end.

(** The tag set of key events documented by the specification. *)
Definition documented_tags : list str :=
  map py ["otp"; "email"; "phone"; "name"; "url"; "price"; "date"; "order";
          "code"; "other"]%string.

End Spec.

(* ------------------------------------------------------------------------- *)
(** ** Invariants used in the proofs *)

Module Inv.

Import OCRExtractor ContextAnalyzer.

(** [seen] holds the classes of the records in [earlier]. *)
Definition seen_of (seen : list str) (earlier : list TextRecord) : Prop :=
  forall k : str,
    existsb (str_eqb k) seen
    = existsb (fun r' => str_eqb (Spec.class_of r') k) earlier.

(** The item is a [dict] that carries both fields of the duplicate key. *)
Definition has_type_and_value (info : json) : bool :=
  match info with
  | JDict kv => Spec.has_key (py "type") kv && Spec.has_key (py "value") kv
  | _ => false
  end.

(** The stored events are pairwise distinct on (type, value). *)
Definition unique_state (st : ContextAnalyzer.t) : Prop :=
  Spec.unique_events (items (key_events st)) = true.

(** The text has a character that is not white space. *)
Definition has_visible (s : str) : bool :=
  existsb (fun c => negb (isspace c)) s.

(** No record of the text buffer is blank. *)
Definition nonblank_records (st : OCRExtractor.t) : Prop :=
  Forall (fun r => strip (text r) <> []) (items (text_buffer st)).

(** Each call of the list was checked at least one second after the time
    recorded by the call before it; [prev] is the time recorded before the
    first one, if any. *)
Fixpoint spaced (Image : Type) (prev : option Z) (calls : list (Call Image))
    : Prop :=
  match calls with
  | [] => True
  | c :: rest =>
      match prev with
      | Some p => (1000000 <= now_check c - p)%Z
      | None => True
      end
      /\ spaced (Some (now_stored c)) rest
  end.

(** What a run of the stage keeps: no call in flight, no blank record, a
    bounded buffer. *)
Definition stage_ok (st : OCRExtractor.t) : Prop :=
  _processing st = false
  /\ nonblank_records st
  /\ maxlen (text_buffer st) = 200
  /\ length (items (text_buffer st)) <= 200.

(** The provider class that the name in [LLM_PROVIDER] stands for; an
    unknown name stands for Gemini. *)
Definition configured_provider (getenv : str -> option str) : ProviderClass :=
  match lookup
          (lower (match getenv (py "LLM_PROVIDER") with
                  | Some v => v
                  | None => py "gemini"
                  end))
          providers with
  | Some c => c
  | None => GeminiProvider
  end.

(** [key_info] is absent, or a list of objects. *)
Definition key_info_of_dicts (kv : list (str * json)) : bool :=
  match lookup (py "key_info") kv with
  | None => true
  | Some (JList l) => forallb Spec.is_dict l
  | Some _ => false
  end.

(** [key_info] is absent, or a list of objects that all carry a type and a
    value. *)
Definition well_keyed (result : json) : bool :=
  match result with
  | JDict kv =>
      match lookup (py "key_info") kv with
      | None => true
      | Some (JList l) => forallb has_type_and_value l
      | Some _ => false
      end
  | _ => true
  end.

(** The analyzer states that cycles and forced analyses lead to. *)
Inductive reachable (json_loads : str -> option json) (interval : Q)
    (history : nat) : ContextAnalyzer.t -> Prop :=
  | reach_init : reachable json_loads interval history (init interval history)
  | reach_cycle (st : ContextAnalyzer.t) (analyze : str -> option str)
      (now_merge now_done : Z) (text : str) :
      reachable json_loads interval history st ->
      reachable json_loads interval history
        (analysis_cycle json_loads analyze now_merge now_done text st)
  | reach_force (st : ContextAnalyzer.t) (analyze : str -> option str)
      (now_merge now_done : Z) (text : str) :
      reachable json_loads interval history st ->
      reachable json_loads interval history
        (snd (force_analyze json_loads analyze now_merge now_done text st)).

(** Whether each of the next [n] captured frames is handed to OCR. *)
Fixpoint dispatch_flags (n : nat) (app : MemoryContextApp.t) : list bool :=
  match n with
  | O => []
  | S n' =>
      let '(app', dispatched) := MemoryContextApp._on_frame_captured app in
      dispatched :: dispatch_flags n' app'
  end.

(** [after] is [before] followed by events stamped [now_merge], less the
    oldest ones. *)
Definition events_extended (now_merge : Z) (before after : list KeyEvent)
    : Prop :=
  exists (k : nat) (added : list KeyEvent),
    k <= length (before ++ added)
    /\ after = skipn k (before ++ added)
    /\ Forall (fun e => ke_timestamp e = now_merge) added.

(** The value [x.get(k, default)] gives on a [dict]. *)
Definition get_or (kv : list (str * json)) (k : str) (default : json) : json :=
  match lookup k kv with
  | Some v => v
  | None => default
  end.

(** A later [datetime] that passes a cutoff: the conversion to a float
    keeps the order of time, and the comparison follows it. *)
Definition monotone_clock (F : PyFloat.arith) : Prop :=
  forall (earlier later : Z) (cutoff : PyFloat.float F),
    (earlier <= later)%Z ->
    PyFloat.ge F (PyFloat.timestamp F earlier) cutoff = true ->
    PyFloat.ge F (PyFloat.timestamp F later) cutoff = true.

(** [l1] is [l2] with some items left out, the order kept. *)
Inductive subseq (A : Type) : list A -> list A -> Prop :=
  | subseq_nil : subseq [] []
  | subseq_keep (x : A) (l1 l2 : list A) :
      subseq l1 l2 -> subseq (x :: l1) (x :: l2)
  | subseq_drop (x : A) (l1 l2 : list A) :
      subseq l1 l2 -> subseq l1 (x :: l2).

(** [None], a boolean, an integer or a string. *)
Definition is_scalar (v : json) : bool :=
  match v with
  | JList _ | JDict _ => false
  | _ => true
  end.

(** An object that carries a scalar type and a scalar value. *)
Definition keyed_scalar (info : json) : bool :=
  match info with
  | JDict kv =>
      match lookup (py "type") kv, lookup (py "value") kv with
      | Some ty, Some v => is_scalar ty && is_scalar v
      | _, _ => false
      end
  | _ => false
  end.

(** Some stored event has the type and the value of the item. *)
Definition covered (events : list KeyEvent) (info : json) : bool :=
  match info with
  | JDict kv =>
      existsb
        (fun e =>
           py_eqb (ke_type e) (get_or kv (py "type") JNull)
           && py_eqb (ke_value e) (get_or kv (py "value") JNull))
        events
  | _ => false
  end.

End Inv.

Import Inv.

(* ========================================================================= *)
(** * Properties *)

Unset Implicit Arguments.

(* ------------------------------------------------------------------------- *)
(** ** Bounded buffers *)

Section DequeFacts.

Variable A : Type.

Lemma maxlen_append (d : deque A) (x : A) : maxlen (append d x) = maxlen d.
Proof. reflexivity. Qed.

Lemma maxlen_appends (xs : list A) (d : deque A) :
  maxlen (appends d xs) = maxlen d.
Proof.
  revert d. induction xs as [|x xs IH]; intros d; [reflexivity|].
  unfold appends in *. simpl. now rewrite IH.
Qed.

Lemma appends_snoc (d : deque A) (xs : list A) (x : A) :
  appends d (xs ++ [x]) = append (appends d xs) x.
Proof. unfold appends. now rewrite fold_left_app. Qed.

(** Dropping the head after adding on the right of a suffix. *)
Lemma tl_skipn_snoc (k : nat) (l : list A) (x : A) :
  k <= length l -> tl (skipn k l ++ [x]) = skipn (S k) (l ++ [x]).
Proof.
  revert k. induction l as [|a l IH]; intros k Hk.
  - simpl in Hk. replace k with 0 by lia. reflexivity.
  - destruct k as [|k].
    + reflexivity.
    + simpl in Hk. rewrite skipn_cons. rewrite IH by lia. reflexivity.
Qed.

(** The content of a buffer that started empty. *)
Lemma items_appends_new (C : nat) (xs : list A) :
  items (appends (deque_new A C) xs) = skipn (length xs - C) xs.
Proof.
  induction xs as [|x xs IH] using rev_ind.
  - reflexivity.
  - rewrite appends_snoc. unfold append.
    rewrite maxlen_appends. cbn [items maxlen deque_new].
    rewrite IH. rewrite !length_app, length_skipn. cbn [length].
    destruct (Nat.ltb_spec C (length xs - (length xs - C) + 1)) as [Hlt|Hge].
    + rewrite tl_skipn_snoc by lia. f_equal. lia.
    + replace (length xs - C) with 0 by lia.
      replace (length xs + 1 - C) with 0 by lia. reflexivity.
Qed.

Lemma length_items_appends_new (C : nat) (xs : list A) :
  length (items (appends (deque_new A C) xs)) = Nat.min (length xs) C.
Proof. rewrite items_appends_new, length_skipn. lia. Qed.

End DequeFacts.

Section FrameBufferFacts.

Variable F : PyFloat.arith.
Variable Image : Type.

Lemma frame_buffer_captures (sc : ScreenCapture.t F Image)
    (frames : list (ScreenCapture.Frame Image)) :
  ScreenCapture.frame_buffer (ScreenCapture.captures sc frames)
  = appends (ScreenCapture.frame_buffer sc) frames.
Proof.
  revert sc. induction frames as [|f frames IH]; intros sc; [reflexivity|].
  unfold ScreenCapture.captures in *. simpl. now rewrite IH.
Qed.

(** A [ScreenCapture] that could be built has an empty buffer whose capacity
    is the value of [int(fps * buffer_duration)]. *)
Lemma frame_buffer_init (fps : PyFloat.float F) (buffer_duration : Z)
    (sc : ScreenCapture.t F Image) :
  ScreenCapture.init F Image fps buffer_duration = Some sc ->
  exists capacity : nat,
    ScreenCapture.max_frames F fps buffer_duration = Some (Z.of_nat capacity)
    /\ ScreenCapture.frame_buffer sc = deque_new _ capacity.
Proof.
  unfold ScreenCapture.init.
  destruct (PyFloat.div F (PyFloat.of_int F 1) fps) as [interval|];
    [|discriminate].
  destruct (ScreenCapture.max_frames F fps buffer_duration) as [m|];
    [|discriminate].
  destruct (Z.ltb_spec m 0) as [Hneg|Hpos]; [discriminate|].
  intros H. injection H as <-. exists (Z.to_nat m).
  split; [now rewrite Z2Nat.id|reflexivity].
Qed.

End FrameBufferFacts.

(** C2: a buffer of capacity [C] that received [N] appends holds
    [min N C] items, the last [C] appended, in insertion order; this is so
    for any capacity, and the frame buffer (whose capacity is the value of
    [int(fps * buffer_duration)], whatever the float arithmetic makes it),
    the text buffer (capacity 200) and the key-event collection (capacity
    [max_history], 50 by default) are such buffers. *)
Theorem bounded_buffers_hold_most_recent :
  (forall (A : Type) (C : nat) (xs : list A),
      let d := appends (deque_new A C) xs in
      maxlen d = C
      /\ length (items d) = Nat.min (length xs) C
      /\ items d = skipn (length xs - C) xs)
  /\ (forall (F : PyFloat.arith) (Image : Type) (fps : PyFloat.float F)
         (buffer_duration : Z) (sc : ScreenCapture.t F Image)
         (frames : list (ScreenCapture.Frame Image)),
      ScreenCapture.init F Image fps buffer_duration = Some sc ->
      exists C : nat,
        PyFloat.trunc F (PyFloat.mul F fps (PyFloat.of_int F buffer_duration))
        = Some (Z.of_nat C)
        /\ let d := ScreenCapture.frame_buffer (ScreenCapture.captures sc frames) in
           maxlen d = C
           /\ length (items d) = Nat.min (length frames) C
           /\ items d = skipn (length frames - C) frames)
  /\ (forall records : list OCRExtractor.TextRecord,
      let d := appends (OCRExtractor.text_buffer OCRExtractor.init) records in
      length (items d) = Nat.min (length records) 200
      /\ items d = skipn (length records - 200) records)
  /\ (forall (interval : Q) (max_history : nat)
        (events : list ContextAnalyzer.KeyEvent),
      let d :=
        appends
          (ContextAnalyzer.key_events (ContextAnalyzer.init interval max_history))
          events in
      length (items d) = Nat.min (length events) max_history
      /\ items d = skipn (length events - max_history) events)
  /\ ContextAnalyzer.max_history ContextAnalyzer.init_default = 50.
Proof.
  split; [|split; [|split; [|split]]].
  - intros A C xs. cbv zeta. repeat split.
    + apply maxlen_appends.
    + apply length_items_appends_new.
    + apply items_appends_new.
  - intros F Image fps buffer_duration sc frames Hinit.
    destruct (frame_buffer_init F Image _ _ _ Hinit) as [C [Hcap Hbuf]].
    exists C. split; [exact Hcap|]. cbv zeta.
    rewrite frame_buffer_captures, Hbuf. repeat split.
    + apply maxlen_appends.
    + apply length_items_appends_new.
    + apply items_appends_new.
  - intros records. cbv zeta. split.
    + apply (length_items_appends_new OCRExtractor.TextRecord 200).
    + apply (items_appends_new OCRExtractor.TextRecord 200).
  - intros interval max_history events. cbv zeta. split.
    + apply length_items_appends_new.
    + apply items_appends_new.
  - reflexivity.
Qed.

Lemma bounded_buffers_hold_most_recent_witness :
  exists (sc : ScreenCapture.t PyFloat.exact Z) (C : nat),
    ScreenCapture.init PyFloat.exact Z 3%Q 1 = Some sc
    /\ PyFloat.trunc PyFloat.exact
         (PyFloat.mul PyFloat.exact 3%Q (PyFloat.of_int PyFloat.exact 1))
       = Some (Z.of_nat C)
    /\ items (ScreenCapture.frame_buffer
                (ScreenCapture.captures sc
                   [(0, 10); (1, 11); (2, 12); (3, 13); (4, 14)]%Z))
       = skipn (5 - C) [(0, 10); (1, 11); (2, 12); (3, 13); (4, 14)]%Z.
Proof.
  eexists.
  destruct (proj1 (proj2 bounded_buffers_hold_most_recent)
              PyFloat.exact Z 3%Q 1%Z _
              [(0, 10); (1, 11); (2, 12); (3, 13); (4, 14)]%Z eq_refl)
    as [C [Hcap [_ [_ Hitems]]]].
  exists C. split; [reflexivity|]. split; [exact Hcap|exact Hitems].
Defined.

(* ------------------------------------------------------------------------- *)
(** ** Strings *)

Lemma str_eqb_eq (a b : str) : str_eqb a b = true <-> a = b.
Proof.
  unfold str_eqb. destruct (list_eq_dec ascii_dec a b); split; congruence.
Qed.

Lemma str_eqb_refl (a : str) : str_eqb a a = true.
Proof. now apply str_eqb_eq. Qed.

Lemma str_eqb_sym (a b : str) : str_eqb a b = str_eqb b a.
Proof.
  unfold str_eqb.
  destruct (list_eq_dec ascii_dec a b), (list_eq_dec ascii_dec b a);
    congruence.
Qed.

(* ------------------------------------------------------------------------- *)
(** ** The combined text of a window *)

Section CombinedText.

Import OCRExtractor.

Lemma seen_of_nil : seen_of [] [].
Proof. intros k. reflexivity. Qed.

Lemma seen_of_fresh (seen : list str) (earlier : list TextRecord)
    (r : TextRecord) :
  seen_of seen earlier ->
  seen_of (Spec.class_of r :: seen) (earlier ++ [r]).
Proof.
  intros H k. rewrite existsb_app. cbn [existsb].
  rewrite H, orb_false_r, (str_eqb_sym k), orb_comm. reflexivity.
Qed.

Lemma seen_of_repeated (seen : list str) (earlier : list TextRecord)
    (r : TextRecord) :
  seen_of seen earlier ->
  existsb (str_eqb (Spec.class_of r)) seen = true ->
  seen_of seen (earlier ++ [r]).
Proof.
  intros H Hin k. rewrite existsb_app. cbn [existsb]. rewrite orb_false_r.
  destruct (str_eqb (Spec.class_of r) k) eqn:E.
  - apply str_eqb_eq in E. subst k. rewrite orb_true_r. exact Hin.
  - rewrite orb_false_r. apply H.
Qed.

(** The loop of the source against the filter of the specification. *)
Lemma unique_loop_spec (records : list TextRecord) :
  forall (seen acc : list str) (earlier : list TextRecord),
    seen_of seen earlier ->
    unique_loop records seen acc
    = acc ++ map (fun r => strip (text r))
               (Spec.first_of_each_class earlier records).
Proof.
  induction records as [|r records IH]; intros seen acc earlier Hseen.
  - cbn. now rewrite app_nil_r.
  - cbn [unique_loop Spec.first_of_each_class].
    change (text_key_of (strip (text r))) with (Spec.class_of r).
    rewrite (Hseen (Spec.class_of r)).
    destruct (existsb (fun r' => str_eqb (Spec.class_of r') (Spec.class_of r))
                earlier) eqn:E; cbn [negb].
    + apply IH. apply seen_of_repeated; [exact Hseen|].
      now rewrite (Hseen (Spec.class_of r)).
    + rewrite (IH _ _ (earlier ++ [r])) by now apply seen_of_fresh.
      cbn [map]. now rewrite <- app_assoc.
Qed.

End CombinedText.

(** C3: for every text buffer and every window, [get_combined_text] is the
    newline-joined sequence of the stripped texts of the window's records, in
    insertion order, keeping only the first record of each distinctness
    class; the class of a record is the lowercased first 50 characters of its
    stripped text, so a record whose class occurred earlier in the window is
    dropped. *)
Theorem get_combined_text_first_of_each_class :
  forall (F : PyFloat.arith) (now : Z) (seconds : PyFloat.float F)
         (st : OCRExtractor.t),
    OCRExtractor.get_combined_text F now seconds st
    = Spec.combined_text (OCRExtractor.get_recent_text F now seconds st).
Proof.
  intros F now seconds st.
  unfold OCRExtractor.get_combined_text, Spec.combined_text.
  now rewrite (unique_loop_spec _ [] [] [] seen_of_nil).
Qed.

(* ------------------------------------------------------------------------- *)
(** ** The extraction stage *)

Section ExtractionFacts.

Import OCRExtractor.

Variable Image : Type.
Variable readtext : Image -> option (list (bbox * str * Q)).

Lemma set_processing_false_true (st : t) :
  _processing st = false ->
  set_processing false (set_processing true st) = st.
Proof. destruct st as [buf flag last]. cbn. now intros ->. Qed.

(** A recognizer error gives the empty text. *)
Lemma extract_text_error (image : Image) :
  readtext image = None -> extract_text readtext image = ([], 0%Q).
Proof. unfold extract_text. now intros ->. Qed.

(** A call that finds an extraction in flight is skipped. *)
Lemma process_frame_in_flight (now_check now_stored timestamp : Z)
    (image : Image) (st : t) :
  _processing st = true ->
  process_frame readtext now_check now_stored timestamp image st = (None, st).
Proof. unfold process_frame, process_frame_enter. now intros ->. Qed.

(** A call less than one second after the recorded extraction time is
    skipped. *)
Lemma process_frame_rate_limited (now_check now_stored timestamp last : Z)
    (image : Image) (st : t) :
  _last_extraction_time st = Some last ->
  (now_check - last < 1000000)%Z ->
  process_frame readtext now_check now_stored timestamp image st = (None, st).
Proof.
  unfold process_frame, process_frame_enter. intros -> Hlt.
  destruct (_processing st); [reflexivity|].
  apply Z.ltb_lt in Hlt. now rewrite Hlt.
Qed.

(** A call that is admitted sets the flag, and only that. *)
Lemma process_frame_enter_some (now : Z) (st st1 : t) :
  process_frame_enter now st = Some st1 ->
  _processing st = false /\ st1 = set_processing true st.
Proof.
  unfold process_frame_enter.
  destruct (_processing st); [discriminate|].
  destruct (_last_extraction_time st) as [last|].
  - destruct (now - last <? 1000000)%Z; [discriminate|].
    intros H. injection H as <-. now split.
  - intros H. injection H as <-. now split.
Qed.

End ExtractionFacts.

(** C9: a failure of the OCR engine is absorbed by the stage.  When the
    recognizer raises, [extract_text] returns the pair of the empty text and
    confidence 0; the body of the enclosing [process_frame] then stores no
    record, returns [None] and leaves the in-flight flag false; and a call
    that was admitted leaves the whole stage as it found it, so that a later
    call is admitted exactly as it would have been before. *)
Theorem ocr_failure_is_absorbed :
  forall (Image : Type) (readtext : Image -> option (list (OCRExtractor.bbox * str * Q)))
         (image : Image),
    readtext image = None ->
    OCRExtractor.extract_text readtext image = ([], 0%Q)
    /\ (forall (now timestamp : Z) (st : OCRExtractor.t),
           OCRExtractor.process_frame_body readtext now timestamp image st
           = (None, OCRExtractor.set_processing false st))
    /\ (forall (now_check now_stored timestamp : Z) (st st1 : OCRExtractor.t),
           OCRExtractor.process_frame_enter now_check st = Some st1 ->
           OCRExtractor.process_frame readtext now_check now_stored timestamp
             image st = (None, st)
           /\ OCRExtractor._processing st = false
           /\ forall later : Z,
                OCRExtractor.process_frame_enter later
                  (snd (OCRExtractor.process_frame readtext now_check now_stored
                          timestamp image st))
                = OCRExtractor.process_frame_enter later st).
Proof.
  intros Image readtext image Hfail.
  assert (Hbody : forall now timestamp st,
             OCRExtractor.process_frame_body readtext now timestamp image st
             = (None, OCRExtractor.set_processing false st)).
  { intros now timestamp st. unfold OCRExtractor.process_frame_body.
    now rewrite (extract_text_error _ _ _ Hfail). }
  split; [now apply extract_text_error|]. split; [exact Hbody|].
  intros now_check now_stored timestamp st st1 Henter.
  assert (Hrun : OCRExtractor.process_frame readtext now_check now_stored
                   timestamp image st = (None, st)).
  { unfold OCRExtractor.process_frame. rewrite Henter, Hbody.
    apply process_frame_enter_some in Henter as [Hflag ->].
    now rewrite set_processing_false_true. }
  split; [exact Hrun|]. split.
  - now apply process_frame_enter_some in Henter.
  - intros later. now rewrite Hrun.
Qed.

Lemma ocr_failure_is_absorbed_witness :
  OCRExtractor.process_frame (fun _ : nat => None) 5000000 5200000 4900000 7
    OCRExtractor.init
  = (None, OCRExtractor.init).
Proof.
  exact (proj1 (proj2 (proj2 (ocr_failure_is_absorbed nat (fun _ : nat => None) 7
                                eq_refl))
                  5000000%Z 5200000%Z 4900000%Z OCRExtractor.init _ eq_refl)).
Defined.

(** C7: two extractions less than one second apart.  The recognizer finds no
    text in the first frame, so the first call performs an extraction,
    returns [None] and records no extraction time; the call made 0.4 s later
    is then admitted and performs a second extraction, which stores its
    record. *)
Theorem blank_extraction_leaves_rate_limit_open :
  let readtext := fun image : nat =>
    match image with
    | O => Some []
    | S _ => Some [([(0, 0)]%Z, py "Hello", 1%Q)]
    end in
  let first := OCRExtractor.process_frame readtext 0 100000 0 0 OCRExtractor.init in
  let second := OCRExtractor.process_frame readtext 400000 500000 400000 1 (snd first) in
  OCRExtractor.process_frame_enter 0 OCRExtractor.init <> None
  /\ fst first = None
  /\ OCRExtractor._last_extraction_time (snd first) = None
  /\ OCRExtractor.process_frame_enter 400000 (snd first) <> None
  /\ fst second = Some (py "Hello")
  /\ length (items (OCRExtractor.text_buffer (snd second))) = 1.
Proof. cbv zeta. repeat split; try discriminate; reflexivity. Qed.

(* ------------------------------------------------------------------------- *)
(** ** Stripping, searching and splitting *)

Section StripFacts.

Lemma lstrip_nonspace (c : ascii) (s : str) :
  isspace c = false -> lstrip (c :: s) = c :: s.
Proof. intros H. cbn. now rewrite H. Qed.

Lemma lstrip_space (c : ascii) (s : str) :
  isspace c = true -> lstrip (c :: s) = lstrip s.
Proof. intros H. cbn. now rewrite H. Qed.

Lemma rstrip_nonspace (c : ascii) (s : str) :
  isspace c = false -> rstrip (s ++ [c]) = s ++ [c].
Proof.
  intros H. unfold rstrip. rewrite rev_unit, lstrip_nonspace by exact H.
  cbn. now rewrite rev_involutive.
Qed.

Lemma rstrip_space (c : ascii) (s : str) :
  isspace c = true -> rstrip (s ++ [c]) = rstrip s.
Proof.
  intros H. unfold rstrip. now rewrite rev_unit, lstrip_space by exact H.
Qed.

Lemma rstrip_nil : rstrip [] = [].
Proof. reflexivity. Qed.

(** [lstrip] keeps a suffix. *)
Lemma lstrip_suffix (s : str) : exists u, s = u ++ lstrip s.
Proof.
  induction s as [|c s [u IH]].
  - now exists [].
  - cbn. destruct (isspace c).
    + exists (c :: u). cbn. now rewrite <- IH.
    + now exists [].
Qed.

(** [rstrip] keeps a prefix. *)
Lemma rstrip_prefix (s : str) : exists u, s = rstrip s ++ u.
Proof.
  unfold rstrip. destruct (lstrip_suffix (rev s)) as [u Hu].
  exists (rev u). rewrite <- rev_app_distr, <- Hu. now rewrite rev_involutive.
Qed.

(** What [lstrip] returns does not start with white space. *)
Lemma lstrip_head (s : str) :
  match lstrip s with
  | [] => True
  | c :: _ => isspace c = false
  end.
Proof.
  induction s as [|c s IH]; cbn; [exact I|].
  destruct (isspace c) eqn:E; [exact IH|exact E].
Qed.

Lemma lstrip_idem (s : str) : lstrip (lstrip s) = lstrip s.
Proof.
  pose proof (lstrip_head s) as H. destruct (lstrip s) as [|c t]; [reflexivity|].
  now apply lstrip_nonspace.
Qed.

Lemma rstrip_idem (s : str) : rstrip (rstrip s) = rstrip s.
Proof. unfold rstrip. now rewrite rev_involutive, lstrip_idem. Qed.

(** [rstrip] keeps a head that is not white space. *)
Lemma rstrip_cons_nonspace (c : ascii) (s : str) :
  isspace c = false -> rstrip (c :: s) = c :: rstrip s.
Proof.
  intros H. induction s as [|d s IH] using rev_ind.
  - now apply (rstrip_nonspace c []).
  - change (c :: s ++ [d]) with ((c :: s) ++ [d]).
    destruct (isspace d) eqn:E.
    + now rewrite !rstrip_space.
    + now rewrite (rstrip_nonspace d (c :: s)), rstrip_nonspace.
Qed.

Lemma lstrip_rstrip_lstrip (s : str) :
  lstrip (rstrip (lstrip s)) = rstrip (lstrip s).
Proof.
  pose proof (lstrip_head s) as H. destruct (lstrip s) as [|c t]; [reflexivity|].
  rewrite rstrip_cons_nonspace by exact H. now apply lstrip_nonspace.
Qed.

Lemma strip_idem (s : str) : strip (strip s) = strip s.
Proof. unfold strip. now rewrite lstrip_rstrip_lstrip, rstrip_idem. Qed.

(** White space added on the right is stripped. *)
Lemma strip_snoc_space (c : ascii) (s : str) :
  isspace c = true -> strip (s ++ [c]) = strip s.
Proof.
  intros H. unfold strip. induction s as [|a s IH].
  - cbn. now rewrite H.
  - cbn [app lstrip]. destruct (isspace a); [exact IH|].
    change (a :: s ++ [c]) with ((a :: s) ++ [c]). now apply rstrip_space.
Qed.

(** White space added on the left is stripped. *)
Lemma strip_cons_space (c : ascii) (s : str) :
  isspace c = true -> strip (c :: s) = strip s.
Proof. intros H. unfold strip. now rewrite lstrip_space. Qed.

End StripFacts.

Section SearchFacts.

Lemma startswith_app (p s u : str) :
  startswith p s = true -> startswith p (s ++ u) = true.
Proof.
  revert s. induction p as [|a p IH]; intros s H; [reflexivity|].
  destruct s as [|b s]; [discriminate|].
  cbn in *. apply andb_true_iff in H as [-> H]. now rewrite IH.
Qed.

Lemma contains_suffix (p u s : str) :
  contains p (u ++ s) = false -> contains p s = false.
Proof.
  induction u as [|c u IH]; [trivial|].
  cbn. intros H. apply orb_false_iff in H as [_ H]. now apply IH.
Qed.

Lemma contains_startswith (p s : str) :
  contains p s = false -> startswith p s = false.
Proof.
  destruct s as [|c s]; cbn; [trivial|].
  intros H. now apply orb_false_iff in H as [H _].
Qed.

(** A text without the separator does not start with it once stripped. *)
Lemma startswith_strip (p s : str) :
  contains p s = false -> startswith p (strip s) = false.
Proof.
  intros H. unfold strip.
  destruct (lstrip_suffix s) as [u Hu].
  destruct (rstrip_prefix (lstrip s)) as [v Hv].
  destruct (startswith p (rstrip (lstrip s))) eqn:E; [|reflexivity].
  apply (startswith_app _ _ v) in E. rewrite <- Hv in E.
  rewrite Hu in H. apply contains_suffix, contains_startswith in H.
  congruence.
Qed.

End SearchFacts.

Section FenceFacts.

Import ContextAnalyzer.

(** Where a separator may start, before the closing fence. *)
Lemma startswith_fence_before_fence (c : ascii) (x : str) :
  startswith fence (c :: x ++ fence) = startswith fence (c :: x ++ py "``").
Proof. destruct x as [|a [|b x]]; reflexivity. Qed.

(** A text without the separator is one piece up to the closing fence. *)
Lemma split_from_until_fence (x : str) :
  forall cur : str,
    contains fence (x ++ py "``") = false ->
    split_from fence 0 cur (x ++ fence) = [rev cur ++ x; []].
Proof.
  induction x as [|c x IH]; intros cur H.
  - cbn. now rewrite app_nil_r.
  - cbn [app] in *. cbn [contains] in H.
    apply orb_false_iff in H as [Hhere Hrest].
    cbn [split_from]. rewrite startswith_fence_before_fence, Hhere.
    rewrite (IH (c :: cur) Hrest). cbn [rev]. now rewrite <- app_assoc.
Qed.

Lemma startswith_fence_before_newline (c : ascii) (r t : str) :
  startswith fence (c :: r ++ newline :: t) = startswith fence (c :: r).
Proof.
  destruct r as [|a [|b r]]; cbn; rewrite ?andb_false_r; reflexivity.
Qed.

Lemma contains_fence_before_newline (r : str) :
  contains fence r = false ->
  contains fence (r ++ newline :: py "``") = false.
Proof.
  induction r as [|c r IH]; intros H; [reflexivity|].
  cbn [app contains] in *. apply orb_false_iff in H as [Hhere Hrest].
  now rewrite startswith_fence_before_newline, Hhere, IH.
Qed.

Lemma strip_between_nonspace (c d : ascii) (s : str) :
  isspace c = false -> isspace d = false ->
  strip (c :: s ++ [d]) = c :: s ++ [d].
Proof.
  intros Hc Hd. unfold strip. rewrite lstrip_nonspace by exact Hc.
  now apply (rstrip_nonspace d (c :: s)).
Qed.

Lemma fenced_shape (lang r : str) :
  Spec.fenced lang r
  = backtick :: (py "``" ++ lang ++ [newline] ++ r ++ [newline] ++ py "``")
      ++ [backtick].
Proof.
  unfold Spec.fenced, fence. cbn.
  do 3 f_equal. rewrite <- !app_assoc. cbn.
  do 2 f_equal. now rewrite <- app_assoc.
Qed.

Lemma split_fenced (lang r : str) :
  contains fence ((lang ++ [newline] ++ r ++ [newline]) ++ py "``") = false ->
  split fence (Spec.fenced lang r)
  = [[]; lang ++ [newline] ++ r ++ [newline]; []].
Proof.
  intros H. unfold split, Spec.fenced.
  replace (fence ++ lang ++ [newline] ++ r ++ [newline] ++ fence)
    with (fence ++ (lang ++ [newline] ++ r ++ [newline]) ++ fence)
    by now rewrite <- !app_assoc.
  change (fence ++ ?x) with (backtick :: backtick :: backtick :: x).
  cbn [split_from startswith Ascii.eqb]. cbn [fence py String.list_ascii_of_string length Nat.sub].
  cbn [backtick]. cbn.
  f_equal. apply (split_from_until_fence _ [] H).
Qed.

End FenceFacts.

(* ------------------------------------------------------------------------- *)
(** ** Cleaning up a response *)

Section UnwrapFacts.

Import ContextAnalyzer.

Lemma split_from_nonempty (sep s : str) :
  forall (skip : nat) (cur : str), split_from sep skip cur s <> [].
Proof.
  induction s as [|c s IH]; intros skip cur; cbn [split_from].
  - discriminate.
  - destruct skip as [|k]; [|apply IH].
    destruct (startswith sep (c :: s)); [discriminate|apply IH].
Qed.

(** The clean-up never raises: a text that starts with a fence has a second
    piece. *)
Lemma unwrap_response_total (result_text : str) :
  exists cleaned : str, unwrap_response result_text = Ok cleaned.
Proof.
  unfold unwrap_response.
  destruct (startswith fence (strip result_text)) eqn:E; [|eauto].
  destruct (strip result_text) as [|a [|b [|c s]]];
    try (cbn in E; rewrite ?andb_false_r in E; discriminate).
  unfold split. cbn [split_from]. rewrite E.
  cbn [fence py String.list_ascii_of_string length Nat.sub split_from nth_error].
  destruct (split_from _ 0 [] s) as [|piece rest] eqn:Es; [|eauto].
  exfalso. exact (split_from_nonempty _ _ _ _ Es).
Qed.

Lemma contains_fence_in_fenced (lang r : str) :
  lang = [] \/ lang = py "json" ->
  contains fence r = false ->
  contains fence ((lang ++ [newline] ++ r ++ [newline]) ++ py "``") = false.
Proof.
  intros Hlang Hr.
  replace ((lang ++ [newline] ++ r ++ [newline]) ++ py "``")
    with (lang ++ newline :: r ++ newline :: py "``")
    by (rewrite <- !app_assoc; reflexivity).
  pose proof (contains_fence_before_newline r Hr) as H.
  destruct Hlang as [-> | ->]; cbn in *; rewrite H; reflexivity.
Qed.

(** A body between fence lines is handed to the decoder stripped. *)
Lemma unwrap_response_fenced (lang r : str) :
  lang = [] \/ lang = py "json" ->
  contains fence r = false ->
  unwrap_response (Spec.fenced lang r) = Ok (strip r).
Proof.
  intros Hlang Hr. unfold unwrap_response.
  rewrite fenced_shape, strip_between_nonspace by reflexivity.
  rewrite <- fenced_shape.
  replace (startswith fence (Spec.fenced lang r)) with true by reflexivity.
  rewrite split_fenced by now apply contains_fence_in_fenced.
  cbn [nth_error]. f_equal.
  destruct Hlang as [-> | ->].
  - replace (startswith (py "json") ([] ++ [newline] ++ r ++ [newline]))
      with false by reflexivity.
    change ([] ++ [newline] ++ r ++ [newline]) with ((newline :: r) ++ [newline]).
    now rewrite strip_snoc_space, strip_cons_space.
  - replace (startswith (py "json") (py "json" ++ [newline] ++ r ++ [newline]))
      with true by reflexivity.
    replace (skipn 4 (py "json" ++ [newline] ++ r ++ [newline]))
      with ((newline :: r) ++ [newline]) by reflexivity.
    now rewrite strip_snoc_space, strip_cons_space.
Qed.

(** A bare body is handed to the decoder stripped. *)
Lemma unwrap_response_bare (r : str) :
  contains fence r = false -> unwrap_response r = Ok (strip r).
Proof.
  intros Hr. unfold unwrap_response.
  rewrite (startswith_strip fence r Hr). now rewrite strip_idem.
Qed.

End UnwrapFacts.

(* ------------------------------------------------------------------------- *)
(** ** The analysis cycle *)

Section AnalyzerFacts.

Import ContextAnalyzer.

Variable json_loads : str -> option json.

(** [_analyze_text] once the provider has answered. *)
Lemma analyze_text_answered (analyze : str -> option str)
    (now_merge now_done : Z) (text : str) (st : t) (result_text cleaned : str) :
  analyze (build_prompt (truncate_text text)) = Some result_text ->
  unwrap_response result_text = Ok cleaned ->
  _analyze_text json_loads analyze now_merge now_done text st
  = match json_loads cleaned with
    | None => st
    | Some result =>
        match update_state result now_merge st with
        | (Ok _, st') => set_last_analysis_time (Some now_done) st'
        | (Raised _, st') => st'
        end
    end.
Proof. unfold _analyze_text. now intros -> ->. Qed.


(** The provider is consulted once, on the prompt built from the truncated
    text. *)
Lemma analyze_text_prompt (analyze : str -> option str)
    (now_merge now_done : Z) (text : str) (st : t) :
  _analyze_text json_loads analyze now_merge now_done text st
  = _analyze_text json_loads
      (fun prompt =>
         if str_eqb prompt (build_prompt (truncate_text text))
         then analyze prompt else None)
      now_merge now_done text st.
Proof. unfold _analyze_text. now rewrite str_eqb_refl. Qed.

End AnalyzerFacts.

(** C5, counterexample: a response that is not valid JSON, an object between
    fence lines followed by a sentence, is not refused: the clean-up keeps
    the piece between the two fences, which decodes, and the cycle replaces
    [activity] and sets [last_analysis]. *)
Lemma prose_after_fence_is_merged :
  let response :=
    Spec.fenced (py "json") (q "{'activity': 'reading mail'}")
    ++ [newline] ++ py "Hope this helps!" in
  let st := ContextAnalyzer.init_default in
  let st' :=
    ContextAnalyzer._analyze_text JsonLite.loads (fun _ => Some response)
      1000000 1000001 (py "Inbox (3)") st in
  JsonLite.loads response = None
  /\ ContextAnalyzer.unwrap_response response
     = Ok (q "{'activity': 'reading mail'}")
  /\ ContextAnalyzer.activity (ContextAnalyzer.get_current_context st)
     = JStr (py "Starting up...")
  /\ ContextAnalyzer.activity (ContextAnalyzer.get_current_context st')
     = JStr (py "reading mail")
  /\ ContextAnalyzer.last_analysis (ContextAnalyzer.get_current_context st)
     = None
  /\ ContextAnalyzer.last_analysis (ContextAnalyzer.get_current_context st')
     = Some 1000001%Z.
Proof. cbv zeta. repeat split; reflexivity. Qed.

(** C5, amended: when the text handed to [json.loads] (the response
    stripped, reduced to the piece between its first fence and the next one
    when it starts with a fence, without a leading [json], and stripped
    again) is not valid JSON, the cycle is abandoned: the analyzer state
    after [_analyze_text] is the state before it, so [activity] and
    [last_analysis] read by [get_current_context] are unchanged; the same
    holds for a turn of the periodic loop and for [force_analyze]. *)
Theorem malformed_json_preserves_state :
  forall (json_loads : str -> option json) (analyze : str -> option str)
         (now_merge now_done : Z) (text : str) (st : ContextAnalyzer.t)
         (result_text cleaned : str),
    analyze (ContextAnalyzer.build_prompt (ContextAnalyzer.truncate_text text))
    = Some result_text ->
    ContextAnalyzer.unwrap_response result_text = Ok cleaned ->
    json_loads cleaned = None ->
    let st' :=
      ContextAnalyzer._analyze_text json_loads analyze now_merge now_done text st in
    st' = st
    /\ ContextAnalyzer.activity (ContextAnalyzer.get_current_context st')
       = ContextAnalyzer.activity (ContextAnalyzer.get_current_context st)
    /\ ContextAnalyzer.last_analysis (ContextAnalyzer.get_current_context st')
       = ContextAnalyzer.last_analysis (ContextAnalyzer.get_current_context st)
    /\ ContextAnalyzer.analysis_cycle json_loads analyze now_merge now_done text st
       = st
    /\ ContextAnalyzer.force_analyze json_loads analyze now_merge now_done text st
       = (ContextAnalyzer.get_current_context st, st).
Proof.
  intros json_loads analyze now_merge now_done text st result_text cleaned
    Hanswer Hclean Hloads st'.
  assert (Hst : st' = st).
  { unfold st'.
    rewrite (analyze_text_answered json_loads _ _ _ _ _ _ _ Hanswer Hclean).
    now rewrite Hloads. }
  repeat split.
  - exact Hst.
  - now rewrite Hst.
  - now rewrite Hst.
  - unfold ContextAnalyzer.analysis_cycle.
    destruct (strip text); [reflexivity|exact Hst].
  - unfold ContextAnalyzer.force_analyze. fold st'. now rewrite Hst.
Qed.

Lemma malformed_json_preserves_state_witness :
  ContextAnalyzer._analyze_text JsonLite.loads
    (fun _ => Some (q "{'activity': 'reading', 'application': "))
    1000000 1000001 (py "Inbox (3)") ContextAnalyzer.init_default
  = ContextAnalyzer.init_default.
Proof.
  exact (proj1 (malformed_json_preserves_state JsonLite.loads
                  (fun _ => Some (q "{'activity': 'reading', 'application': "))
                  1000000%Z 1000001%Z (py "Inbox (3)")
                  ContextAnalyzer.init_default
                  (q "{'activity': 'reading', 'application': ")
                  (q "{'activity': 'reading', 'application':")
                  eq_refl eq_refl eq_refl)).
Defined.


(** C8, counterexample: a body with a fence inside a string.  Sent bare, it
    is decoded and merged; sent between fence lines, it is cut at its own
    fence, the rest does not decode, and the state is left as it was. *)
Lemma fence_inside_body_is_cut :
  let r := q "{'activity': 'typing ``` in a chat', 'application': 'Slack'}" in
  let st := ContextAnalyzer.init_default in
  let bare :=
    ContextAnalyzer._analyze_text JsonLite.loads (fun _ => Some r)
      1000000 1000001 (py "chat") st in
  let wrapped :=
    ContextAnalyzer._analyze_text JsonLite.loads
      (fun _ => Some (Spec.fenced (py "json") r)) 1000000 1000001 (py "chat") st in
  ContextAnalyzer.unwrap_response r = Ok r
  /\ ContextAnalyzer.unwrap_response (Spec.fenced (py "json") r)
     = Ok (q "{'activity': 'typing")
  /\ ContextAnalyzer.current_activity bare = JStr (py "typing ``` in a chat")
  /\ ContextAnalyzer._last_analysis_time bare = Some 1000001%Z
  /\ wrapped = st
  /\ wrapped <> bare.
Proof.
  cbv zeta. repeat split; try reflexivity.
  intros H. apply (f_equal ContextAnalyzer._last_analysis_time) in H.
  discriminate H.
Qed.

(** C8, amended: for every response body that does not itself contain a
    fence, the body between fence lines (opened by a bare fence or by a
    [json] fence) is cleaned up to the same text as the bare body, namely the
    stripped body, so that it gets the same parse result and the same state
    update. *)
Theorem fenced_response_same_as_bare :
  forall (json_loads : str -> option json) (lang r : str)
         (now_merge now_done : Z) (text : str) (st : ContextAnalyzer.t),
    lang = [] \/ lang = py "json" ->
    contains ContextAnalyzer.fence r = false ->
    ContextAnalyzer.unwrap_response (Spec.fenced lang r) = Ok (strip r)
    /\ ContextAnalyzer.unwrap_response r = Ok (strip r)
    /\ ContextAnalyzer._analyze_text json_loads
         (fun _ => Some (Spec.fenced lang r)) now_merge now_done text st
       = ContextAnalyzer._analyze_text json_loads (fun _ => Some r)
           now_merge now_done text st.
Proof.
  intros json_loads lang r now_merge now_done text st Hlang Hr.
  pose proof (unwrap_response_fenced lang r Hlang Hr) as Hfenced.
  pose proof (unwrap_response_bare r Hr) as Hbare.
  repeat split; [exact Hfenced|exact Hbare|].
  rewrite (analyze_text_answered json_loads _ _ _ _ _ _ _ eq_refl Hfenced).
  now rewrite (analyze_text_answered json_loads _ _ _ _ _ _ _ eq_refl Hbare).
Qed.

Lemma fenced_response_same_as_bare_witness :
  ContextAnalyzer._analyze_text JsonLite.loads
    (fun _ =>
       Some (Spec.fenced (py "json")
               (q "{'activity': 'banking', 'application': 'Bank App'}")))
    1000000 1000001 (py "OTP is 999111") ContextAnalyzer.init_default
  = ContextAnalyzer._analyze_text JsonLite.loads
      (fun _ => Some (q "{'activity': 'banking', 'application': 'Bank App'}"))
      1000000 1000001 (py "OTP is 999111") ContextAnalyzer.init_default.
Proof.
  refine (proj2 (proj2 (fenced_response_same_as_bare JsonLite.loads (py "json")
                          (q "{'activity': 'banking', 'application': 'Bank App'}")
                          1000000%Z 1000001%Z (py "OTP is 999111")
                          ContextAnalyzer.init_default _ eq_refl))).
  right. reflexivity.
Defined.

(** C6, counterexample: for a text of 4001 characters the text embedded in
    the prompt has 4003 characters, the first 4000 of the input and three
    dots. *)
Lemma truncated_text_exceeds_budget :
  let text := repeat (ascii_of_nat 97) 4001 in
  length text = 4001
  /\ ContextAnalyzer.truncate_text text
     = repeat (ascii_of_nat 97) 4000 ++ py "..."
  /\ length (ContextAnalyzer.truncate_text text) = 4003
  /\ ~ length (ContextAnalyzer.truncate_text text) <= 4000.
Proof.
  cbv zeta.
  assert (H : ContextAnalyzer.truncate_text (repeat (ascii_of_nat 97) 4001)
              = repeat (ascii_of_nat 97) 4000 ++ py "...")
    by (vm_compute; reflexivity).
  rewrite H, length_app, !repeat_length. cbn [length py String.list_ascii_of_string].
  repeat split; lia.
Qed.

(** C6, amended: the provider receives the prompt that embeds the truncated
    text between the two halves of the template.  A text of at most 4000
    characters is embedded unchanged; a longer text is embedded as its first
    4000 characters followed by three dots, 4003 characters in all; so the
    embedded text never has more than 4003 characters, and its first 4000
    are those of the input. *)
Theorem embedded_text_is_cut_and_marked :
  forall text : str,
    length (ContextAnalyzer.truncate_text text) <= 4003
    /\ firstn 4000 (ContextAnalyzer.truncate_text text) = firstn 4000 text
    /\ (length text <= 4000 -> ContextAnalyzer.truncate_text text = text)
    /\ (4000 < length text ->
        ContextAnalyzer.truncate_text text = firstn 4000 text ++ py "..."
        /\ length (ContextAnalyzer.truncate_text text) = 4003)
    /\ (forall (json_loads : str -> option json) (analyze : str -> option str)
               (now_merge now_done : Z) (st : ContextAnalyzer.t),
        ContextAnalyzer._analyze_text json_loads analyze now_merge now_done
          text st
        = ContextAnalyzer._analyze_text json_loads
            (fun prompt =>
               if str_eqb prompt
                    (ContextAnalyzer.prompt_head
                     ++ ContextAnalyzer.truncate_text text
                     ++ ContextAnalyzer.prompt_tail)
               then analyze prompt else None)
            now_merge now_done text st).
Proof.
  intros text.
  assert (Hprompt :
            forall (json_loads : str -> option json)
                   (analyze : str -> option str) (now_merge now_done : Z)
                   (st : ContextAnalyzer.t),
              ContextAnalyzer._analyze_text json_loads analyze now_merge
                now_done text st
              = ContextAnalyzer._analyze_text json_loads
                  (fun prompt =>
                     if str_eqb prompt
                          (ContextAnalyzer.prompt_head
                           ++ ContextAnalyzer.truncate_text text
                           ++ ContextAnalyzer.prompt_tail)
                     then analyze prompt else None)
                  now_merge now_done text st).
  { intros. exact (analyze_text_prompt json_loads analyze _ _ text st). }
  revert Hprompt. generalize ContextAnalyzer.prompt_head ContextAnalyzer.prompt_tail.
  intros head tail Hprompt.
  unfold ContextAnalyzer.truncate_text in *.
  change ContextAnalyzer.max_text_length with 4000 in *.
  remember 4000 as n eqn:Hn.
  destruct (Nat.ltb_spec n (length text)) as [Hlong|Hshort].
  - assert (Hlen : length (firstn n text ++ py "...") = S (S (S n))).
    { rewrite length_app, length_firstn.
      cbn [length py String.list_ascii_of_string]. lia. }
    repeat split; try lia; try exact Hlen; try exact Hprompt.
    rewrite firstn_app, length_firstn.
    replace (n - Nat.min n (length text)) with 0 by lia.
    rewrite firstn_O, app_nil_r, firstn_firstn. f_equal. lia.
  - repeat split; try lia; try reflexivity; exact Hprompt.
Qed.

Lemma embedded_text_is_cut_and_marked_witness :
  ContextAnalyzer.truncate_text (py "Inbox (3)") = py "Inbox (3)"
  /\ length (ContextAnalyzer.truncate_text (repeat (ascii_of_nat 97) 4001)) = 4003.
Proof.
  split.
  - apply (proj1 (proj2 (proj2 (embedded_text_is_cut_and_marked (py "Inbox (3)"))))).
    cbn. lia.
  - apply (proj1 (proj2 (proj2 (proj2
             (embedded_text_is_cut_and_marked (repeat (ascii_of_nat 97) 4001)))))).
    rewrite repeat_length. lia.
Defined.

(* ------------------------------------------------------------------------- *)
(** ** Merging key information *)

Section MergeFacts.

Import ContextAnalyzer.

(** On a [dict], the inner loop is a search for an event with the type and
    value that [get] reads without defaults. *)
Lemma is_duplicate_dict (kv : list (str * json)) (events : list KeyEvent) :
  is_duplicate events (JDict kv)
  = Ok (existsb
          (fun e =>
             py_eqb (ke_type e)
               (match lookup (py "type") kv with Some v => v | None => JNull end)
             && py_eqb (ke_value e)
                  (match lookup (py "value") kv with Some v => v | None => JNull end))
          events).
Proof.
  induction events as [|e events IH]; [reflexivity|].
  cbn [is_duplicate existsb get].
  destruct (lookup (py "type") kv) as [ty|], (lookup (py "value") kv) as [v|];
    (destruct (py_eqb (ke_type e) _); cbn [andb orb]; [|exact IH];
     destruct (py_eqb (ke_value e) _); cbn [orb]; [reflexivity|exact IH]).
Qed.

Lemma unique_events_snoc (events : list KeyEvent) (e : KeyEvent) :
  Spec.unique_events (events ++ [e])
  = Spec.unique_events events
    && negb (existsb (fun x => Spec.same_key x e) events).
Proof.
  induction events as [|a events IH]; [reflexivity|].
  cbn [app Spec.unique_events existsb]. rewrite IH, existsb_app.
  cbn [existsb]. rewrite orb_false_r.
  destruct (existsb (Spec.same_key a) events), (Spec.same_key a e),
    (Spec.unique_events events),
    (existsb (fun x => Spec.same_key x e) events); reflexivity.
Qed.

Lemma unique_events_tl (events : list KeyEvent) :
  Spec.unique_events events = true -> Spec.unique_events (tl events) = true.
Proof.
  destruct events as [|a events]; [trivial|].
  cbn. intros H. now apply andb_true_iff in H.
Qed.

(** Appending an event that matches no stored one keeps the events
    distinct, with or without eviction. *)
Lemma append_keeps_unique (d : deque KeyEvent) (e : KeyEvent) :
  Spec.unique_events (items d) = true ->
  existsb (fun x => Spec.same_key x e) (items d) = false ->
  Spec.unique_events (items (append d e)) = true.
Proof.
  intros Hu Hnew.
  assert (H : Spec.unique_events (items d ++ [e]) = true)
    by now rewrite unique_events_snoc, Hu, Hnew.
  unfold append. cbn [items].
  destruct (maxlen d <? length (items d ++ [e])); [|exact H].
  now apply unique_events_tl.
Qed.

(** An item that carries a type and a value is stored only when no stored
    event has that type and value. *)
Lemma merge_info_keeps_unique (timestamp : Z) (info : json) (st : t) :
  has_type_and_value info = true ->
  unique_state st ->
  unique_state (snd (merge_info timestamp info st)).
Proof.
  unfold unique_state. intros Hinfo Hu.
  destruct info as [| | | | |kv]; try discriminate.
  unfold has_type_and_value, Spec.has_key in Hinfo.
  unfold merge_info, bind, lift, get_state, modify, ret.
  rewrite is_duplicate_dict. cbn [get].
  destruct (lookup (py "type") kv) as [ty|]; [|discriminate].
  destruct (lookup (py "value") kv) as [v|]; [|discriminate].
  destruct (existsb _ (items (key_events st))) eqn:E; [exact Hu|].
  destruct (lookup (py "context") kv) as [c|]; cbn [snd set_key_events key_events];
    apply append_keeps_unique; assumption.
Qed.

(** A loop whose every turn keeps a property of the state keeps it, however
    it ends. *)
Lemma for_each_keeps (S A : Type) (P : S -> Prop) (body : A -> M S unit)
    (l : list A) :
  (forall x st, In x l -> P st -> P (snd (body x st))) ->
  forall st, P st -> P (snd (for_each l body st)).
Proof.
  induction l as [|x l IH]; intros Hbody st Hst; [exact Hst|].
  cbn [for_each]. unfold bind.
  pose proof (Hbody x st (or_introl eq_refl) Hst) as Hx.
  destruct (body x st) as [[[]|e] st1]; [|exact Hx].
  apply IH; [|exact Hx]. intros y st2 Hy. apply Hbody. now right.
Qed.

(** When every item of [key_info] carries a type and a value, the merge keeps
    the stored events pairwise distinct on (type, value). *)
Lemma update_state_keeps_unique (result : json) (timestamp : Z) (st : t) :
  (forall key_info infos,
      get result (py "key_info") (JList []) = Ok key_info ->
      iterate key_info = Ok infos ->
      forallb has_type_and_value infos = true) ->
  unique_state st ->
  unique_state (snd (update_state result timestamp st)).
Proof.
  intros Hitems Hu.
  destruct result as [| | | | |kv]; try exact Hu.
  unfold update_state, bind, lift, get_state, modify.
  cbn [get].
  destruct (lookup (py "activity") kv) as [a|],
           (lookup (py "application") kv) as [b|];
    (destruct (match lookup (py "key_info") kv with
               | Some v => Ok v
               | None => Ok (JList [])
               end) as [key_info|e] eqn:Ek; [|exact Hu];
     destruct (iterate key_info) as [infos|e] eqn:Ei; [|exact Hu];
     apply for_each_keeps; [|exact Hu];
     intros info st0 Hin Hst0; apply merge_info_keeps_unique; [|exact Hst0];
     pose proof (Hitems key_info infos Ek Ei) as Hall;
     rewrite forallb_forall in Hall; now apply Hall).
Qed.

End MergeFacts.

(** The example of the specification: two items with the same type and
    value in one result are stored once. *)
Example same_type_and_value_stored_once :
  let response :=
    q "{'activity': 'reading mail', 'application': 'Gmail', 'key_info': [{'type': 'otp', 'value': '123456', 'context': 'A'}, {'type': 'otp', 'value': '123456', 'context': 'B'}]}" in
  let st :=
    ContextAnalyzer._analyze_text JsonLite.loads (fun _ => Some response)
      1000000 1000001 (py "Your code is 123456") ContextAnalyzer.init_default in
  items (ContextAnalyzer.key_events st)
  = [ContextAnalyzer.mkKeyEvent 1000000 (JStr (py "otp")) (JStr (py "123456"))
       (JStr (py "A"))].
Proof. reflexivity. Qed.

(** C1: two items without a type and with the same value, in one analysis
    result, are both stored, as two key events that share (type, value): the
    duplicate check compares the stored type [info] with the missing type of
    the item, [None], while the stored event gets the default. *)
Theorem untyped_items_are_stored_twice :
  let response :=
    q "{'activity': 'reading mail', 'application': 'Gmail', 'key_info': [{'value': '123456', 'context': 'A'}, {'value': '123456', 'context': 'B'}]}" in
  let st :=
    ContextAnalyzer._analyze_text JsonLite.loads (fun _ => Some response)
      1000000 1000001 (py "Your code is 123456") ContextAnalyzer.init_default in
  map (fun e => (ContextAnalyzer.ke_type e, ContextAnalyzer.ke_value e))
    (items (ContextAnalyzer.key_events st))
  = [(JStr (py "info"), JStr (py "123456"));
     (JStr (py "info"), JStr (py "123456"))]
  /\ Spec.unique_events (items (ContextAnalyzer.key_events st)) = false.
Proof. cbv zeta. split; reflexivity. Qed.

(** C10: an item without any field is stored with the defaults, type
    [info] (which is none of the documented tags), empty value and empty
    context; a second such item in the same result is stored again, since
    the duplicate check reads the fields of the item without these
    defaults. *)
Theorem defaulted_fields_escape_duplicate_check :
  let response :=
    q "{'activity': 'reading mail', 'application': 'Gmail', 'key_info': [{}, {}]}" in
  let st :=
    ContextAnalyzer._analyze_text JsonLite.loads (fun _ => Some response)
      1000000 1000001 (py "Your code is 123456") ContextAnalyzer.init_default in
  let stored :=
    ContextAnalyzer.mkKeyEvent 1000000 (JStr (py "info")) (JStr []) (JStr []) in
  items (ContextAnalyzer.key_events st) = [stored; stored]
  /\ ContextAnalyzer.is_duplicate [stored] (JDict []) = Ok false
  /\ existsb (str_eqb (py "info")) Spec.documented_tags = false.
Proof. cbv zeta. repeat split. Qed.

(* ========================================================================= *)
(** * Further properties of the code *)

(* ------------------------------------------------------------------------- *)
(** ** Time windows and buffers in general *)

Section WindowFacts.

Variable A : Type.
Variable ts : A -> Z.
Variable recent : Z -> bool.

(** What a filter returns is the list with some items left out. *)
Lemma filter_subseq (keep : A -> bool) (l : list A) : subseq (filter keep l) l.
Proof.
  induction l as [|a l IH]; cbn [filter]; [constructor|].
  destruct (keep a); now constructor.
Qed.

(** In a list ordered by time, when an item later than a recent one is
    recent, the recent items are the tail of the list, after those that are
    not. *)
Lemma filter_since_split (l : list A) :
  (forall earlier later : Z,
      (earlier <= later)%Z -> recent earlier = true -> recent later = true) ->
  StronglySorted Z.le (map ts l) ->
  exists older : list A,
    l = older ++ filter (fun x => recent (ts x)) l
    /\ Forall (fun x => recent (ts x) = false) older.
Proof.
  intros Hlater. induction l as [|a l IH]; intros Hsorted.
  - exists []. split; [reflexivity|constructor].
  - cbn [map] in Hsorted. apply StronglySorted_inv in Hsorted as [Hl Ha].
    cbn [filter]. destruct (recent (ts a)) eqn:Hrecent.
    + exists []. split; [|constructor]. cbn [app]. f_equal.
      symmetry. apply forallb_filter_id. apply forallb_forall.
      intros x Hx. rewrite Forall_forall in Ha.
      exact (Hlater _ _ (Ha (ts x) (in_map ts l x Hx)) Hrecent).
    + destruct (IH Hl) as [older [Heq Hold]].
      exists (a :: older). split; [cbn [app]; now f_equal|].
      constructor; assumption.
Qed.

End WindowFacts.

Section MoreDequeFacts.

Variable A : Type.

Lemma length_items_append (d : deque A) (x : A) :
  length (items d) <= maxlen d -> length (items (append d x)) <= maxlen d.
Proof.
  intros H. unfold append. cbn [items].
  destruct (Nat.ltb_spec (maxlen d) (length (items d ++ [x]))) as [Hlt|Hge];
    [|exact Hge].
  rewrite length_app in Hlt. cbn in Hlt.
  destruct (items d ++ [x]) as [|a l] eqn:E; [cbn; lia|].
  apply (f_equal (@length A)) in E. rewrite length_app in E. cbn in *. lia.
Qed.

Lemma newest_snoc (l : list A) (x : A) :
  ScreenCapture.newest (l ++ [x]) = Some x.
Proof. unfold ScreenCapture.newest. now rewrite rev_unit. Qed.

Lemma newest_skipn (k : nat) (l : list A) :
  k < length l -> ScreenCapture.newest (skipn k l) = ScreenCapture.newest l.
Proof.
  induction l as [|x l IH] using rev_ind; intros Hk.
  - cbn in Hk. lia.
  - rewrite length_app in Hk. cbn in Hk.
    rewrite skipn_app, newest_snoc.
    replace (k - length l) with 0 by lia. cbn [skipn]. apply newest_snoc.
Qed.

Lemma newest_none (l : list A) : ScreenCapture.newest l = None <-> l = [].
Proof.
  split; [|now intros ->].
  destruct l as [|x l] using rev_ind; [reflexivity|].
  now rewrite newest_snoc.
Qed.

End MoreDequeFacts.

(** Without rounding, a later time that follows one not before the cutoff is
    not before it either. *)
Lemma exact_monotone_clock : monotone_clock PyFloat.exact.
Proof.
  intros earlier later cutoff Hle. cbn. rewrite !Qle_bool_iff. intros H.
  apply (Qle_trans _ _ _ H). unfold Qle. cbn. nia.
Qed.

(* ------------------------------------------------------------------------- *)
(** ** The frame buffer's queries *)

Section FrameQueries.

Variable Image : Type.

Variable F : PyFloat.arith.

Lemma items_captures_init (fps : PyFloat.float F) (buffer_duration : Z)
    (sc : ScreenCapture.t F Image) (frames : list (ScreenCapture.Frame Image)) :
  ScreenCapture.init F Image fps buffer_duration = Some sc ->
  exists capacity : nat,
    ScreenCapture.max_frames F fps buffer_duration = Some (Z.of_nat capacity)
    /\ items (ScreenCapture.frame_buffer (ScreenCapture.captures sc frames))
       = skipn (length frames - capacity) frames.
Proof.
  intros H. destruct (frame_buffer_init F Image _ _ _ H) as [capacity [Hcap Hbuf]].
  exists capacity. split; [exact Hcap|].
  rewrite frame_buffer_captures, Hbuf. apply items_appends_new.
Qed.

Lemma sorted_app_r (l1 l2 : list Z) :
  StronglySorted Z.le (l1 ++ l2) -> StronglySorted Z.le l2.
Proof.
  induction l1 as [|a l1 IH]; intros H; [exact H|].
  apply IH. now apply StronglySorted_inv in H.
Qed.

Lemma last_cons (A : Type) (l : list A) :
  forall a b : A, last (b :: l) a = last l b.
Proof.
  induction l as [|c l IH]; intros a b; [reflexivity|].
  change (last (b :: c :: l) a) with (last (c :: l) a).
  now rewrite !IH.
Qed.

(** In a list ordered by time the first item is the oldest and the last one
    the newest. *)
Lemma sorted_between_ends (A : Type) (ts : A -> Z) (l : list A) :
  forall a : A,
    StronglySorted Z.le (map ts (a :: l)) ->
    forall x, In x (a :: l) -> (ts a <= ts x <= ts (last l a))%Z.
Proof.
  induction l as [|b l IH]; intros a Hsorted x Hx.
  - destruct Hx as [<- | []]. cbn. lia.
  - cbn [map] in Hsorted. apply StronglySorted_inv in Hsorted as [Hl Ha].
    cbn [map] in Ha. pose proof (Forall_inv Ha) as Hab.
    rewrite last_cons.
    destruct Hx as [<- | Hx].
    + specialize (IH b Hl b (or_introl eq_refl)). lia.
    + specialize (IH b Hl x Hx). lia.
Qed.

End FrameQueries.

(** X1: a [ScreenCapture] that could be built has a capacity, the value of
    [int(fps * buffer_duration)] in the float arithmetic at hand.  After any
    captures, [get_latest_frame] returns the frame captured last when the
    capacity is at least 1; when it is 0 the buffer stores nothing and
    [get_latest_frame] returns [None] whatever was captured; and it returns
    [None] exactly when the buffer is empty. *)
Theorem get_latest_frame_is_last_capture :
  forall (F : PyFloat.arith) (Image : Type) (fps : PyFloat.float F)
         (buffer_duration : Z) (sc : ScreenCapture.t F Image)
         (frames : list (ScreenCapture.Frame Image)),
    ScreenCapture.init F Image fps buffer_duration = Some sc ->
    let sc' := ScreenCapture.captures sc frames in
    exists capacity : nat,
      ScreenCapture.max_frames F fps buffer_duration = Some (Z.of_nat capacity)
      /\ (0 < capacity ->
          ScreenCapture.get_latest_frame sc' = ScreenCapture.newest frames)
      /\ (capacity = 0 -> ScreenCapture.get_latest_frame sc' = None)
      /\ (ScreenCapture.get_latest_frame sc' = None
          <-> items (ScreenCapture.frame_buffer sc') = []).
Proof.
  intros F Image fps buffer_duration sc frames Hinit sc'.
  destruct (items_captures_init Image F _ _ _ frames Hinit)
    as [capacity [Hcap Hitems]].
  exists capacity. split; [exact Hcap|].
  unfold ScreenCapture.get_latest_frame, sc'. rewrite Hitems.
  repeat split.
  - intros Hpos. destruct frames as [|f frames]; [reflexivity|].
    apply newest_skipn. cbn [length]. lia.
  - intros ->. rewrite Nat.sub_0_r, skipn_all. reflexivity.
  - apply newest_none.
  - apply newest_none.
Qed.

Lemma get_latest_frame_is_last_capture_witness :
  exists sc : ScreenCapture.t PyFloat.exact Z,
    ScreenCapture.init PyFloat.exact Z 3%Q 1 = Some sc
    /\ ScreenCapture.get_latest_frame
         (ScreenCapture.captures sc
            [(0, 10); (1, 11); (2, 12); (3, 13); (4, 14)]%Z)
       = Some (4, 14)%Z.
Proof.
  eexists.
  destruct (get_latest_frame_is_last_capture PyFloat.exact Z 3%Q 1%Z _
              [(0, 10); (1, 11); (2, 12); (3, 13); (4, 14)]%Z eq_refl)
    as [capacity [Hcap [Hlatest _]]].
  split; [reflexivity|]. apply Hlatest.
  change (Some 3%Z = Some (Z.of_nat capacity)) in Hcap.
  injection Hcap as Hcap. lia.
Defined.

(** X2: [get_frames_since] returns buffered frames in buffer order, namely
    those whose timestamp, as a float, compares [>=] to the cutoff
    [now.timestamp() - seconds]; this holds for any float arithmetic.  When
    moreover a later time that follows one passing the cutoff passes it too,
    and the buffer is ordered by time, these frames are the tail of the
    buffer: no frame before them passes the cutoff. *)
Theorem get_frames_since_is_recent_tail :
  forall (F : PyFloat.arith) (Image : Type) (now : Z)
         (seconds : PyFloat.float F) (sc : ScreenCapture.t F Image),
    let buffer := items (ScreenCapture.frame_buffer sc) in
    let cutoff := PyFloat.sub F (PyFloat.timestamp F now) seconds in
    let passes :=
      fun frame : ScreenCapture.Frame Image =>
        PyFloat.ge F (PyFloat.timestamp F (fst frame)) cutoff in
    let recent := ScreenCapture.get_frames_since now seconds sc in
    subseq recent buffer
    /\ (forall frame, In frame recent <-> In frame buffer /\ passes frame = true)
    /\ (monotone_clock F ->
        StronglySorted Z.le (map fst buffer) ->
        exists older,
          buffer = older ++ recent
          /\ Forall (fun frame => passes frame = false) older).
Proof.
  intros F Image now seconds sc buffer cutoff passes recent.
  split; [|split].
  - apply filter_subseq.
  - intros frame. unfold recent, ScreenCapture.get_frames_since.
    rewrite filter_In. reflexivity.
  - intros Hclock Hsorted.
    exact (filter_since_split _ fst
             (fun t => PyFloat.ge F (PyFloat.timestamp F t) cutoff) buffer
             (fun earlier later Hle => Hclock earlier later cutoff Hle) Hsorted).
Qed.

Lemma get_frames_since_is_recent_tail_witness :
  exists older,
    [(0, 10); (1000000, 11); (2000000, 12)]%Z
    = older
      ++ ScreenCapture.get_frames_since (F := PyFloat.exact) 2500000 2%Q
           (ScreenCapture.mkScreenCapture PyFloat.exact 3%Q 60 (1 # 3)%Q
              (mkDeque 180 [(0, 10); (1000000, 11); (2000000, 12)]%Z))
    /\ Forall
         (fun frame : Z * Z =>
            Qle_bool (Qmake 2500000 1000000 - 2) (Qmake (fst frame) 1000000)
            = false)
         older.
Proof.
  apply (proj2 (proj2 (get_frames_since_is_recent_tail PyFloat.exact Z 2500000%Z
                         2%Q
                         (ScreenCapture.mkScreenCapture PyFloat.exact 3%Q 60
                            (1 # 3)%Q
                            (mkDeque 180
                               [(0, 10); (1000000, 11); (2000000, 12)]%Z))))).
  - exact exact_monotone_clock.
  - cbn. repeat constructor; lia.
Defined.

(** X3: [get_buffer_stats] of the frame buffer.  A [ScreenCapture] that could
    be built has a capacity, the value of [int(fps * buffer_duration)] in the
    float arithmetic at hand, and after [N] captures the frame count is
    [min N capacity]; an empty buffer gives the count 0, the duration 0 and
    no timestamps; and when the captures are ordered by time the duration is
    not negative and every buffered frame lies between the oldest and the
    newest timestamp reported, whose difference is the duration. *)
Theorem frame_buffer_stats_span_the_buffer :
  forall (F : PyFloat.arith) (Image : Type) (fps : PyFloat.float F)
         (buffer_duration : Z) (sc : ScreenCapture.t F Image)
         (frames : list (ScreenCapture.Frame Image)),
    ScreenCapture.init F Image fps buffer_duration = Some sc ->
    let sc' := ScreenCapture.captures sc frames in
    let stats := ScreenCapture.get_buffer_stats sc' in
    exists capacity : nat,
      ScreenCapture.max_frames F fps buffer_duration = Some (Z.of_nat capacity)
      /\ ScreenCapture.frame_count stats = Nat.min (length frames) capacity
      /\ (ScreenCapture.frame_count stats = 0 ->
          stats = ScreenCapture.mkBufferStats 0 0 None None)
      /\ (StronglySorted Z.le (map fst frames) ->
          (0 <= ScreenCapture.duration_seconds stats)%Z
          /\ forall frame,
               In frame (items (ScreenCapture.frame_buffer sc')) ->
               exists oldest newest,
                 ScreenCapture.oldest_timestamp stats = Some oldest
                 /\ ScreenCapture.newest_timestamp stats = Some newest
                 /\ (oldest <= fst frame <= newest)%Z
                 /\ ScreenCapture.duration_seconds stats = (newest - oldest)%Z).
Proof.
  intros F Image fps buffer_duration sc frames Hinit sc' stats.
  destruct (items_captures_init Image F _ _ _ frames Hinit)
    as [capacity [Hcap Hitems]].
  exists capacity. split; [exact Hcap|].
  fold sc' in Hitems.
  unfold stats, ScreenCapture.get_buffer_stats. rewrite Hitems.
  split; [|split].
  - destruct (skipn (length frames - capacity) frames) as [|first rest] eqn:E;
      apply (f_equal (@length _)) in E; rewrite length_skipn in E;
      cbn [ScreenCapture.frame_count length] in *; lia.
  - destruct (skipn (length frames - capacity) frames) as [|first rest];
      [reflexivity|discriminate].
  - intros Hsorted.
    assert (Hs : StronglySorted Z.le
                   (map fst (skipn (length frames - capacity) frames))).
    { rewrite <- (firstn_skipn (length frames - capacity) frames) in Hsorted.
      rewrite map_app in Hsorted. exact (sorted_app_r _ _ Hsorted). }
    destruct (skipn (length frames - capacity) frames) as [|first rest];
      cbn [ScreenCapture.duration_seconds ScreenCapture.oldest_timestamp
           ScreenCapture.newest_timestamp].
    + split; [lia|]. intros frame [].
    + pose proof (sorted_between_ends _ fst rest first Hs) as Hends.
      split.
      * specialize (Hends first (or_introl eq_refl)).
        unfold ScreenCapture.Frame in *. lia.
      * intros frame Hin. exists (fst first), (fst (last rest first)).
        specialize (Hends frame Hin). unfold ScreenCapture.Frame in *.
        repeat split; try reflexivity; lia.
Qed.

Lemma frame_buffer_stats_span_the_buffer_witness :
  exists sc : ScreenCapture.t PyFloat.exact Z,
    ScreenCapture.init PyFloat.exact Z 3%Q 1 = Some sc
    /\ ScreenCapture.frame_count
         (ScreenCapture.get_buffer_stats
            (ScreenCapture.captures sc
               [(0, 10); (1, 11); (2, 12); (3, 13); (4, 14)]%Z))
       = 3
    /\ (0 <= ScreenCapture.duration_seconds
               (ScreenCapture.get_buffer_stats
                  (ScreenCapture.captures sc
                     [(0, 10); (1, 11); (2, 12); (3, 13); (4, 14)]%Z)))%Z.
Proof.
  eexists.
  destruct (frame_buffer_stats_span_the_buffer PyFloat.exact Z 3%Q 1%Z _
              [(0, 10); (1, 11); (2, 12); (3, 13); (4, 14)]%Z eq_refl)
    as [capacity [Hcap [Hcount [_ Hsorted]]]].
  split; [reflexivity|]. split.
  - rewrite Hcount. change (Some 3%Z = Some (Z.of_nat capacity)) in Hcap.
    injection Hcap as Hcap. cbn [length]. lia.
  - apply Hsorted. cbn. repeat constructor; lia.
Defined.

(* ------------------------------------------------------------------------- *)
(** ** Blank texts *)

Section BlankFacts.

Lemma lstrip_nil_iff (s : str) : lstrip s = [] <-> forallb isspace s = true.
Proof.
  induction s as [|c s IH]; cbn; [tauto|].
  destruct (isspace c); cbn; [exact IH|]. split; discriminate.
Qed.

Lemma forallb_isspace_lstrip (s : str) :
  forallb isspace (lstrip s) = forallb isspace s.
Proof.
  induction s as [|c s IH]; cbn; [reflexivity|].
  destruct (isspace c) eqn:E; cbn; [exact IH|now rewrite E].
Qed.

Lemma forallb_isspace_rev (s : str) :
  forallb isspace (rev s) = forallb isspace s.
Proof.
  induction s as [|c s IH]; [reflexivity|].
  cbn. rewrite forallb_app, IH. cbn. rewrite andb_true_r. apply andb_comm.
Qed.

Lemma rstrip_nil_iff (s : str) : rstrip s = [] <-> forallb isspace s = true.
Proof.
  unfold rstrip. rewrite <- (forallb_isspace_rev s), <- lstrip_nil_iff.
  split; intros H.
  - apply (f_equal (@rev ascii)) in H. now rewrite rev_involutive in H.
  - now rewrite H.
Qed.

(** A text strips to nothing exactly when all its characters are white
    space. *)
Lemma strip_nil_iff (s : str) : strip s = [] <-> forallb isspace s = true.
Proof.
  unfold strip. now rewrite rstrip_nil_iff, forallb_isspace_lstrip.
Qed.

Lemma strip_nonblank_iff (s : str) : strip s <> [] <-> has_visible s = true.
Proof.
  rewrite strip_nil_iff. unfold has_visible.
  induction s as [|c s IH]; cbn; [split; [congruence|discriminate]|].
  destruct (isspace c); cbn; [exact IH|]. split; [reflexivity|discriminate].
Qed.

Lemma forallb_isspace_join (texts : list str) :
  forallb isspace (join (py " ") texts) = forallb (forallb isspace) texts.
Proof.
  induction texts as [|t texts IH]; [reflexivity|].
  destruct texts as [|u texts].
  - cbn. now rewrite andb_true_r.
  - change (join (py " ") (t :: u :: texts))
      with (t ++ py " " ++ join (py " ") (u :: texts)).
    rewrite !forallb_app, IH. reflexivity.
Qed.

Lemma has_visible_join (texts : list str) :
  has_visible (join (py " ") texts) = existsb has_visible texts.
Proof.
  assert (Hneg : forall s, has_visible s = negb (forallb isspace s)).
  { intros s. unfold has_visible. induction s as [|c s IH]; [reflexivity|].
    cbn. rewrite IH. now destruct (isspace c). }
  rewrite Hneg, forallb_isspace_join.
  induction texts as [|t texts IH]; [reflexivity|].
  cbn. rewrite Hneg, negb_andb. now rewrite IH.
Qed.

(** What [strip] returns does not start with white space. *)
Lemma strip_head (s : str) :
  match strip s with
  | [] => True
  | c :: _ => isspace c = false
  end.
Proof.
  unfold strip. pose proof (lstrip_head s) as H.
  destruct (lstrip s) as [|c t]; [exact I|].
  now rewrite rstrip_cons_nonspace.
Qed.

(** A text that starts with a visible character is not blank. *)
Lemma strip_cons_nonblank (c : ascii) (s : str) :
  isspace c = false -> strip (c :: s) <> [].
Proof.
  intros H. unfold strip. rewrite lstrip_nonspace, rstrip_cons_nonspace by exact H.
  discriminate.
Qed.

End BlankFacts.

(* ------------------------------------------------------------------------- *)
(** ** Runs of the extraction stage *)

Section ExtractionRuns.

Import OCRExtractor.

Variable Image : Type.
Variable readtext : Image -> option (list (bbox * str * Q)).

(** The text [extract_text] returns, in terms of the recognized regions. *)
Lemma fst_extract_text (image : Image) (results : list (bbox * str * Q)) :
  readtext image = Some results ->
  fst (extract_text readtext image)
  = join (py " ") (map (fun r => snd (fst r)) results).
Proof.
  unfold extract_text. intros ->. now destruct results.
Qed.

(** The three outcomes of a call. *)
Lemma process_frame_cases (now_check now_stored timestamp : Z) (image : Image)
    (st : t) :
  _processing st = false ->
  let text := fst (extract_text readtext image) in
  let confidence := snd (extract_text readtext image) in
  process_frame readtext now_check now_stored timestamp image st
  = match process_frame_enter now_check st with
    | None => (None, st)
    | Some _ =>
        if has_visible text
        then (Some text,
              mkOCRExtractor
                (append (text_buffer st) (mkTextRecord timestamp text confidence))
                false (Some now_stored))
        else (None, st)
    end.
Proof.
  intros Hflag text confidence. unfold process_frame.
  destruct (process_frame_enter now_check st) as [st1|] eqn:Henter;
    [|reflexivity].
  apply process_frame_enter_some in Henter as [_ ->].
  unfold process_frame_body. fold text confidence.
  destruct (extract_text readtext image) as [text' confidence'] eqn:E.
  subst text confidence. cbn [fst snd].
  destruct (has_visible text') eqn:Hv.
  - apply strip_nonblank_iff in Hv.
    destruct (strip text') as [|c s]; [contradiction|reflexivity].
  - assert (Hs : strip text' = []).
    { destruct (strip text') as [|c s] eqn:Es; [reflexivity|].
      assert (Hne : strip text' <> []) by (rewrite Es; discriminate).
      apply strip_nonblank_iff in Hne. congruence. }
    rewrite Hs. now rewrite set_processing_false_true.
Qed.

Lemma stage_ok_init : stage_ok init.
Proof. repeat split; try constructor; cbn; lia. Qed.

Lemma nonblank_append (d : deque TextRecord) (r : TextRecord) :
  Forall (fun r => strip (text r) <> []) (items d) ->
  strip (text r) <> [] ->
  Forall (fun r => strip (text r) <> []) (items (append d r)).
Proof.
  intros Hd Hr. unfold append. cbn [items].
  assert (H : Forall (fun r => strip (text r) <> []) (items d ++ [r]))
    by (apply Forall_app; split; [exact Hd|now constructor]).
  destruct (maxlen d <? length (items d ++ [r])); [|exact H].
  destruct (items d ++ [r]) as [|a l]; [exact H|]. now apply Forall_inv_tail in H.
Qed.

Lemma process_call_keeps (c : Call Image) (st : t) :
  stage_ok st -> stage_ok (snd (process_call readtext c st)).
Proof.
  intros (Hflag & Hrec & Hmax & Hlen). unfold process_call.
  rewrite process_frame_cases by exact Hflag. cbv zeta.
  destruct (process_frame_enter (now_check c) st); [|now repeat split].
  destruct (has_visible (fst (extract_text readtext (frame_image c)))) eqn:Hv;
    [|now repeat split].
  cbn [snd]. unfold stage_ok, nonblank_records.
  cbn [_processing text_buffer]. repeat split.
  - apply nonblank_append; [exact Hrec|]. cbn [text].
    now apply strip_nonblank_iff.
  - exact Hmax.
  - apply Nat.le_trans with (maxlen (text_buffer st)); [|lia].
    apply length_items_append. lia.
Qed.

Lemma process_calls_keep (calls : list (Call Image)) :
  forall st : t, stage_ok st -> stage_ok (process_calls readtext calls st).
Proof.
  induction calls as [|c calls IH]; intros st Hst; [exact Hst|].
  unfold process_calls. cbn [fold_left]. apply IH. now apply process_call_keeps.
Qed.

(** The state a stored call leaves carries its time. *)
Lemma process_call_stored (c : Call Image) (st : t) (text : str) (st' : t) :
  _processing st = false ->
  process_call readtext c st = (Some text, st') ->
  _last_extraction_time st' = Some (now_stored c)
  /\ match _last_extraction_time st with
     | Some p => (1000000 <= now_check c - p)%Z
     | None => True
     end.
Proof.
  intros Hflag. unfold process_call.
  rewrite process_frame_cases by exact Hflag. cbv zeta.
  unfold process_frame_enter. rewrite Hflag.
  destruct (_last_extraction_time st) as [p|].
  - destruct (Z.ltb_spec (now_check c - p) 1000000) as [Hlt|Hge];
      [discriminate|].
    destruct (has_visible _); [|discriminate].
    intros Heq. injection Heq as _ <-. now split.
  - destruct (has_visible _); [|discriminate].
    intros Heq. injection Heq as _ <-. now split.
Qed.

(** A skipped or blank call leaves the recorded time as it was. *)
Lemma process_call_not_stored (c : Call Image) (st st' : t) :
  _processing st = false ->
  process_call readtext c st = (None, st') -> st' = st.
Proof.
  intros Hflag. unfold process_call.
  rewrite process_frame_cases by exact Hflag. cbv zeta.
  destruct (process_frame_enter (now_check c) st); [|congruence].
  destruct (has_visible _); [discriminate|congruence].
Qed.

Lemma stored_calls_spaced (calls : list (Call Image)) :
  forall st : t,
    stage_ok st ->
    spaced (_last_extraction_time st) (stored_calls readtext calls st).
Proof.
  induction calls as [|c calls IH]; intros st Hst; [exact I|].
  cbn [stored_calls].
  pose proof (process_call_keeps c st Hst) as Hnext.
  destruct Hst as (Hflag & _).
  destruct (process_call readtext c st) as [[text|] st'] eqn:E.
  - destruct (process_call_stored c st text st' Hflag E) as [Htime Hgap].
    cbn [spaced]. split; [exact Hgap|].
    rewrite <- Htime. now apply IH.
  - rewrite <- (process_call_not_stored c st st' Hflag E) at 1. now apply IH.
Qed.

End ExtractionRuns.

(** X4: what a call of [process_frame] that is admitted does, in terms of
    the regions the recognizer returns.  When some region has a character
    that is not white space, the call returns the texts of the regions joined
    by single spaces, appends one record with the frame's timestamp and that
    text, records the time and clears the flag; when no region has such a
    character (no region at all, or only blank ones) the call returns [None]
    and leaves the stage state as it was. *)
Theorem admitted_call_stores_visible_text :
  forall (Image : Type)
         (readtext : Image -> option (list (OCRExtractor.bbox * str * Q)))
         (now_check now_stored timestamp : Z) (image : Image)
         (results : list (OCRExtractor.bbox * str * Q))
         (st st1 : OCRExtractor.t),
    readtext image = Some results ->
    OCRExtractor.process_frame_enter now_check st = Some st1 ->
    let texts := map (fun r => snd (fst r)) results in
    let text := join (py " ") texts in
    (existsb has_visible texts = true ->
     OCRExtractor.process_frame readtext now_check now_stored timestamp image st
     = (Some text,
        OCRExtractor.mkOCRExtractor
          (append (OCRExtractor.text_buffer st)
             (OCRExtractor.mkTextRecord timestamp text
                (snd (OCRExtractor.extract_text readtext image))))
          false (Some now_stored)))
    /\ (existsb has_visible texts = false ->
        OCRExtractor.process_frame readtext now_check now_stored timestamp
          image st
        = (None, st)).
Proof.
  intros Image readtext now_check now_stored timestamp image results st st1
    Hread Henter texts text.
  pose proof (process_frame_enter_some now_check st st1 Henter) as [Hflag _].
  rewrite (process_frame_cases Image readtext _ _ _ _ _ Hflag). cbv zeta.
  rewrite Henter, (fst_extract_text Image readtext image results Hread).
  subst text. fold texts. rewrite has_visible_join.
  split; intros ->; reflexivity.
Qed.

Lemma admitted_call_stores_visible_text_witness :
  OCRExtractor.process_frame
    (fun _ : nat => Some [([], py "  ", 1%Q); ([], py "Inbox", 1%Q)])
    5000000 5200000 4900000 7 OCRExtractor.init
  = (Some (py "   Inbox"),
     OCRExtractor.mkOCRExtractor
       (append (OCRExtractor.text_buffer OCRExtractor.init)
          (OCRExtractor.mkTextRecord 4900000 (py "   Inbox")
             (snd (OCRExtractor.extract_text
                     (fun _ : nat =>
                        Some [([], py "  ", 1%Q); ([], py "Inbox", 1%Q)]) 7))))
       false (Some 5200000%Z)).
Proof.
  exact (proj1 (admitted_call_stores_visible_text nat
                  (fun _ : nat => Some [([], py "  ", 1%Q); ([], py "Inbox", 1%Q)])
                  5000000%Z 5200000%Z 4900000%Z 7
                  [([], py "  ", 1%Q); ([], py "Inbox", 1%Q)]
                  OCRExtractor.init _ eq_refl eq_refl) eq_refl).
Defined.

(** X5: after any calls of [process_frame] run one after the other on a
    fresh extractor, whatever the recognizer returns or raises, no
    extraction is left in flight, no record of the text buffer is blank, and
    the buffer holds at most 200 records. *)
Theorem extraction_runs_keep_the_buffer_clean :
  forall (Image : Type)
         (readtext : Image -> option (list (OCRExtractor.bbox * str * Q)))
         (calls : list (OCRExtractor.Call Image)),
    let st := OCRExtractor.process_calls readtext calls OCRExtractor.init in
    OCRExtractor._processing st = false
    /\ nonblank_records st
    /\ length (items (OCRExtractor.text_buffer st)) <= 200.
Proof.
  intros Image readtext calls st.
  destruct (process_calls_keep Image readtext calls OCRExtractor.init
              stage_ok_init) as (H1 & H2 & _ & H4).
  now repeat split.
Qed.

(** X6: in any run of calls on a fresh extractor, two calls that stored a
    record one after the other are at least one second apart: the later one
    was checked at least 1 s after the time the earlier one recorded. *)
Theorem stored_extractions_are_spaced :
  forall (Image : Type)
         (readtext : Image -> option (list (OCRExtractor.bbox * str * Q)))
         (calls : list (OCRExtractor.Call Image)),
    spaced None (OCRExtractor.stored_calls readtext calls OCRExtractor.init).
Proof.
  intros Image readtext calls.
  exact (stored_calls_spaced Image readtext calls OCRExtractor.init stage_ok_init).
Qed.

(* ------------------------------------------------------------------------- *)
(** ** The queries of the text buffer *)

Section TextQueries.

Import OCRExtractor.

Lemma seen_class_in (earlier : list TextRecord) (k : str) :
  existsb (fun r' => str_eqb (Spec.class_of r') k) earlier = true
  <-> In k (map Spec.class_of earlier).
Proof.
  rewrite existsb_exists, in_map_iff. split.
  - intros [r [Hin Heq]]. apply str_eqb_eq in Heq. now exists r.
  - intros [r [Heq Hin]]. exists r. split; [exact Hin|]. now apply str_eqb_eq.
Qed.

(** A class kept from the window did not occur before the window. *)
Lemma first_of_each_class_fresh (window : list TextRecord) :
  forall (earlier : list TextRecord) (k : str),
    In k (map Spec.class_of (Spec.first_of_each_class earlier window)) ->
    ~ In k (map Spec.class_of earlier).
Proof.
  induction window as [|r window IH]; intros earlier k Hin; [contradiction|].
  cbn [Spec.first_of_each_class] in Hin.
  destruct (existsb _ earlier) eqn:E.
  - intros Hk. apply (IH _ _ Hin). rewrite map_app, in_app_iff. now left.
  - destruct Hin as [<- | Hin].
    + intros Hk. apply seen_class_in in Hk. congruence.
    + intros Hk. apply (IH _ _ Hin). rewrite map_app, in_app_iff. now left.
Qed.

Lemma first_of_each_class_nodup (window : list TextRecord) :
  forall earlier : list TextRecord,
    NoDup (map Spec.class_of (Spec.first_of_each_class earlier window)).
Proof.
  induction window as [|r window IH]; intros earlier; [constructor|].
  cbn [Spec.first_of_each_class].
  destruct (existsb _ earlier); [apply IH|].
  cbn [map]. constructor; [|apply IH].
  intros Hin. apply first_of_each_class_fresh in Hin. apply Hin.
  rewrite map_app, in_app_iff. right. now left.
Qed.

Lemma first_of_each_class_covers (window : list TextRecord) :
  forall (earlier : list TextRecord) (r : TextRecord),
    In r window ->
    In (Spec.class_of r) (map Spec.class_of earlier)
    \/ In (Spec.class_of r)
         (map Spec.class_of (Spec.first_of_each_class earlier window)).
Proof.
  induction window as [|r0 window IH]; intros earlier r Hin; [contradiction|].
  cbn [Spec.first_of_each_class].
  destruct (existsb _ earlier) eqn:E.
  - apply seen_class_in in E. destruct Hin as [<- | Hin]; [now left|].
    destruct (IH (earlier ++ [r0]) r Hin) as [H|H]; [|now right].
    rewrite map_app, in_app_iff in H. destruct H as [H|[<-|[]]]; now left.
  - destruct Hin as [<- | Hin]; [right; now left|].
    destruct (IH (earlier ++ [r0]) r Hin) as [H|H]; [|right; now right].
    rewrite map_app, in_app_iff in H.
    destruct H as [H|[<-|[]]]; [now left|right; now left].
Qed.

Lemma length_first_of_each_class (window : list TextRecord) :
  forall earlier : list TextRecord,
    length (Spec.first_of_each_class earlier window) <= length window.
Proof.
  induction window as [|r window IH]; intros earlier; [constructor|].
  cbn [Spec.first_of_each_class length].
  destruct (existsb _ earlier); [apply Nat.le_trans with (length window); [apply IH|lia]|].
  cbn [length]. apply le_n_S, IH.
Qed.

(** The lines of the combined text. *)
Lemma unique_loop_lines (window : list TextRecord) :
  unique_loop window [] []
  = map (fun r => strip (text r)) (Spec.first_of_each_class [] window).
Proof. exact (unique_loop_spec window [] [] [] seen_of_nil). Qed.

(** The total of the lengths counts at least one character per non-blank
    record. *)
Lemma total_characters_ge (records : list TextRecord) :
  Forall (fun r => strip (text r) <> []) records ->
  forall acc : nat,
    acc + length records
    <= fold_left Nat.add (map (fun r => length (text r)) records) acc.
Proof.
  induction 1 as [|r records Hr _ IH]; intros acc; cbn [map fold_left length].
  - lia.
  - assert (1 <= length (text r)).
    { destruct (text r) as [|c s]; [now contradiction Hr|cbn; lia]. }
    specialize (IH (acc + length (text r))). lia.
Qed.

End TextQueries.



(** X8: the lines that [get_combined_text] joins have pairwise different
    dedup keys, every record of the window has its key among them, and there
    are at most as many lines as records in the window. *)
Theorem combined_text_lines_are_distinct :
  forall (F : PyFloat.arith) (now : Z) (seconds : PyFloat.float F)
         (st : OCRExtractor.t),
    let window := OCRExtractor.get_recent_text F now seconds st in
    let lines := OCRExtractor.unique_loop window [] [] in
    OCRExtractor.get_combined_text F now seconds st = join [newline] lines
    /\ NoDup (map OCRExtractor.text_key_of lines)
    /\ (forall r, In r window ->
                  In (OCRExtractor.text_key_of (strip (OCRExtractor.text r)))
                    (map OCRExtractor.text_key_of lines))
    /\ length lines <= length window.
Proof.
  intros F now seconds st window lines.
  assert (Hkeys : map OCRExtractor.text_key_of lines
                  = map Spec.class_of (Spec.first_of_each_class [] window)).
  { unfold lines. rewrite unique_loop_lines, map_map. reflexivity. }
  split; [reflexivity|]. rewrite Hkeys. split; [|split].
  - apply first_of_each_class_nodup.
  - intros r Hin.
    destruct (first_of_each_class_covers window [] r Hin) as [[]|H]. exact H.
  - unfold lines. rewrite unique_loop_lines, length_map.
    apply length_first_of_each_class.
Qed.

(** X9: [get_buffer_stats] of the text buffer after any run of calls on a
    fresh extractor: the entry count is the number of buffered records, at
    most 200, and it is not greater than the total number of characters,
    since no record is blank; with no record the statistics are all zero. *)
Theorem text_buffer_stats_are_bounded :
  forall (Image : Type)
         (readtext : Image -> option (list (OCRExtractor.bbox * str * Q)))
         (calls : list (OCRExtractor.Call Image)),
    let st := OCRExtractor.process_calls readtext calls OCRExtractor.init in
    let stats := OCRExtractor.get_buffer_stats st in
    OCRExtractor.entry_count stats = length (items (OCRExtractor.text_buffer st))
    /\ OCRExtractor.entry_count stats <= 200
    /\ OCRExtractor.entry_count stats <= OCRExtractor.total_characters stats
    /\ (OCRExtractor.entry_count stats = 0 ->
        stats = OCRExtractor.mkBufferStats 0 0 0%Q).
Proof.
  intros Image readtext calls st stats.
  destruct (process_calls_keep Image readtext calls OCRExtractor.init
              stage_ok_init) as (_ & Hrec & _ & Hlen).
  fold st in Hrec, Hlen. unfold nonblank_records in Hrec.
  unfold stats, OCRExtractor.get_buffer_stats.
  destruct (items (OCRExtractor.text_buffer st)) as [|r records] eqn:E.
  - cbn. repeat split; lia.
  - cbn [OCRExtractor.entry_count OCRExtractor.total_characters].
    repeat split; try exact Hlen; try discriminate.
    exact (total_characters_ge (r :: records) Hrec 0).
Qed.

(** X10: the text a cycle of the analyzer gets from the application
    ([_get_recent_text], the combined text of the last 30 seconds) is blank
    exactly when no record lies in that window, provided no buffered record
    is blank, as is the case in every run of the stage; a cycle with an empty
    window therefore leaves the analyzer state unchanged and does not consult
    the provider, and so does a cycle of an application without extractor. *)
Theorem cycle_text_blank_iff_window_empty :
  forall (F : PyFloat.arith) (now : Z) (ocr : OCRExtractor.t),
    nonblank_records ocr ->
    (strip (MemoryContextApp._get_recent_text F now (Some ocr)) = []
     <-> OCRExtractor.get_recent_text F now (PyFloat.of_int F 30) ocr = [])
    /\ forall (json_loads : str -> option json) (analyze : str -> option str)
              (now_merge now_done : Z) (st : ContextAnalyzer.t),
         (OCRExtractor.get_recent_text F now (PyFloat.of_int F 30) ocr = [] ->
          ContextAnalyzer.analysis_cycle json_loads analyze now_merge now_done
            (MemoryContextApp._get_recent_text F now (Some ocr)) st = st)
         /\ ContextAnalyzer.analysis_cycle json_loads analyze now_merge now_done
              (MemoryContextApp._get_recent_text F now None) st = st.
Proof.
  intros F now ocr Hrec.
  assert (Hiff : strip (MemoryContextApp._get_recent_text F now (Some ocr)) = []
                 <-> OCRExtractor.get_recent_text F now (PyFloat.of_int F 30) ocr = []).
  { unfold MemoryContextApp._get_recent_text, OCRExtractor.get_combined_text.
    rewrite unique_loop_lines.
    assert (Hwin : Forall (fun r => strip (OCRExtractor.text r) <> [])
                     (OCRExtractor.get_recent_text F now (PyFloat.of_int F 30) ocr)).
    { unfold OCRExtractor.get_recent_text. apply Forall_forall.
      intros r Hr. apply filter_In in Hr as [Hr _].
      unfold nonblank_records in Hrec. rewrite Forall_forall in Hrec.
      now apply Hrec. }
    destruct (OCRExtractor.get_recent_text F now (PyFloat.of_int F 30) ocr) as [|r window].
    - split; reflexivity.
    - split; [|discriminate]. intros Hblank. exfalso.
      cbn [Spec.first_of_each_class existsb map] in Hblank.
      pose proof (Forall_inv Hwin) as Hr. cbn beta in Hr.
      pose proof (strip_head (OCRExtractor.text r)) as Hhead.
      destruct (strip (OCRExtractor.text r)) as [|c t]; [now apply Hr|].
      destruct (map _ (Spec.first_of_each_class ([] ++ [r]) window))
        as [|p rest]; cbn [join app] in Hblank;
        exact (strip_cons_nonblank c _ Hhead Hblank). }
  split; [exact Hiff|].
  intros json_loads analyze now_merge now_done st. split.
  - intros Hempty. apply Hiff in Hempty.
    unfold ContextAnalyzer.analysis_cycle. now rewrite Hempty.
  - reflexivity.
Qed.

Lemma cycle_text_blank_iff_window_empty_witness :
  ContextAnalyzer.analysis_cycle JsonLite.loads
    (fun _ => Some (q "{'activity': 'reading'}")) 1 2
    (MemoryContextApp._get_recent_text PyFloat.exact 90000000
       (Some (OCRExtractor.mkOCRExtractor
                (mkDeque 200 [OCRExtractor.mkTextRecord 10000000 (py "Inbox") 1])
                false None)))
    ContextAnalyzer.init_default
  = ContextAnalyzer.init_default.
Proof.
  refine (proj1 (proj2 (cycle_text_blank_iff_window_empty PyFloat.exact
                          90000000%Z
                          (OCRExtractor.mkOCRExtractor
                             (mkDeque 200
                                [OCRExtractor.mkTextRecord 10000000 (py "Inbox") 1])
                             false None) _)
                   JsonLite.loads (fun _ => Some (q "{'activity': 'reading'}"))
                   1%Z 2%Z ContextAnalyzer.init_default) eq_refl).
  unfold nonblank_records. cbn [items OCRExtractor.text_buffer].
  constructor; [|constructor]. cbn. discriminate.
Defined.

(* ------------------------------------------------------------------------- *)
(** ** The response clean-up and the choice of the provider *)

(** X11: the clean-up of a response never raises, whatever the provider
    answered: a text that starts with a fence always has a second piece; and
    the text handed to the decoder has no white space at either end. *)
Theorem unwrap_response_never_raises :
  forall result_text : str,
    exists cleaned : str,
      ContextAnalyzer.unwrap_response result_text = Ok cleaned
      /\ strip cleaned = cleaned.
Proof.
  intros result_text.
  destruct (unwrap_response_total result_text) as [cleaned H].
  exists cleaned. split; [exact H|].
  unfold ContextAnalyzer.unwrap_response in H.
  destruct (startswith ContextAnalyzer.fence (strip result_text)).
  - destruct (nth_error _ 1) as [inner|]; [|discriminate].
    injection H as <-. apply strip_idem.
  - injection H as <-. apply strip_idem.
Qed.

Section ProviderFacts.

Import ContextAnalyzer.

Variable getenv : str -> option str.
Variable Provider : Type.
Variable client : ProviderClass -> str -> option Provider.

Let provider_name : str :=
  lower (match getenv (py "LLM_PROVIDER") with
         | Some v => v
         | None => py "gemini"
         end).

(** [get_llm_provider] as a search: the configured class first, then
    Gemini, Groq and OpenAI in this order, the configured one left out. *)
Lemma get_llm_provider_search :
  get_llm_provider getenv client
  = match provider_init getenv client (configured_provider getenv) with
    | Some p => Some p
    | None =>
        match configured_provider getenv with
        | GeminiProvider =>
            match provider_init getenv client GroqProvider with
            | Some p => Some p
            | None => provider_init getenv client OpenAIProvider
            end
        | GroqProvider =>
            match provider_init getenv client GeminiProvider with
            | Some p => Some p
            | None => provider_init getenv client OpenAIProvider
            end
        | OpenAIProvider =>
            match provider_init getenv client GeminiProvider with
            | Some p => Some p
            | None => provider_init getenv client GroqProvider
            end
        end
    end.
Proof.
  unfold get_llm_provider, configured_provider. fold provider_name.
  unfold providers. cbn [lookup].
  destruct (str_eqb (py "gemini") provider_name) eqn:E1.
  { apply str_eqb_eq in E1. rewrite <- E1. cbn.
    repeat (destruct (provider_init getenv client _); try reflexivity). }
  destruct (str_eqb (py "groq") provider_name) eqn:E2.
  { apply str_eqb_eq in E2. rewrite <- E2. cbn.
    repeat (destruct (provider_init getenv client _); try reflexivity). }
  destruct (str_eqb (py "openai") provider_name) eqn:E3.
  { apply str_eqb_eq in E3. rewrite <- E3. cbn.
    repeat (destruct (provider_init getenv client _); try reflexivity). }
  cbn. repeat (destruct (provider_init getenv client _); try reflexivity).
Qed.

End ProviderFacts.

(** X12: [get_llm_provider] returns the provider of the configured class
    whenever that class can be initialized (an unknown name in
    [LLM_PROVIDER] counts as Gemini); whatever it returns was built by one of
    the three classes; and it fails, with its [ValueError], exactly when none
    of the three classes can be initialized. *)
Theorem get_llm_provider_falls_back :
  forall (getenv : str -> option str) (Provider : Type)
         (client : ContextAnalyzer.ProviderClass -> str -> option Provider),
    let init := ContextAnalyzer.provider_init getenv client in
    let chosen := ContextAnalyzer.get_llm_provider getenv client in
    (forall p, init (configured_provider getenv) = Some p -> chosen = Some p)
    /\ (forall p, chosen = Some p -> exists c, init c = Some p)
    /\ (chosen = None <-> forall c, init c = None).
Proof.
  intros getenv Provider client init chosen.
  unfold chosen. rewrite get_llm_provider_search. fold init.
  split; [|split].
  - intros p ->. reflexivity.
  - intros p.
    destruct (init (configured_provider getenv)) as [p0|] eqn:E0;
      [intros H; injection H as <-; eauto|].
    destruct (configured_provider getenv);
      (destruct (init ContextAnalyzer.GeminiProvider) as [p1|] eqn:E1;
       destruct (init ContextAnalyzer.GroqProvider) as [p2|] eqn:E2;
       destruct (init ContextAnalyzer.OpenAIProvider) as [p3|] eqn:E3;
       intros H; try discriminate; injection H as <-; eauto).
  - split.
    + destruct (init (configured_provider getenv)) as [p0|] eqn:E0;
        [discriminate|].
      destruct (configured_provider getenv);
        (destruct (init ContextAnalyzer.GeminiProvider) as [p1|] eqn:E1;
         destruct (init ContextAnalyzer.GroqProvider) as [p2|] eqn:E2;
         destruct (init ContextAnalyzer.OpenAIProvider) as [p3|] eqn:E3;
         intros H; try discriminate; intros []; assumption).
    + intros Hnone. rewrite !Hnone. now destruct (configured_provider getenv).
Qed.

Lemma get_llm_provider_falls_back_witness :
  ContextAnalyzer.get_llm_provider
    (fun name =>
       if str_eqb name (py "LLM_PROVIDER") then Some (py "Groq")
       else if str_eqb name (py "GROQ_API_KEY") then Some (py "gsk-1")
       else None)
    (fun c key => Some (c, key))
  = Some (ContextAnalyzer.GroqProvider, py "gsk-1").
Proof.
  exact (proj1 (get_llm_provider_falls_back
                  (fun name =>
                     if str_eqb name (py "LLM_PROVIDER") then Some (py "Groq")
                     else if str_eqb name (py "GROQ_API_KEY") then Some (py "gsk-1")
                     else None)
                  _ (fun c key => Some (c, key)))
           (ContextAnalyzer.GroqProvider, py "gsk-1") eq_refl).
Defined.

(** X13: the launcher and the analyzer agree on the configuration.  The key
    variable the launcher checks is the key variable of the provider class
    the analyzer tries first; and when the launcher finds the key configured
    (set, not empty, not starting with [your-]), the analyzer's own check of
    that key passes, so that the configured provider is used whenever its
    client can be built from the key. *)
Theorem launcher_check_matches_provider :
  forall (getenv : str -> option str) (Provider : Type)
         (client : ContextAnalyzer.ProviderClass -> str -> option Provider),
    let c := configured_provider getenv in
    Launcher.key_name getenv = ContextAnalyzer.api_key_name c
    /\ (Launcher.key_missing getenv = false ->
        ContextAnalyzer.provider_init getenv client c
        = client c (Launcher.api_key getenv)
        /\ forall p, client c (Launcher.api_key getenv) = Some p ->
                     ContextAnalyzer.get_llm_provider getenv client = Some p).
Proof.
  intros getenv Provider client c.
  assert (Hname : Launcher.key_name getenv = ContextAnalyzer.api_key_name c).
  { unfold c, Launcher.key_name, Launcher.provider, configured_provider,
      Launcher.key_map, ContextAnalyzer.providers. cbn [lookup].
    repeat (destruct (str_eqb _ (lower _)); [reflexivity|]). reflexivity. }
  split; [exact Hname|]. intros Hkey.
  assert (Hinit : ContextAnalyzer.provider_init getenv client c
                  = client c (Launcher.api_key getenv)).
  { unfold Launcher.key_missing, Launcher.api_key in *. rewrite Hname in *.
    unfold ContextAnalyzer.provider_init.
    destruct (getenv (ContextAnalyzer.api_key_name c)) as [[|a key]|];
      try discriminate.
    destruct (str_eqb (a :: key) (ContextAnalyzer.api_key_placeholder c)) eqn:E;
      [|reflexivity].
    apply str_eqb_eq in E. rewrite E in Hkey. now destruct c. }
  split; [exact Hinit|]. intros p Hp.
  rewrite get_llm_provider_search. fold c. now rewrite Hinit, Hp.
Qed.

Lemma launcher_check_matches_provider_witness :
  ContextAnalyzer.get_llm_provider
    (fun name =>
       if str_eqb name (py "OPENAI_API_KEY") then Some (py "sk-1")
       else if str_eqb name (py "LLM_PROVIDER") then Some (py "openai")
       else None)
    (fun c key => Some (c, key))
  = Some (ContextAnalyzer.OpenAIProvider, py "sk-1").
Proof.
  exact (proj2 (proj2 (launcher_check_matches_provider
                         (fun name =>
                            if str_eqb name (py "OPENAI_API_KEY") then Some (py "sk-1")
                            else if str_eqb name (py "LLM_PROVIDER")
                                 then Some (py "openai")
                                 else None)
                         _ (fun c key => Some (c, key))) eq_refl)
           (ContextAnalyzer.OpenAIProvider, py "sk-1") eq_refl).
Defined.

(* ------------------------------------------------------------------------- *)
(** ** What a merge can and cannot change *)

Section MergeFrame.

Import ContextAnalyzer.

(** A turn of the loop leaves the state as it is, or appends one event that
    carries the timestamp of the cycle. *)
Lemma merge_info_cases (timestamp : Z) (info : json) (st : t) :
  snd (merge_info timestamp info st) = st
  \/ exists e : KeyEvent,
       ke_timestamp e = timestamp
       /\ snd (merge_info timestamp info st)
          = set_key_events (append (key_events st) e) st.
Proof.
  unfold merge_info, bind, lift, get_state, modify, ret.
  destruct (is_duplicate (items (key_events st)) info) as [[|]|e];
    [now left| |now left].
  destruct (get info (py "type") (JStr (py "info"))) as [ty|e]; [|now left].
  destruct (get info (py "value") (JStr [])) as [v|e]; [|now left].
  destruct (get info (py "context") (JStr [])) as [c|e]; [|now left].
  right. eexists. split; [|reflexivity]. reflexivity.
Qed.

(** On an object the turn does not raise. *)
Lemma merge_info_dict (timestamp : Z) (kv : list (str * json)) (st : t) :
  fst (merge_info timestamp (JDict kv) st) = Ok tt.
Proof.
  unfold merge_info, bind, lift, get_state, modify, ret.
  rewrite is_duplicate_dict. cbn [get].
  destruct (existsb _ (items (key_events st))); [reflexivity|].
  destruct (lookup (py "type") kv), (lookup (py "value") kv),
    (lookup (py "context") kv); reflexivity.
Qed.

Lemma for_each_merge_dicts (timestamp : Z) (infos : list json) :
  forallb Spec.is_dict infos = true ->
  forall st : t, fst (for_each infos (merge_info timestamp) st) = Ok tt.
Proof.
  induction infos as [|info infos IH]; intros Hall st; [reflexivity|].
  cbn [forallb] in Hall. apply andb_true_iff in Hall as [Hinfo Hall].
  destruct info as [| | | | |kv]; try discriminate.
  cbn [for_each]. unfold bind.
  pose proof (merge_info_dict timestamp kv st) as Hok.
  destruct (merge_info timestamp (JDict kv) st) as [[[]|e] st1];
    [|discriminate].
  now apply IH.
Qed.

(** The update for a decoded object, step by step. *)
Lemma update_state_dict (kv : list (str * json)) (timestamp : Z) (st : t) :
  update_state (JDict kv) timestamp st
  = let st2 :=
      set_current_app (get_or kv (py "application") (current_app st))
        (set_current_activity (get_or kv (py "activity") (current_activity st))
           st) in
    match iterate (get_or kv (py "key_info") (JList [])) with
    | Ok infos => for_each infos (merge_info timestamp) st2
    | Raised e => (Raised e, st2)
    end.
Proof.
  unfold update_state, bind, lift, get_state, modify, get, get_or.
  destruct (lookup (py "activity") kv), (lookup (py "application") kv),
    (lookup (py "key_info") kv) as [key_info|]; cbn;
    try destruct (iterate key_info); reflexivity.
Qed.

Section Invariant.

(** A property of the state that the four assignments of a cycle keep is kept
    by the cycle, however it ends. *)
Variable P : t -> Prop.
Variable now_merge : Z.

Hypothesis keep_activity : forall v s, P s -> P (set_current_activity v s).
Hypothesis keep_app : forall v s, P s -> P (set_current_app v s).
Hypothesis keep_time : forall v s, P s -> P (set_last_analysis_time v s).
Hypothesis keep_append :
  forall e s,
    ke_timestamp e = now_merge ->
    P s -> P (set_key_events (append (key_events s) e) s).

Lemma merge_info_invariant (info : json) (st : t) :
  P st -> P (snd (merge_info now_merge info st)).
Proof.
  intros H. destruct (merge_info_cases now_merge info st) as [-> | [e [He ->]]];
    [exact H|now apply keep_append].
Qed.

Lemma update_state_invariant (result : json) (st : t) :
  P st -> P (snd (update_state result now_merge st)).
Proof.
  intros H. destruct result as [| | | | |kv]; try exact H.
  rewrite update_state_dict. cbv zeta.
  assert (H2 : P (set_current_app (get_or kv (py "application") (current_app st))
                    (set_current_activity
                       (get_or kv (py "activity") (current_activity st)) st)))
    by now apply keep_app, keep_activity.
  destruct (iterate _) as [infos|e]; [|exact H2].
  apply for_each_keeps; [|exact H2].
  intros info s _. apply merge_info_invariant.
Qed.

Lemma analyze_text_invariant (json_loads : str -> option json)
    (analyze : str -> option str) (now_done : Z) (text : str) (st : t) :
  P st -> P (_analyze_text json_loads analyze now_merge now_done text st).
Proof.
  intros H. unfold _analyze_text.
  destruct (analyze _) as [result_text|]; [|exact H].
  destruct (unwrap_response result_text) as [cleaned|e]; [|exact H].
  destruct (json_loads cleaned) as [result|]; [|exact H].
  pose proof (update_state_invariant result st H) as H'.
  destruct (update_state result now_merge st) as [[[]|e] st'];
    [now apply keep_time|exact H'].
Qed.

End Invariant.

Lemma events_extended_refl (now_merge : Z) (events : list KeyEvent) :
  events_extended now_merge events events.
Proof.
  exists 0, []. rewrite app_nil_r. repeat split; [lia|constructor].
Qed.

(** One more append after an extension is an extension. *)
Lemma events_extended_append (now_merge : Z) (before : list KeyEvent)
    (d : deque KeyEvent) (e : KeyEvent) :
  ke_timestamp e = now_merge ->
  events_extended now_merge before (items d) ->
  events_extended now_merge before (items (append d e)).
Proof.
  intros He (k & added & Hk & Hitems & Hadded).
  assert (Hsnoc : items d ++ [e] = skipn k (before ++ added ++ [e])).
  { rewrite Hitems, (app_assoc before added [e]).
    rewrite (skipn_app k (before ++ added) [e]).
    replace (k - length (before ++ added)) with 0 by lia. reflexivity. }
  assert (Hall : Forall (fun e => ke_timestamp e = now_merge) (added ++ [e]))
    by (apply Forall_app; split; [exact Hadded|now constructor]).
  unfold append. cbn [items].
  destruct (Nat.ltb_spec (maxlen d) (length (items d ++ [e]))) as [Hlt|Hge].
  - exists (S k), (added ++ [e]). split; [|split; [|exact Hall]].
    + rewrite Hitems in Hlt. rewrite !length_app in *.
      rewrite length_skipn, length_app in Hlt. cbn [length] in *. lia.
    + rewrite Hsnoc. rewrite <- (skipn_skipn 1 k). reflexivity.
  - exists k, (added ++ [e]). split; [|split; [exact Hsnoc|exact Hall]].
    rewrite !length_app in *. cbn [length]. lia.
Qed.

End MergeFrame.

(** X14: in every analyzer state that periodic cycles and forced analyses
    lead to from a fresh analyzer, whatever the provider answers, the
    settings are those given at construction and the key-event collection
    holds at most [max_history] events. *)
Theorem reachable_analyzer_is_bounded :
  forall (json_loads : str -> option json) (interval : Q) (history : nat)
         (st : ContextAnalyzer.t),
    reachable json_loads interval history st ->
    ContextAnalyzer.analysis_interval st = interval
    /\ ContextAnalyzer.max_history st = history
    /\ maxlen (ContextAnalyzer.key_events st) = history
    /\ length (items (ContextAnalyzer.key_events st)) <= history.
Proof.
  intros json_loads interval history st Hreach.
  set (P := fun s : ContextAnalyzer.t =>
              ContextAnalyzer.analysis_interval s = interval
              /\ ContextAnalyzer.max_history s = history
              /\ maxlen (ContextAnalyzer.key_events s) = history
              /\ length (items (ContextAnalyzer.key_events s)) <= history).
  assert (Hstep : forall analyze now_merge now_done text s,
             P s ->
             P (ContextAnalyzer._analyze_text json_loads analyze now_merge
                  now_done text s)).
  { intros analyze now_merge now_done text s.
    apply (analyze_text_invariant P now_merge); try (intros v s0 H; exact H).
    intros e s0 _ (H1 & H2 & H3 & H4). unfold P.
    cbn [ContextAnalyzer.set_key_events ContextAnalyzer.analysis_interval
         ContextAnalyzer.max_history ContextAnalyzer.key_events].
    repeat split; try assumption.
    rewrite <- H3. apply length_items_append. lia. }
  change (P st).
  induction Hreach as [|st analyze now_merge now_done text _ IH
                        |st analyze now_merge now_done text _ IH].
  - unfold P. cbn. repeat split; lia.
  - unfold ContextAnalyzer.analysis_cycle.
    destruct (strip text); [exact IH|now apply Hstep].
  - cbn [ContextAnalyzer.force_analyze snd]. now apply Hstep.
Qed.

Lemma reachable_analyzer_is_bounded_witness :
  length
    (items
       (ContextAnalyzer.key_events
          (ContextAnalyzer.analysis_cycle JsonLite.loads
             (fun _ => Some (q "{'key_info': [{'value': 1}, {'value': 2}]}"))
             1 2 (py "Inbox") (ContextAnalyzer.init 10 1))))
  <= 1.
Proof.
  exact (proj2 (proj2 (proj2
           (reachable_analyzer_is_bounded JsonLite.loads 10 1 _
              (@reach_cycle JsonLite.loads 10 1 (ContextAnalyzer.init 10 1)
                 (fun _ => Some (q "{'key_info': [{'value': 1}, {'value': 2}]}"))
                 1 2 (py "Inbox") (@reach_init JsonLite.loads 10 1)))))).
Defined.

(** X15: an update is not atomic.  Whenever the response decodes to an
    object, activity and application are replaced by its [activity] and
    [application] fields (each kept when the field is absent), even when the
    rest fails: when its [key_info] cannot be iterated (a number, a boolean
    or null), the key events and the time of the last analysis stay as they
    were. *)
Theorem object_response_replaces_activity :
  forall (json_loads : str -> option json) (analyze : str -> option str)
         (now_merge now_done : Z) (text : str) (st : ContextAnalyzer.t)
         (result_text cleaned : str) (kv : list (str * json)),
    analyze (ContextAnalyzer.build_prompt (ContextAnalyzer.truncate_text text))
    = Some result_text ->
    ContextAnalyzer.unwrap_response result_text = Ok cleaned ->
    json_loads cleaned = Some (JDict kv) ->
    let st' :=
      ContextAnalyzer._analyze_text json_loads analyze now_merge now_done text st in
    ContextAnalyzer.current_activity st'
    = get_or kv (py "activity") (ContextAnalyzer.current_activity st)
    /\ ContextAnalyzer.current_app st'
       = get_or kv (py "application") (ContextAnalyzer.current_app st)
    /\ (forall e,
           ContextAnalyzer.iterate (get_or kv (py "key_info") (JList []))
           = Raised e ->
           ContextAnalyzer.key_events st' = ContextAnalyzer.key_events st
           /\ ContextAnalyzer._last_analysis_time st'
              = ContextAnalyzer._last_analysis_time st).
Proof.
  intros json_loads analyze now_merge now_done text st result_text cleaned kv
    Hanswer Hclean Hloads st'.
  unfold st'.
  rewrite (analyze_text_answered json_loads _ _ _ _ _ _ _ Hanswer Hclean), Hloads.
  set (a := get_or kv (py "activity") (ContextAnalyzer.current_activity st)).
  set (b := get_or kv (py "application") (ContextAnalyzer.current_app st)).
  assert (Hab : forall s,
             ContextAnalyzer.current_activity s = a
             /\ ContextAnalyzer.current_app s = b ->
             ContextAnalyzer.current_activity
               (snd (for_each
                       (match ContextAnalyzer.iterate
                                (get_or kv (py "key_info") (JList [])) with
                        | Ok infos => infos
                        | Raised _ => []
                        end)
                       (ContextAnalyzer.merge_info now_merge) s)) = a
             /\ ContextAnalyzer.current_app
                  (snd (for_each
                          (match ContextAnalyzer.iterate
                                   (get_or kv (py "key_info") (JList [])) with
                           | Ok infos => infos
                           | Raised _ => []
                           end)
                          (ContextAnalyzer.merge_info now_merge) s)) = b).
  { intros s Hs.
    apply (for_each_keeps _ _
             (fun s => ContextAnalyzer.current_activity s = a
                       /\ ContextAnalyzer.current_app s = b));
      [|exact Hs].
    intros info s0 _ Hs0.
    destruct (merge_info_cases now_merge info s0) as [-> | [e [_ ->]]];
      exact Hs0. }
  rewrite update_state_dict. cbv zeta. fold a b.
  destruct (ContextAnalyzer.iterate (get_or kv (py "key_info") (JList [])))
    as [infos|e0] eqn:Eit.
  - specialize (Hab (ContextAnalyzer.set_current_app b
                       (ContextAnalyzer.set_current_activity a st))
                  (conj eq_refl eq_refl)).
    destruct (for_each infos (ContextAnalyzer.merge_info now_merge) _)
      as [[[]|e1] s1]; cbn [snd] in Hab;
      (split; [apply Hab|split; [apply Hab|discriminate]]).
  - repeat split; reflexivity.
Qed.

Lemma object_response_replaces_activity_witness :
  let st' :=
    ContextAnalyzer._analyze_text JsonLite.loads
      (fun _ => Some (q "{'activity': 'reading mail', 'key_info': 7}"))
      1000000 1000001 (py "Inbox (3)") ContextAnalyzer.init_default in
  ContextAnalyzer.current_activity st' = JStr (py "reading mail")
  /\ ContextAnalyzer._last_analysis_time st' = None.
Proof.
  pose proof (object_response_replaces_activity JsonLite.loads
                (fun _ => Some (q "{'activity': 'reading mail', 'key_info': 7}"))
                1000000%Z 1000001%Z (py "Inbox (3)") ContextAnalyzer.init_default
                (q "{'activity': 'reading mail', 'key_info': 7}")
                (q "{'activity': 'reading mail', 'key_info': 7}")
                [(py "activity", JStr (py "reading mail"));
                 (py "key_info", JInt 7)]
                eq_refl eq_refl eq_refl) as [Ha [_ Hrest]].
  split; [exact Ha|].
  exact (proj2 (Hrest TypeError eq_refl)).
Defined.

(** X16: a response that decodes to an object whose [key_info] is absent or
    a list of objects always completes the cycle: the time of the last
    analysis becomes the clock reading taken after the merge, whatever
    fields the object and its items carry or lack. *)
Theorem object_with_item_list_completes :
  forall (json_loads : str -> option json) (analyze : str -> option str)
         (now_merge now_done : Z) (text : str) (st : ContextAnalyzer.t)
         (result_text cleaned : str) (kv : list (str * json)),
    analyze (ContextAnalyzer.build_prompt (ContextAnalyzer.truncate_text text))
    = Some result_text ->
    ContextAnalyzer.unwrap_response result_text = Ok cleaned ->
    json_loads cleaned = Some (JDict kv) ->
    key_info_of_dicts kv = true ->
    ContextAnalyzer._last_analysis_time
      (ContextAnalyzer._analyze_text json_loads analyze now_merge now_done text st)
    = Some now_done.
Proof.
  intros json_loads analyze now_merge now_done text st result_text cleaned kv
    Hanswer Hclean Hloads Hitems.
  rewrite (analyze_text_answered json_loads _ _ _ _ _ _ _ Hanswer Hclean), Hloads.
  rewrite update_state_dict. cbv zeta.
  unfold key_info_of_dicts in Hitems. unfold get_or at 1.
  assert (Hok : forall infos s,
             forallb Spec.is_dict infos = true ->
             ContextAnalyzer._last_analysis_time
               (let '(r, s') :=
                  for_each infos (ContextAnalyzer.merge_info now_merge) s in
                match r with
                | Ok _ => ContextAnalyzer.set_last_analysis_time (Some now_done) s'
                | Raised _ => s'
                end) = Some now_done).
  { intros infos s Hall.
    pose proof (for_each_merge_dicts now_merge infos Hall s) as Hfst.
    destruct (for_each infos (ContextAnalyzer.merge_info now_merge) s)
      as [[[]|e] s']; [reflexivity|discriminate]. }
  destruct (lookup (py "key_info") kv) as [[| | | |l|]|]; try discriminate.
  - cbn [ContextAnalyzer.iterate]. apply (Hok l _ Hitems).
  - cbn [ContextAnalyzer.iterate]. apply (Hok [] _ eq_refl).
Qed.

Lemma object_with_item_list_completes_witness :
  ContextAnalyzer._last_analysis_time
    (ContextAnalyzer._analyze_text JsonLite.loads
       (fun _ => Some (q "{'key_info': [{'value': 1}, {}]}"))
       1000000 1000001 (py "Inbox (3)") ContextAnalyzer.init_default)
  = Some 1000001%Z.
Proof.
  exact (object_with_item_list_completes JsonLite.loads
           (fun _ => Some (q "{'key_info': [{'value': 1}, {}]}"))
           1000000%Z 1000001%Z (py "Inbox (3)") ContextAnalyzer.init_default
           (q "{'key_info': [{'value': 1}, {}]}")
           (q "{'key_info': [{'value': 1}, {}]}")
           [(py "key_info", JList [JDict [(py "value", JInt 1)]; JDict []])]
           eq_refl eq_refl eq_refl eq_refl).
Defined.

(** X17: a cycle never rewrites or reorders stored key events: after any
    call of [_analyze_text] the collection is the previous one followed by
    the events added, all stamped with the clock reading of this merge, less
    the oldest events that were evicted. *)
Theorem analysis_only_appends_events :
  forall (json_loads : str -> option json) (analyze : str -> option str)
         (now_merge now_done : Z) (text : str) (st : ContextAnalyzer.t),
    exists (k : nat) (added : list ContextAnalyzer.KeyEvent),
      items (ContextAnalyzer.key_events
               (ContextAnalyzer._analyze_text json_loads analyze now_merge
                  now_done text st))
      = skipn k (items (ContextAnalyzer.key_events st) ++ added)
      /\ Forall (fun e => ContextAnalyzer.ke_timestamp e = now_merge) added.
Proof.
  intros json_loads analyze now_merge now_done text st.
  pose proof (analyze_text_invariant
                (fun s => events_extended now_merge
                            (items (ContextAnalyzer.key_events st))
                            (items (ContextAnalyzer.key_events s)))
                now_merge
                (fun v s H => H) (fun v s H => H) (fun v s H => H)
                (fun e s He H =>
                   events_extended_append now_merge _
                     (ContextAnalyzer.key_events s) e He H)
                json_loads analyze now_done text st
                (events_extended_refl now_merge _))
    as (k & added & _ & Hitems & Hadded).
  now exists k, added.
Qed.

(** X18: when the response decodes to a value whose [key_info] is absent or
    a list of objects that all carry a type and a value, the cycle keeps the
    stored key events pairwise distinct on (type, value). *)
Theorem keyed_response_keeps_events_distinct :
  forall (json_loads : str -> option json) (analyze : str -> option str)
         (now_merge now_done : Z) (text : str) (st : ContextAnalyzer.t)
         (result_text cleaned : str) (result : json),
    analyze (ContextAnalyzer.build_prompt (ContextAnalyzer.truncate_text text))
    = Some result_text ->
    ContextAnalyzer.unwrap_response result_text = Ok cleaned ->
    json_loads cleaned = Some result ->
    well_keyed result = true ->
    Spec.unique_events (items (ContextAnalyzer.key_events st)) = true ->
    Spec.unique_events
      (items (ContextAnalyzer.key_events
                (ContextAnalyzer._analyze_text json_loads analyze now_merge
                   now_done text st))) = true.
Proof.
  intros json_loads analyze now_merge now_done text st result_text cleaned
    result Hanswer Hclean Hloads Hkeyed Hunique.
  rewrite (analyze_text_answered json_loads _ _ _ _ _ _ _ Hanswer Hclean), Hloads.
  assert (H : unique_state (snd (ContextAnalyzer.update_state result now_merge st))).
  { apply update_state_keeps_unique; [|exact Hunique].
    intros key_info infos Hget Hiter.
    destruct result as [| | | | |kv]; try discriminate.
    cbn [ContextAnalyzer.get well_keyed] in *.
    destruct (lookup (py "key_info") kv) as [v|].
    - injection Hget as <-.
      destruct v; try discriminate. cbn in Hiter. now injection Hiter as <-.
    - injection Hget as <-. cbn in Hiter. now injection Hiter as <-. }
  destruct (ContextAnalyzer.update_state result now_merge st) as [[[]|e] st'];
    exact H.
Qed.

Lemma keyed_response_keeps_events_distinct_witness :
  Spec.unique_events
    (items (ContextAnalyzer.key_events
              (ContextAnalyzer._analyze_text JsonLite.loads
                 (fun _ =>
                    Some (q "{'key_info': [{'type': 'otp', 'value': 1}, {'type': 'otp', 'value': 1}]}"))
                 1000000 1000001 (py "Inbox (3)") ContextAnalyzer.init_default)))
  = true.
Proof.
  exact (keyed_response_keeps_events_distinct JsonLite.loads
           (fun _ =>
              Some (q "{'key_info': [{'type': 'otp', 'value': 1}, {'type': 'otp', 'value': 1}]}"))
           1000000%Z 1000001%Z (py "Inbox (3)") ContextAnalyzer.init_default
           (q "{'key_info': [{'type': 'otp', 'value': 1}, {'type': 'otp', 'value': 1}]}")
           (q "{'key_info': [{'type': 'otp', 'value': 1}, {'type': 'otp', 'value': 1}]}")
           _ eq_refl eq_refl eq_refl eq_refl eq_refl).
Defined.

(** X19: [get_recent_key_events] returns stored events in the order of the
    collection, namely those whose timestamp, as a float, compares [>=] to
    the cutoff [now.timestamp() - minutes * 60], where the product is one
    of integers for an [int] argument such as the default 5; this holds for
    any float arithmetic.  When moreover a later time that follows one
    passing the cutoff passes it too, and the collection is ordered by time,
    these events are its tail: no event before them passes the cutoff. *)
Theorem get_recent_key_events_is_recent_tail :
  forall (F : PyFloat.arith) (now : Z) (minutes : PyFloat.number F)
         (st : ContextAnalyzer.t),
    let events := items (ContextAnalyzer.key_events st) in
    let cutoff :=
      PyFloat.sub F (PyFloat.timestamp F now)
        (match minutes with
         | PyFloat.Int _ n => PyFloat.of_int F (n * 60)
         | PyFloat.Float _ x => PyFloat.mul F x (PyFloat.of_int F 60)
         end) in
    let passes :=
      fun e : ContextAnalyzer.KeyEvent =>
        PyFloat.ge F (PyFloat.timestamp F (ContextAnalyzer.ke_timestamp e))
          cutoff in
    let recent := ContextAnalyzer.get_recent_key_events now minutes st in
    subseq recent events
    /\ (forall e, In e recent <-> In e events /\ passes e = true)
    /\ (monotone_clock F ->
        StronglySorted Z.le (map ContextAnalyzer.ke_timestamp events) ->
        exists older,
          events = older ++ recent
          /\ Forall (fun e => passes e = false) older).
Proof.
  intros F now minutes st events cutoff passes recent.
  assert (Hrecent : recent = filter passes events)
    by (unfold recent, passes, cutoff; now destruct minutes).
  rewrite Hrecent. split; [|split].
  - apply filter_subseq.
  - intros e. rewrite filter_In. reflexivity.
  - intros Hclock Hsorted.
    exact (filter_since_split _ ContextAnalyzer.ke_timestamp
             (fun t => PyFloat.ge F (PyFloat.timestamp F t) cutoff) events
             (fun earlier later Hle => Hclock earlier later cutoff Hle) Hsorted).
Qed.

Lemma get_recent_key_events_is_recent_tail_witness :
  exists older,
    [ContextAnalyzer.mkKeyEvent 10000000 JNull JNull JNull;
     ContextAnalyzer.mkKeyEvent 500000000 JNull JNull JNull]
    = older
      ++ ContextAnalyzer.get_recent_key_events 600000000
           (PyFloat.Int PyFloat.exact 5)
           (ContextAnalyzer.set_key_events
              (mkDeque 50
                 [ContextAnalyzer.mkKeyEvent 10000000 JNull JNull JNull;
                  ContextAnalyzer.mkKeyEvent 500000000 JNull JNull JNull])
              ContextAnalyzer.init_default)
    /\ Forall
         (fun e =>
            Qle_bool (Qmake 600000000 1000000 - inject_Z 300)
              (Qmake (ContextAnalyzer.ke_timestamp e) 1000000)
            = false)
         older.
Proof.
  apply (proj2 (proj2 (get_recent_key_events_is_recent_tail PyFloat.exact
                         600000000%Z (PyFloat.Int PyFloat.exact 5)
                         (ContextAnalyzer.set_key_events
                            (mkDeque 50
                               [ContextAnalyzer.mkKeyEvent 10000000 JNull JNull JNull;
                                ContextAnalyzer.mkKeyEvent 500000000 JNull JNull JNull])
                            ContextAnalyzer.init_default)))).
  - exact exact_monotone_clock.
  - cbn. repeat constructor; lia.
Defined.

(* ------------------------------------------------------------------------- *)
(** ** The application: which frames are read *)

Section AppFacts.

Import MemoryContextApp.

Lemma third_step (n : nat) :
  S n / 3 = n / 3 + (if S n mod 3 =? 0 then 1 else 0).
Proof.
  pose proof (Nat.div_mod_eq n 3) as H1.
  pose proof (Nat.mod_upper_bound n 3 ltac:(discriminate)) as H2.
  pose proof (Nat.div_mod_eq (S n) 3) as H3.
  pose proof (Nat.mod_upper_bound (S n) 3 ltac:(discriminate)) as H4.
  destruct (Nat.eqb_spec (S n mod 3) 0); lia.
Qed.

Lemma dispatch_flags_from (n : nat) :
  forall app : t,
    dispatch_flags n app
    = map (fun i => (i mod 3 =? 0)) (seq (_frame_count app + 1) n).
Proof.
  induction n as [|n IH]; intros app; [reflexivity|].
  cbn [dispatch_flags _on_frame_captured seq map]. f_equal.
  rewrite IH. cbn [_frame_count]. do 2 f_equal. lia.
Qed.

Lemma count_thirds (n : nat) :
  count_occ bool_dec (map (fun i => (i mod 3 =? 0)) (seq 1 n)) true = n / 3.
Proof.
  induction n as [|n IH]; [reflexivity|].
  rewrite seq_S, map_app, count_occ_app, IH. cbn [map count_occ Nat.add].
  rewrite third_step.
  destruct (S n mod 3 =? 0); destruct (bool_dec _ true); (reflexivity || congruence).
Qed.

Variable Image : Type.
Variable readtext : Image -> option (list (OCRExtractor.bbox * str * Q)).

(** What the application keeps while frames arrive. *)
Lemma on_frame_keeps (c : OCRExtractor.Call Image) (app : t)
    (records : list OCRExtractor.TextRecord) :
  stage_ok (ocr_extractor app) ->
  OCRExtractor.text_buffer (ocr_extractor app)
  = appends (deque_new _ 200) records ->
  _ocr_count app = length records ->
  3 * _ocr_count app <= _frame_count app ->
  let app' := on_frame readtext c app in
  exists records' : list OCRExtractor.TextRecord,
    stage_ok (ocr_extractor app')
    /\ OCRExtractor.text_buffer (ocr_extractor app')
       = appends (deque_new _ 200) records'
    /\ _ocr_count app' = length records'
    /\ 3 * _ocr_count app' <= _frame_count app'
    /\ _frame_count app' = S (_frame_count app).
Proof.
  intros Hok Hbuf Hcount Hthird. cbv zeta.
  unfold on_frame, _on_frame_captured.
  destruct (Nat.eqb_spec ((_frame_count app + 1) mod 3) 0) as [Hmod|Hmod].
  - unfold _process_frame_ocr. cbn [ocr_extractor _frame_count _ocr_count].
    pose proof (process_call_keeps Image readtext c _ Hok) as Hok'.
    unfold OCRExtractor.process_call in *.
    pose proof (proj1 Hok) as Hflag.
    rewrite (process_frame_cases Image readtext _ _ _ _ _ Hflag) in *.
    cbv zeta in *.
    pose proof (Nat.div_mod_eq (_frame_count app + 1) 3) as Hdiv.
    destruct (OCRExtractor.process_frame_enter _ (ocr_extractor app)).
    + destruct (has_visible (fst (OCRExtractor.extract_text readtext _))) eqn:Hv.
      * destruct (fst (OCRExtractor.extract_text readtext
                         (OCRExtractor.frame_image c))) as [|ch text] eqn:Etext;
          [discriminate|].
        eexists (records ++ [_]).
        cbn [ocr_extractor _frame_count _ocr_count OCRExtractor.text_buffer snd] in *.
        split; [exact Hok'|].
        split; [rewrite appends_snoc, <- Hbuf; reflexivity|].
        split; [rewrite length_app; cbn [length]; lia|].
        split; lia.
      * exists records. cbn [ocr_extractor _frame_count _ocr_count] in *.
        split; [exact Hok|]. split; [exact Hbuf|]. split; [exact Hcount|].
        split; lia.
    + exists records. cbn [ocr_extractor _frame_count _ocr_count] in *.
      split; [exact Hok|]. split; [exact Hbuf|]. split; [exact Hcount|].
      split; lia.
  - exists records. cbn [ocr_extractor _frame_count _ocr_count].
    split; [exact Hok|]. split; [exact Hbuf|]. split; [exact Hcount|].
    split; lia.
Qed.

Lemma on_frames_keep (calls : list (OCRExtractor.Call Image)) :
  forall (app : t) (records : list OCRExtractor.TextRecord),
    stage_ok (ocr_extractor app) ->
    OCRExtractor.text_buffer (ocr_extractor app)
    = appends (deque_new _ 200) records ->
    _ocr_count app = length records ->
    3 * _ocr_count app <= _frame_count app ->
    let app' := on_frames readtext calls app in
    exists records' : list OCRExtractor.TextRecord,
      OCRExtractor.text_buffer (ocr_extractor app')
      = appends (deque_new _ 200) records'
      /\ _ocr_count app' = length records'
      /\ 3 * _ocr_count app' <= _frame_count app'
      /\ _frame_count app' = _frame_count app + length calls.
Proof.
  induction calls as [|c calls IH]; intros app records Hok Hbuf Hcount Hthird.
  - exists records. cbn. repeat split; try assumption. lia.
  - destruct (on_frame_keeps c app records Hok Hbuf Hcount Hthird)
      as (records1 & Hok1 & Hbuf1 & Hcount1 & Hthird1 & Hframes1).
    destruct (IH _ records1 Hok1 Hbuf1 Hcount1 Hthird1)
      as (records' & Hbuf' & Hcount' & Hthird' & Hframes').
    exists records'. unfold on_frames in *. cbn [fold_left length].
    repeat split; try assumption. lia.
Qed.

End AppFacts.

(** X20: on a fresh application, the k-th captured frame is handed to OCR
    exactly when k is a multiple of 3, so of the first [n] frames [n / 3] are
    handed over. *)
Theorem every_third_frame_is_read :
  forall n : nat,
    dispatch_flags n MemoryContextApp.init
    = map (fun k => (k mod 3 =? 0)) (seq 1 n)
    /\ count_occ bool_dec (dispatch_flags n MemoryContextApp.init) true = n / 3.
Proof.
  intros n. rewrite dispatch_flags_from. cbn [MemoryContextApp._frame_count
    MemoryContextApp.init Nat.add].
  split; [reflexivity|apply count_thirds].
Qed.

(** X21: after any frames handled one after the other by a fresh
    application, the frame counter is the number of frames, the OCR counter
    is at most a third of it, and the text buffer reports
    [min (OCR counter) 200] entries: the counter counts exactly the records
    that were stored. *)
Theorem ocr_count_counts_stored_records :
  forall (Image : Type)
         (readtext : Image -> option (list (OCRExtractor.bbox * str * Q)))
         (calls : list (OCRExtractor.Call Image)),
    let app := MemoryContextApp.on_frames readtext calls MemoryContextApp.init in
    MemoryContextApp._frame_count app = length calls
    /\ 3 * MemoryContextApp._ocr_count app <= length calls
    /\ OCRExtractor.entry_count
         (OCRExtractor.get_buffer_stats (MemoryContextApp.ocr_extractor app))
       = Nat.min (MemoryContextApp._ocr_count app) 200.
Proof.
  intros Image readtext calls app.
  destruct (on_frames_keep Image readtext calls MemoryContextApp.init []
              stage_ok_init eq_refl eq_refl (Nat.le_0_l _))
    as (records & Hbuf & Hcount & Hthird & Hframes).
  fold app in Hbuf, Hcount, Hthird, Hframes.
  cbn [MemoryContextApp._frame_count MemoryContextApp.init Nat.add] in Hframes.
  repeat split; try lia.
  unfold OCRExtractor.get_buffer_stats. rewrite Hbuf, Hcount.
  pose proof (length_items_appends_new _ 200 records) as Hlen.
  destruct (items (appends (deque_new OCRExtractor.TextRecord 200) records));
    cbn [OCRExtractor.entry_count]; exact Hlen.
Qed.

(* ------------------------------------------------------------------------- *)
(** ** The panel *)

(** X22: where [position_above_icon] puts the panel.  On a screen at least
    [panel_width + 10] wide the panel lies between the left and the right
    edge of the available geometry; it is put 10 above the icon when that is
    not above the top edge, and 60 below the icon's position otherwise;
    without a screen it is put above the icon unchecked. *)
Theorem panel_stays_between_the_edges :
  forall (icon_x icon_y : Z) (geometry : InfoPanel.Geometry),
    (InfoPanel.left geometry + InfoPanel.panel_width + 10
     <= InfoPanel.right geometry)%Z ->
    let p := InfoPanel.position_above_icon icon_x icon_y (Some geometry) in
    (InfoPanel.left geometry <= fst p)%Z
    /\ (fst p + InfoPanel.panel_width <= InfoPanel.right geometry)%Z
    /\ (snd p
        = if (icon_y - InfoPanel.panel_height - 10 <? InfoPanel.top geometry)%Z
          then icon_y + 60 else icon_y - InfoPanel.panel_height - 10)%Z
    /\ InfoPanel.position_above_icon icon_x icon_y None
       = (icon_x, icon_y - InfoPanel.panel_height - 10)%Z.
Proof.
  intros icon_x icon_y geometry Hwide.
  unfold InfoPanel.position_above_icon, InfoPanel.panel_width,
    InfoPanel.panel_height in *. cbv zeta. cbn [fst snd].
  destruct (Z.ltb_spec (InfoPanel.right geometry) (icon_x + 400)) as [H1|H1];
    [destruct (Z.ltb_spec (InfoPanel.right geometry - 400 - 10)
                 (InfoPanel.left geometry)) as [H2|H2]
    |destruct (Z.ltb_spec icon_x (InfoPanel.left geometry)) as [H2|H2]];
    repeat split; lia.
Qed.

Lemma panel_stays_between_the_edges_witness :
  (fst (InfoPanel.position_above_icon 1800 1000
          (Some (InfoPanel.mkGeometry 0 1919 0)))
   + InfoPanel.panel_width <= 1919)%Z.
Proof.
  apply (proj1 (proj2 (panel_stays_between_the_edges 1800 1000
                         (InfoPanel.mkGeometry 0 1919 0) ltac:(cbn; lia)))).
Defined.

Section PanelFacts.

Variable qlabel_accepts : json -> bool.

(** The loop inserts the items of the events up to the first one whose item
    cannot be built, and raises there. *)
Lemma insert_items_spec (events : list ContextAnalyzer.KeyEvent) :
  let shown := fst (InfoPanel.insert_items qlabel_accepts events) in
  if snd (InfoPanel.insert_items qlabel_accepts events)
  then exists before event hidden,
         events = before ++ event :: hidden
         /\ shown = map InfoPanel.ItemWidget before
         /\ forallb (InfoPanel._create_key_info_item qlabel_accepts) before = true
         /\ InfoPanel._create_key_info_item qlabel_accepts event = false
  else shown = map InfoPanel.ItemWidget events
       /\ forallb (InfoPanel._create_key_info_item qlabel_accepts) events = true.
Proof.
  induction events as [|event rest IH]; [now split|].
  cbn [InfoPanel.insert_items].
  destruct (InfoPanel._create_key_info_item qlabel_accepts event) eqn:Hitem.
  - destruct (InfoPanel.insert_items qlabel_accepts rest) as [shown raised].
    cbn [fst snd] in *. destruct raised.
    + destruct IH as (before & e & hidden & -> & -> & Hbefore & He).
      exists (event :: before), e, hidden. cbn [forallb map app].
      rewrite Hitem, Hbefore. now repeat split.
    + destruct IH as [-> Hall]. cbn [forallb map]. rewrite Hitem, Hall.
      now split.
  - cbn [fst snd]. exists [], event, rest. now repeat split.
Qed.

End PanelFacts.

(** X23: [_update_key_info] on a snapshot of the key events.  An empty
    snapshot gives the label of the empty list alone.  Otherwise the loop
    goes through the 10 most recent events (all of them when there are at
    most 10), newest first: when the item of each of them can be built the
    panel shows them all, the newest on top; when not, the loop raises at
    the first event whose item cannot be built (its type is not a text, or
    its context is true, not a text, and refused by [QLabel]), and the panel
    is left with the items of the events before it.  Events whose type and
    context are texts never make it raise. *)
Theorem panel_shows_ten_newest_first :
  forall (qlabel_accepts : json -> bool)
         (key_events : list ContextAnalyzer.KeyEvent),
    let last10 := rev (skipn (length key_events - 10) key_events) in
    let buildable := InfoPanel._create_key_info_item qlabel_accepts in
    let shown := fst (InfoPanel._update_key_info qlabel_accepts key_events) in
    let raised := snd (InfoPanel._update_key_info qlabel_accepts key_events) in
    (key_events = [] -> shown = [InfoPanel.NoInfoLabel] /\ raised = false)
    /\ (key_events <> [] ->
        length last10 = Nat.min (length key_events) 10
        /\ hd_error last10 = ScreenCapture.newest key_events
        /\ (raised = false <-> forallb buildable last10 = true)
        /\ (raised = false -> shown = map InfoPanel.ItemWidget last10)
        /\ (raised = true ->
            exists before event hidden,
              last10 = before ++ event :: hidden
              /\ shown = map InfoPanel.ItemWidget before
              /\ forallb buildable before = true
              /\ buildable event = false)
        /\ ((forall event, In event last10 ->
               (exists type, ContextAnalyzer.ke_type event = JStr type)
               /\ (exists context, ContextAnalyzer.ke_context event = JStr context)) ->
            raised = false)).
Proof.
  intros qlabel_accepts key_events last10 buildable shown raised.
  split.
  - intros ->. now split.
  - intros Hne.
    assert (Hrun : InfoPanel._update_key_info qlabel_accepts key_events
                   = InfoPanel.insert_items qlabel_accepts last10)
      by (destruct key_events; [contradiction|reflexivity]).
    pose proof (insert_items_spec qlabel_accepts last10) as Hspec.
    cbv zeta in Hspec. unfold shown, raised. rewrite Hrun.
    assert (Hiff : snd (InfoPanel.insert_items qlabel_accepts last10) = false
                   <-> forallb buildable last10 = true).
    { destruct (snd (InfoPanel.insert_items qlabel_accepts last10)).
      - destruct Hspec as (before & event & hidden & -> & _ & _ & Hevent).
        split; [discriminate|]. intros Hall. exfalso.
        rewrite forallb_app in Hall. apply andb_true_iff in Hall as [_ Hall].
        cbn [forallb] in Hall. unfold buildable in Hall.
        rewrite Hevent in Hall. discriminate.
      - split; [intros _; exact (proj2 Hspec)|reflexivity]. }
    split; [|split; [|split; [|split; [|split]]]].
    + unfold last10. rewrite length_rev, length_skipn. lia.
    + unfold last10.
      destruct key_events as [|x l] using rev_ind; [contradiction|].
      rewrite newest_snoc, skipn_app, rev_app_distr, length_app. cbn [length].
      replace (length l + 1 - 10 - length l) with 0 by lia. reflexivity.
    + exact Hiff.
    + intros Hraised. rewrite Hraised in Hspec. exact (proj1 Hspec).
    + intros Hraised. rewrite Hraised in Hspec. exact Hspec.
    + intros Htexts. apply Hiff. apply forallb_forall. intros event Hin.
      destruct (Htexts event Hin) as [[type Htype] [context Hcontext]].
      unfold buildable, InfoPanel._create_key_info_item.
      rewrite Htype, Hcontext. now destruct (InfoPanel.truthy (JStr context)).
Qed.

(* ------------------------------------------------------------------------- *)
(** ** Analyzing the same response again *)

Section Idempotence.

Import ContextAnalyzer.

Lemma py_eqb_scalar_refl (v : json) : is_scalar v = true -> py_eqb v v = true.
Proof.
  destruct v as [|b|z|x| |]; try discriminate; intros _; cbn.
  - reflexivity.
  - now destruct b.
  - apply Z.eqb_refl.
  - apply str_eqb_refl.
Qed.

Lemma covered_app (events more : list KeyEvent) (info : json) :
  covered events info = true -> covered (events ++ more) info = true.
Proof.
  destruct info as [| | | | |kv]; try discriminate.
  cbn [covered]. rewrite existsb_app. now intros ->.
Qed.

Lemma set_current_activity_same (st : t) :
  set_current_activity (current_activity st) st = st.
Proof. now destruct st. Qed.

Lemma set_current_app_same (st : t) :
  set_current_app (current_app st) st = st.
Proof. now destruct st. Qed.

Lemma get_or_idem (kv : list (str * json)) (k : str) (d : json) :
  get_or kv k (get_or kv k d) = get_or kv k d.
Proof. unfold get_or. now destruct (lookup k kv). Qed.

(** The loop leaves activity and application alone. *)
Lemma for_each_merge_frame (timestamp : Z) (infos : list json) (st : t) :
  let st' := snd (for_each infos (merge_info timestamp) st) in
  current_activity st' = current_activity st
  /\ current_app st' = current_app st.
Proof.
  cbv zeta.
  apply (for_each_keeps _ _
           (fun s => current_activity s = current_activity st
                     /\ current_app s = current_app st));
    [|now split].
  intros info s _ Hs.
  destruct (merge_info_cases timestamp info s) as [-> | [e [_ ->]]]; exact Hs.
Qed.

(** A turn for an item that is already covered changes nothing. *)
Lemma merge_info_covered (timestamp : Z) (info : json) (st : t) :
  covered (items (key_events st)) info = true ->
  merge_info timestamp info st = (Ok tt, st).
Proof.
  destruct info as [| | | | |kv]; try discriminate.
  cbn [covered]. unfold get_or. intros H.
  unfold merge_info, bind, lift, get_state, ret.
  now rewrite is_duplicate_dict, H.
Qed.

Lemma for_each_covered (timestamp : Z) (infos : list json) (st : t) :
  (forall info, In info infos -> covered (items (key_events st)) info = true) ->
  for_each infos (merge_info timestamp) st = (Ok tt, st).
Proof.
  induction infos as [|info infos IH]; intros Hall; [reflexivity|].
  cbn [for_each]. unfold bind.
  rewrite (merge_info_covered timestamp info st) by (apply Hall; now left).
  apply IH. intros info' Hin. apply Hall. now right.
Qed.

(** A turn below capacity for an item with a scalar key: the events grow on
    the right by at most one, and the item is covered afterwards. *)
Lemma merge_info_keyed (timestamp : Z) (info : json) (st : t) :
  keyed_scalar info = true ->
  length (items (key_events st)) < maxlen (key_events st) ->
  let st' := snd (merge_info timestamp info st) in
  maxlen (key_events st') = maxlen (key_events st)
  /\ covered (items (key_events st')) info = true
  /\ exists added,
       items (key_events st') = items (key_events st) ++ added
       /\ length added <= 1.
Proof.
  intros Hinfo Hroom. cbv zeta.
  destruct info as [| | | | |kv]; try discriminate.
  cbn [keyed_scalar] in Hinfo.
  unfold merge_info, bind, lift, get_state, modify, ret.
  rewrite is_duplicate_dict. cbn [get covered]. unfold get_or.
  destruct (lookup (py "type") kv) as [ty|]; [|discriminate].
  destruct (lookup (py "value") kv) as [v|]; [|discriminate].
  apply andb_true_iff in Hinfo as [Hty Hv].
  destruct (existsb _ (items (key_events st))) eqn:E.
  - cbn [snd]. repeat split; [exact E|]. exists []. rewrite app_nil_r.
    split; [reflexivity|cbn; lia].
  - assert (Hitems : forall c,
               items (append (key_events st) (mkKeyEvent timestamp ty v c))
               = items (key_events st) ++ [mkKeyEvent timestamp ty v c]).
    { intros c. unfold append. cbn [items].
      destruct (Nat.ltb_spec (maxlen (key_events st))
                  (length (items (key_events st) ++ [mkKeyEvent timestamp ty v c])))
        as [Hlt|Hge]; [|reflexivity].
      rewrite length_app in Hlt. cbn [length] in Hlt. lia. }
    destruct (lookup (py "context") kv) as [c|];
      cbn [snd set_key_events key_events maxlen append];
      (split; [reflexivity|]; rewrite Hitems; split;
       [rewrite existsb_app; cbn [existsb ke_type ke_value];
        now rewrite (py_eqb_scalar_refl ty Hty), (py_eqb_scalar_refl v Hv),
          orb_true_r
       |eexists; split; [reflexivity|cbn; lia]]).
Qed.

(** The loop below capacity over items with scalar keys covers them all. *)
Lemma for_each_keyed (timestamp : Z) (infos : list json) :
  forallb keyed_scalar infos = true ->
  forall st : t,
    length (items (key_events st)) + length infos <= maxlen (key_events st) ->
    let st' := snd (for_each infos (merge_info timestamp) st) in
    maxlen (key_events st') = maxlen (key_events st)
    /\ (forall info, In info infos ->
                     covered (items (key_events st')) info = true)
    /\ exists added,
         items (key_events st') = items (key_events st) ++ added
         /\ length added <= length infos.
Proof.
  induction infos as [|info infos IH]; intros Hall st Hroom; cbv zeta.
  - cbn. repeat split; [intros info []|]. exists []. now rewrite app_nil_r.
  - cbn [forallb] in Hall. apply andb_true_iff in Hall as [Hinfo Hall].
    cbn [length] in Hroom.
    destruct (merge_info_keyed timestamp info st Hinfo ltac:(lia))
      as (Hmax1 & Hcov1 & added1 & Hitems1 & Hlen1).
    cbn [for_each]. unfold bind.
    assert (Hok : fst (merge_info timestamp info st) = Ok tt).
    { destruct info as [| | | | |kv]; try discriminate. apply merge_info_dict. }
    destruct (merge_info timestamp info st) as [[[]|e] st1]; [|discriminate].
    cbn [snd] in *.
    assert (Hroom1 : length (items (key_events st1)) + length infos
                     <= maxlen (key_events st1)).
    { rewrite Hmax1, Hitems1, length_app. lia. }
    destruct (IH Hall st1 Hroom1) as (Hmax & Hcov & added & Hitems & Hlen).
    split; [congruence|]. split.
    + intros info' [<- | Hin]; [|now apply Hcov].
      rewrite Hitems. now apply covered_app.
    + exists (added1 ++ added). rewrite Hitems, Hitems1, <- app_assoc.
      split; [reflexivity|]. rewrite length_app. cbn [length]. lia.
Qed.

End Idempotence.

(** X24: analyzing the same response a second time changes nothing but the
    time of the last analysis.  This holds when the response decodes to an
    object whose [key_info] is absent or a list of objects that each carry a
    type and a value that are [None], booleans, integers or strings, and
    when the first merge had room for all these items without eviction. *)
Theorem second_analysis_adds_nothing :
  forall (json_loads : str -> option json) (analyze : str -> option str)
         (now_merge now_done now_merge' now_done' : Z) (text : str)
         (st : ContextAnalyzer.t) (result_text cleaned : str)
         (kv : list (str * json)) (infos : list json),
    analyze (ContextAnalyzer.build_prompt (ContextAnalyzer.truncate_text text))
    = Some result_text ->
    ContextAnalyzer.unwrap_response result_text = Ok cleaned ->
    json_loads cleaned = Some (JDict kv) ->
    get_or kv (py "key_info") (JList []) = JList infos ->
    forallb keyed_scalar infos = true ->
    length (items (ContextAnalyzer.key_events st)) + length infos
    <= maxlen (ContextAnalyzer.key_events st) ->
    let st1 :=
      ContextAnalyzer._analyze_text json_loads analyze now_merge now_done text st in
    ContextAnalyzer._analyze_text json_loads analyze now_merge' now_done' text st1
    = ContextAnalyzer.set_last_analysis_time (Some now_done') st1.
Proof.
  intros json_loads analyze now_merge now_done now_merge' now_done' text st
    result_text cleaned kv infos Hanswer Hclean Hloads Hinfos Hkeyed Hroom st1.
  assert (Hdicts : forallb Spec.is_dict infos = true).
  { apply forallb_forall. intros info Hin.
    rewrite forallb_forall in Hkeyed. specialize (Hkeyed info Hin).
    now destruct info. }
  set (st0 := ContextAnalyzer.set_current_app
                (get_or kv (py "application") (ContextAnalyzer.current_app st))
                (ContextAnalyzer.set_current_activity
                   (get_or kv (py "activity") (ContextAnalyzer.current_activity st))
                   st)).
  set (merged := snd (for_each infos (ContextAnalyzer.merge_info now_merge) st0)).
  assert (Hst1 : st1 = ContextAnalyzer.set_last_analysis_time (Some now_done) merged).
  { unfold st1.
    rewrite (analyze_text_answered json_loads _ _ _ _ _ _ _ Hanswer Hclean), Hloads.
    rewrite update_state_dict. cbv zeta. rewrite Hinfos.
    cbn [ContextAnalyzer.iterate]. fold st0.
    pose proof (for_each_merge_dicts now_merge infos Hdicts st0) as Hok.
    unfold merged.
    destruct (for_each infos (ContextAnalyzer.merge_info now_merge) st0)
      as [[[]|e] s]; [reflexivity|discriminate]. }
  destruct (for_each_keyed now_merge infos Hkeyed st0 Hroom) as (_ & Hcov & _).
  fold merged in Hcov.
  destruct (for_each_merge_frame now_merge infos st0) as [Hact Happ].
  fold merged in Hact, Happ.
  rewrite (analyze_text_answered json_loads _ _ _ _ _ _ _ Hanswer Hclean), Hloads.
  rewrite update_state_dict. cbv zeta. rewrite Hinfos.
  cbn [ContextAnalyzer.iterate].
  assert (Ha : get_or kv (py "activity") (ContextAnalyzer.current_activity st1)
               = ContextAnalyzer.current_activity st1).
  { rewrite Hst1. cbn [ContextAnalyzer.set_last_analysis_time
                       ContextAnalyzer.current_activity].
    rewrite Hact. unfold st0. cbn [ContextAnalyzer.set_current_app
      ContextAnalyzer.set_current_activity ContextAnalyzer.current_activity].
    apply get_or_idem. }
  assert (Hb : get_or kv (py "application") (ContextAnalyzer.current_app st1)
               = ContextAnalyzer.current_app st1).
  { rewrite Hst1. cbn [ContextAnalyzer.set_last_analysis_time
                       ContextAnalyzer.current_app].
    rewrite Happ. unfold st0. cbn [ContextAnalyzer.set_current_app
      ContextAnalyzer.set_current_activity ContextAnalyzer.current_app].
    apply get_or_idem. }
  rewrite Ha, set_current_activity_same, Hb, set_current_app_same.
  rewrite for_each_covered; [reflexivity|].
  intros info Hin. rewrite Hst1.
  cbn [ContextAnalyzer.set_last_analysis_time ContextAnalyzer.key_events].
  now apply Hcov.
Qed.

Lemma second_analysis_adds_nothing_witness :
  let response :=
    q "{'activity': 'banking', 'key_info': [{'type': 'otp', 'value': '999111'}]}" in
  let st1 :=
    ContextAnalyzer._analyze_text JsonLite.loads (fun _ => Some response) 1 2
      (py "OTP is 999111") ContextAnalyzer.init_default in
  ContextAnalyzer._analyze_text JsonLite.loads (fun _ => Some response) 11 12
    (py "OTP is 999111") st1
  = ContextAnalyzer.set_last_analysis_time (Some 12%Z) st1.
Proof.
  exact (second_analysis_adds_nothing JsonLite.loads
           (fun _ =>
              Some (q "{'activity': 'banking', 'key_info': [{'type': 'otp', 'value': '999111'}]}"))
           1%Z 2%Z 11%Z 12%Z (py "OTP is 999111") ContextAnalyzer.init_default
           (q "{'activity': 'banking', 'key_info': [{'type': 'otp', 'value': '999111'}]}")
           (q "{'activity': 'banking', 'key_info': [{'type': 'otp', 'value': '999111'}]}")
           [(py "activity", JStr (py "banking"));
            (py "key_info",
             JList [JDict [(py "type", JStr (py "otp"));
                           (py "value", JStr (py "999111"))]])]
           [JDict [(py "type", JStr (py "otp")); (py "value", JStr (py "999111"))]]
           eq_refl eq_refl eq_refl eq_refl eq_refl ltac:(cbn; lia)).
Defined.

(* ------------------------------------------------------------------------- *)
(** ** Responses of another shape *)


